(** * chessdriller: synchronising Lichess studies with the repertoire

    A shallow embedding of [src/lib/lichessStudy.js].  The JavaScript
    functions are [async] and talk to a Prisma client; here they are
    programs of a state-and-exception monad over an explicit [Store]
    holding the four tables the file touches (LichessStudy,
    LichessStudyUpdate, Move, User) together with the trace of calls made
    to the Lichess API.  External collaborators (the Lichess API, the PGN
    parser, the move diff, the clock and storage faults) are the fields of
    an environment record [Env].  The storage engine can refuse a batch
    handed to [$transaction] and the [User.update] that follows the batch
    of [fetchAllStudyChanges]; any other single query fails only when the
    record it addresses is missing.

    The Prisma schema is not part of the sources.  What the model takes
    from it: ids are integers, [id] is the primary key of each table, a
    new study is stamped with its creation time and is neither included
    nor hidden nor removed, a new move is not deleted, [studyId] identifies
    the pending update of a study, and deleting a study removes its edges
    and its pending update.  A [Date] is its number of milliseconds. *)

From Stdlib Require Import ZArith List String Bool Lia DecimalString RelationClasses.
Import ListNotations.
Open Scope Z_scope.

Set Implicit Arguments.

(** ** Values *)

(** A JavaScript [Date], compared through its millisecond value. *)
Definition Date := Z.

(** ['Study #' + study_id]: a number printed in decimal. *)
Definition string_of_Z (z : Z) : string := NilZero.string_of_int (Z.to_int z).

(** Membership in a JavaScript [Set] of strings / a list of ids. *)
Definition Set_has (s : list string) (x : string) : bool :=
  existsb (String.eqb x) s.

Definition mem_id (x : Z) (l : list Z) : bool := existsb (Z.eqb x) l.

(** ** Data model (the rows the source reads and writes) *)

Module LichessStudy.
Record t := mk {
  id : Z;
  lichessId : string;
  userId : Z;
  lastModifiedOnLichess : Date;
  lastFetched : Date;
  name : string;
  pgn : string;
  guessedColor : string;
  previewFen : string;
  included : bool;
  hidden : bool;
  removedOnLichess : bool;
  repForWhite : option bool
}.

(** The [data] object of [prisma.LichessStudy.update]: the fields that
    are present are written, the others are left alone.  [moves_set] is
    [moves: { set: [...] }], the list of move ids the study is to be
    connected to (all other edges of the study are removed). *)
Record data := mkdata {
  set_name : option string;
  set_removedOnLichess : option bool;
  set_included : option bool;
  set_repForWhite : option bool;
  set_lastModifiedOnLichess : option Date;
  set_lastFetched : option Date;
  set_pgn : option string;
  moves_set : option (list Z)
}.

(** The [data] object of [prisma.LichessStudy.create] in
    [fetchAllStudyChanges]. *)
Record create_data := mkcreate {
  c_lichessId : string;
  c_userId : Z;
  c_lastModifiedOnLichess : Date;
  c_name : string;
  c_pgn : string;
  c_guessedColor : string;
  c_previewFen : string
}.

Definition or_else {A} (o : option A) (d : A) : A :=
  match o with Some a => a | None => d end.

Definition apply (d : data) (s : t) : t :=
  mk (id s) (lichessId s) (userId s)
     (or_else (set_lastModifiedOnLichess d) (lastModifiedOnLichess s))
     (or_else (set_lastFetched d) (lastFetched s))
     (or_else (set_name d) (name s))
     (or_else (set_pgn d) (pgn s))
     (guessedColor s) (previewFen s)
     (or_else (set_included d) (included s))
     (hidden s)
     (or_else (set_removedOnLichess d) (removedOnLichess s))
     (match set_repForWhite d with Some b => Some b | None => repForWhite s end).
End LichessStudy.

Module LichessStudyUpdate.
Record t := mk {
  studyId : Z;
  fetched : Date;
  lastModifiedOnLichess : Date;
  numNewMoves : nat;
  numNewOwnMoves : nat;
  numRemovedMoves : nat;
  numRemovedOwnMoves : nat;
  pgn : string
}.
End LichessStudyUpdate.

(** What [pgndbToMoves] yields for one ply, and what [fetchStudyUpdate]
    selects of a stored move. *)
Module MoveData.
Record t := mk {
  repForWhite : bool;
  ownMove : bool;
  fromFen : string;
  toFen : string
}.
End MoveData.

Module Move.
Record t := mk {
  id : Z;
  userId : Z;
  repForWhite : bool;
  ownMove : bool;
  fromFen : string;
  toFen : string;
  deleted : bool;
  studies : list Z;   (* ids of the owning studies *)
  pgns : list Z       (* ids of the owning uploaded PGNs *)
}.

(** [userId_repForWhite_fromFen_toFen], the composite identity key. *)
Record key := mkkey {
  k_userId : Z;
  k_repForWhite : bool;
  k_fromFen : string;
  k_toFen : string
}.

(** [create: move] after [move.userId = ...; move.studies = {connect}]. *)
Record create_data := mkcreate {
  c_userId : Z;
  c_move : MoveData.t;
  c_connect : list Z
}.

(** [update: { studies: {connect}, deleted }] and [data: { deleted }]. *)
Record update_data := mkupdate {
  u_connect : list Z;
  u_deleted : option bool
}.

Definition has_key (k : key) (m : t) : bool :=
  (userId m =? k_userId k) && Bool.eqb (repForWhite m) (k_repForWhite k)
  && String.eqb (fromFen m) (k_fromFen k) && String.eqb (toFen m) (k_toFen k).

Definition select (m : t) : MoveData.t :=
  MoveData.mk (repForWhite m) (ownMove m) (fromFen m) (toFen m).

Definition with_studies (l : list Z) (m : t) : t :=
  mk (id m) (userId m) (repForWhite m) (ownMove m) (fromFen m) (toFen m)
     (deleted m) l (pgns m).

Definition with_deleted (b : bool) (m : t) : t :=
  mk (id m) (userId m) (repForWhite m) (ownMove m) (fromFen m) (toFen m)
     b (studies m) (pgns m).
End Move.

Module User.
Record t := mk {
  id : Z;
  lichessUsername : string;
  lichessAccessToken : string;
  lastRepertoireUpdateCheck : option Date
}.
End User.

(** One entry of [fetchStudiesMetadata]'s answer. *)
Module Metadata.
Record t := mk {
  id : string;
  name : string;
  updatedAt : Date
}.
End Metadata.

(** A study as [findMany] returns it, with its [updates] relation.  The
    [select] of the source names the fields it reads (of an update only
    [fetched]); the model hands over the rows and reads the same fields. *)
Module Existing.
Record t := mk {
  study : LichessStudy.t;
  updates : list LichessStudyUpdate.t
}.
Definition id (e : t) := LichessStudy.id (study e).
Definition lichessId (e : t) := LichessStudy.lichessId (study e).
Definition lastFetched (e : t) := LichessStudy.lastFetched (study e).
Definition name (e : t) := LichessStudy.name (study e).
Definition included (e : t) := LichessStudy.included (study e).
Definition hidden (e : t) := LichessStudy.hidden (study e).
Definition removedOnLichess (e : t) := LichessStudy.removedOnLichess (study e).
End Existing.

(** ** The store and the queries *)

Inductive RemoteCall :=
| call_fetchStudiesMetadata (username token : string)
| call_fetchStudy (lichess_id username token : string).

Record Store := mkStore {
  LichessStudy_table : list LichessStudy.t;
  LichessStudyUpdate_table : list LichessStudyUpdate.t;
  move_table : list Move.t;
  User_table : list User.t;
  remote_calls : list RemoteCall
}.

(** The Prisma promises that the source collects in [queries] and hands
    to [prisma.$transaction]. *)
Inductive Query :=
| LichessStudy_update (id : Z) (d : LichessStudy.data)
| LichessStudy_delete (id : Z)
| move_upsert (where_ : Move.key) (create : Move.create_data) (update : Move.update_data)
| move_update (id : Z) (d : Move.update_data).

Inductive Exn :=
| Error (message : string)
| TypeError (message : string)
| NotFoundError (message : string)
| PrismaClientKnownRequestError (message : string).

Definition message (e : Exn) : string :=
  match e with
  | Error m | TypeError m | NotFoundError m | PrismaClientKnownRequestError m => m
  end.

Inductive Outcome (A : Type) :=
| Return (a : A)
| Throw (e : Exn).
Arguments Return {A} a.
Arguments Throw {A} e.

(** ** Table operations *)

Definition find_study (id : Z) (l : list LichessStudy.t) : option LichessStudy.t :=
  find (fun s => LichessStudy.id s =? id) l.

Definition find_move (id : Z) (l : list Move.t) : option Move.t :=
  find (fun m => Move.id m =? id) l.

Definition find_user (id : Z) (l : list User.t) : option User.t :=
  find (fun u => User.id u =? id) l.

Definition find_update (study_id : Z) (l : list LichessStudyUpdate.t) :=
  find (fun u => LichessStudyUpdate.studyId u =? study_id) l.

(** Autoincrement: an id above every id of the table. *)
Definition fresh_id (ids : list Z) : Z := 1 + fold_right Z.max 0 ids.

Definition update_study (id : Z) (d : LichessStudy.data) (l : list LichessStudy.t) :=
  map (fun s => if LichessStudy.id s =? id then LichessStudy.apply d s else s) l.

Definition delete_study (id : Z) (l : list LichessStudy.t) :=
  filter (fun s => negb (LichessStudy.id s =? id)) l.

(** The many-to-many relation between moves and studies. *)
Definition connect_study (sid : Z) (m : Move.t) : Move.t :=
  if mem_id sid (Move.studies m) then m
  else Move.with_studies (Move.studies m ++ [sid]) m.

Definition disconnect_study (sid : Z) (m : Move.t) : Move.t :=
  Move.with_studies (filter (fun x => negb (x =? sid)) (Move.studies m)) m.

(** [moves: { set: ids }] on study [sid]. *)
Definition set_study_moves (sid : Z) (ids : list Z) (l : list Move.t) :=
  map (fun m => if mem_id (Move.id m) ids then connect_study sid m
                else disconnect_study sid m) l.

(** [study.moves]: the moves connected to the study. *)
Definition study_moves (sid : Z) (l : list Move.t) : list Move.t :=
  filter (fun m => mem_id sid (Move.studies m)) l.

Definition apply_move_update (d : Move.update_data) (m : Move.t) : Move.t :=
  let m' := fold_left (fun m sid => connect_study sid m) (Move.u_connect d) m in
  match Move.u_deleted d with
  | Some b => Move.with_deleted b m'
  | None => m'
  end.

Definition update_move (id : Z) (d : Move.update_data) (l : list Move.t) :=
  map (fun m => if Move.id m =? id then apply_move_update d m else m) l.

Definition create_move (c : Move.create_data) (l : list Move.t) : list Move.t :=
  let md := Move.c_move c in
  l ++ [ fold_left (fun m sid => connect_study sid m) (Move.c_connect c)
           (Move.mk (fresh_id (map Move.id l)) (Move.c_userId c)
              (MoveData.repForWhite md) (MoveData.ownMove md)
              (MoveData.fromFen md) (MoveData.toFen md) false [] []) ].

Definition upsert_update (u : LichessStudyUpdate.t) (l : list LichessStudyUpdate.t) :=
  match find_update (LichessStudyUpdate.studyId u) l with
  | Some _ =>
      map (fun x => if LichessStudyUpdate.studyId x =? LichessStudyUpdate.studyId u
                    then u else x) l
  | None => l ++ [u]
  end.

Definition all_studies_exist (ids : list Z) (l : list LichessStudy.t) : bool :=
  forallb (fun sid => match find_study sid l with Some _ => true | None => false end) ids.

(** ** Environment: the collaborators of [lichessStudy.js]

    [$lib/lichessApi.js], [$lib/pgnParsing.js] and [$lib/movesUtil.js] are
    imported by the source; their results are inputs of the model.  A
    collaborator that can reject (network, parser) answers with an
    [Outcome].  [now] is what [new Date()] reads, [transaction_fault] is
    the storage engine refusing to commit a batch, and [User_update_fault]
    is the storage engine rejecting the [prisma.User.update] that follows
    the batch of [fetchAllStudyChanges] (lines 138-141), which no [try]
    encloses. *)
Record Env := mkEnv {
  fetchStudiesMetadata : string -> string -> Outcome (list Metadata.t);
  fetchStudy : string -> string -> string -> Outcome (string * Date);
  pgndbToMoves : string -> option bool -> option bool -> Outcome (list MoveData.t);
  guessColor : string -> string;
  makePreviewFen : string -> string;
  compareMovesLists :
    list MoveData.t -> list MoveData.t -> list MoveData.t * list MoveData.t;
  now : Date;
  transaction_fault : list Query -> option Exn;
  User_update_fault : Z -> option Exn
}.

(** ** Semantics of one query

    Prisma rejects an [update] or [delete] whose record does not exist and
    a [connect] to a record that does not exist.  Deleting a study removes
    its rows of the implicit many-to-many table and its pending update. *)

Definition with_studies (l : list LichessStudy.t) (st : Store) : Store :=
  mkStore l (LichessStudyUpdate_table st) (move_table st) (User_table st)
          (remote_calls st).

Definition with_updates (l : list LichessStudyUpdate.t) (st : Store) : Store :=
  mkStore (LichessStudy_table st) l (move_table st) (User_table st)
          (remote_calls st).

Definition with_moves (l : list Move.t) (st : Store) : Store :=
  mkStore (LichessStudy_table st) (LichessStudyUpdate_table st) l (User_table st)
          (remote_calls st).

Definition with_users (l : list User.t) (st : Store) : Store :=
  mkStore (LichessStudy_table st) (LichessStudyUpdate_table st) (move_table st) l
          (remote_calls st).

Definition with_call (c : RemoteCall) (st : Store) : Store :=
  mkStore (LichessStudy_table st) (LichessStudyUpdate_table st) (move_table st)
          (User_table st) (remote_calls st ++ [c]).

Definition record_not_found : Exn :=
  PrismaClientKnownRequestError "An operation failed because it depends on one or more records that were required but not found.".

Definition exec (q : Query) (st : Store) : Outcome Store :=
  match q with
  | LichessStudy_update id d =>
      match find_study id (LichessStudy_table st) with
      | None => Throw record_not_found
      | Some _ =>
          let st' := with_studies (update_study id d (LichessStudy_table st)) st in
          match LichessStudy.moves_set d with
          | None => Return st'
          | Some ids => Return (with_moves (set_study_moves id ids (move_table st)) st')
          end
      end
  | LichessStudy_delete id =>
      match find_study id (LichessStudy_table st) with
      | None => Throw record_not_found
      | Some _ =>
          Return (mkStore
                    (delete_study id (LichessStudy_table st))
                    (filter (fun u => negb (LichessStudyUpdate.studyId u =? id))
                            (LichessStudyUpdate_table st))
                    (map (disconnect_study id) (move_table st))
                    (User_table st) (remote_calls st))
      end
  | move_upsert k c u =>
      match find (Move.has_key k) (move_table st) with
      | Some m =>
          if all_studies_exist (Move.u_connect u) (LichessStudy_table st)
          then Return (with_moves (update_move (Move.id m) u (move_table st)) st)
          else Throw record_not_found
      | None =>
          if all_studies_exist (Move.c_connect c) (LichessStudy_table st)
          then Return (with_moves (create_move c (move_table st)) st)
          else Throw record_not_found
      end
  | move_update id d =>
      match find_move id (move_table st) with
      | None => Throw record_not_found
      | Some _ =>
          if all_studies_exist (Move.u_connect d) (LichessStudy_table st)
          then Return (with_moves (update_move id d (move_table st)) st)
          else Throw record_not_found
      end
  end.

Fixpoint exec_all (qs : list Query) (st : Store) : Outcome Store :=
  match qs with
  | [] => Return st
  | q :: qs' =>
      match exec q st with
      | Return st' => exec_all qs' st'
      | Throw e => Throw e
      end
  end.

(** ** The monad of the async functions: state and exceptions.  A thrown
    exception keeps the writes already made (only [$transaction] rolls
    back). *)

Definition M (A : Type) : Type := Store -> Outcome A * Store.

Definition ret {A} (a : A) : M A := fun st => (Return a, st).

Definition throw {A} (e : Exn) : M A := fun st => (Throw e, st).

Definition bind {A B} (m : M A) (k : A -> M B) : M B :=
  fun st =>
    match m st with
    | (Return a, st') => k a st'
    | (Throw e, st') => (Throw e, st')
    end.

Definition try_catch {A} (m : M A) (handler : Exn -> M A) : M A :=
  fun st =>
    match m st with
    | (Return a, st') => (Return a, st')
    | (Throw e, st') => handler e st'
    end.

Declare Scope prisma_scope.
Delimit Scope prisma_scope with prisma.
Notation "x <- m ;; k" := (bind m (fun x => k))
  (at level 100, m at next level, right associativity) : prisma_scope.
Notation "' p <- m ;; k" := (bind m (fun x => let p := x in k))
  (at level 100, p pattern, m at next level, right associativity) : prisma_scope.
Notation "m ;;; k" := (bind m (fun _ => k))
  (at level 100, right associativity) : prisma_scope.
Open Scope prisma_scope.

(** [for (const x of xs) { ... }] over the mutable locals [acc]. *)
Fixpoint for_of {A L} (xs : list A) (body : A -> L -> M L) (acc : L) : M L :=
  match xs with
  | [] => ret acc
  | x :: xs' => acc' <- body x acc ;; for_of xs' body acc'
  end.

(** A query awaited on its own. *)
Definition await (q : Query) : M unit :=
  fun st =>
    match exec q st with
    | Return st' => (Return tt, st')
    | Throw e => (Throw e, st)
    end.

Definition updates_of (study_id : Z) (st : Store) : list LichessStudyUpdate.t :=
  filter (fun u => LichessStudyUpdate.studyId u =? study_id)
         (LichessStudyUpdate_table st).

Definition LichessStudy_findMany (user_id : Z) : M (list Existing.t) :=
  fun st =>
    (Return (map (fun s => Existing.mk s (updates_of (LichessStudy.id s) st))
                 (filter (fun s => LichessStudy.userId s =? user_id)
                         (LichessStudy_table st))), st).

Definition LichessStudy_findUnique (id : Z) : M (option LichessStudy.t) :=
  fun st => (Return (find_study id (LichessStudy_table st)), st).

(** [findUnique] with the [moves] relation loaded. *)
Definition LichessStudy_findUnique_moves (id : Z)
  : M (option (LichessStudy.t * list Move.t)) :=
  fun st =>
    (Return (match find_study id (LichessStudy_table st) with
             | Some s => Some (s, study_moves id (move_table st))
             | None => None
             end), st).

Definition LichessStudy_findUniqueOrThrow (id : Z) : M LichessStudy.t :=
  fun st =>
    match find_study id (LichessStudy_table st) with
    | Some s => (Return s, st)
    | None => (Throw (NotFoundError "No LichessStudy found"), st)
    end.

(** A new row: fresh id, [lastFetched] the time of creation, and (spec
    4.3) not included, not hidden, not removed. *)
Definition LichessStudy_create (now_ : Date) (c : LichessStudy.create_data) : M unit :=
  fun st =>
    let l := LichessStudy_table st in
    (Return tt,
     with_studies
       (l ++ [LichessStudy.mk (fresh_id (map LichessStudy.id l))
                (LichessStudy.c_lichessId c) (LichessStudy.c_userId c)
                (LichessStudy.c_lastModifiedOnLichess c) now_
                (LichessStudy.c_name c) (LichessStudy.c_pgn c)
                (LichessStudy.c_guessedColor c) (LichessStudy.c_previewFen c)
                false false false None]) st).

Definition LichessStudyUpdate_upsert (u : LichessStudyUpdate.t) : M unit :=
  fun st => (Return tt, with_updates (upsert_update u (LichessStudyUpdate_table st)) st).

Definition User_findUniqueOrThrow (id : Z) : M User.t :=
  fun st =>
    match find_user id (User_table st) with
    | Some u => (Return u, st)
    | None => (Throw (NotFoundError "No User found"), st)
    end.

Definition stamp_user (id : Z) (d : Date) (l : list User.t) : list User.t :=
  map (fun u => if User.id u =? id
                then User.mk (User.id u) (User.lichessUsername u)
                             (User.lichessAccessToken u) (Some d)
                else u) l.

(** Modelled from the spec: [orphanMoveSoftDeletionsQueries] of
    [$lib/movesUtil.js], which is not among the sources.  Spec 4.2: given
    the moves attached to the document being detached, each with its full
    set of owning collections, the moves whose owner set is empty once
    this document is removed get a soft-delete instruction; the others get
    none.  The helper receives only the moves (each loaded with [pgns] and
    [studies]) and every one of them is attached to the document, so a
    move loses all owners exactly when it has a single owner. *)
Definition is_orphan (m : Move.t) : bool :=
  (List.length (Move.pgns m) + List.length (Move.studies m) =? 1)%nat.

(** Modelled from the spec: the soft-delete instruction of spec 4.2,
    [data: { deleted: true }]. *)
Definition soft_delete : Move.update_data := Move.mkupdate [] (Some true).

(** Modelled from the spec: [orphanMoveSoftDeletionsQueries] of
    [$lib/movesUtil.js] (spec 4.2): one soft-delete instruction per
    orphan, none for the other moves. *)
Definition orphanMoveSoftDeletionsQueries (moves : list Move.t) : list Query :=
  map (fun m => move_update (Move.id m) soft_delete) (filter is_orphan moves).

(** ** The functions of [lichessStudy.js] *)

Section LichessStudyJs.

Variable E : Env.

(** [await prisma.$transaction(queries)]: all of the batch or none of it. *)
Definition transaction (queries : list Query) : M unit :=
  fun st =>
    match transaction_fault E queries with
    | Some e => (Throw e, st)
    | None =>
        match exec_all queries st with
        | Return st' => (Return tt, st')
        | Throw e => (Throw e, st)
        end
    end.

(** [prisma.User.update({ data: { lastRepertoireUpdateCheck } })]: it
    rejects when the storage engine does or when there is no such user,
    and then writes nothing. *)
Definition User_update_lastRepertoireUpdateCheck (id : Z) (d : Date) : M unit :=
  fun st =>
    match User_update_fault E id with
    | Some e => (Throw e, st)
    | None =>
        match find_user id (User_table st) with
        | Some _ => (Return tt, with_users (stamp_user id d (User_table st)) st)
        | None => (Throw record_not_found, st)
        end
    end.

(** Calls to [$lib/lichessApi.js], recorded in the trace. *)
Definition await_fetchStudiesMetadata (username token : string) : M (list Metadata.t) :=
  fun st =>
    (fetchStudiesMetadata E username token,
     with_call (call_fetchStudiesMetadata username token) st).

Definition await_fetchStudy (lichess_id username token : string) : M (string * Date) :=
  fun st =>
    (fetchStudy E lichess_id username token,
     with_call (call_fetchStudy lichess_id username token) st).

Definition call_pgndbToMoves (pgn : string) (repForWhite onlyVariant : option bool)
  : M (list MoveData.t) :=
  fun st => (pgndbToMoves E pgn repForWhite onlyVariant, st).

Definition null_userId : Exn :=
  TypeError "Cannot read properties of null (reading 'userId')".

(** What [fetchStudyUpdate] returns. *)
Record UpdateStats := mkStats {
  numNewMoves : nat;
  numNewOwnMoves : nat;
  numRemovedMoves : nat;
  numRemovedOwnMoves : nat
}.

(** [fetchStudyUpdate] (lines 175-246). *)
Definition fetchStudyUpdate (user_id study_id : Z) (lichess_username lichess_access_token : string)
  : M UpdateStats :=
  found <- LichessStudy_findUnique_moves study_id ;;
  match found with
  | None => throw null_userId
  | Some (study, moves) =>
      if negb (LichessStudy.userId study =? user_id) then
        throw (Error "Study does not belong to this user (are you logged in?)")
      else if negb (LichessStudy.included study) then
        throw (Error "Only studies that are part of your repertoire can be updated with fetchStudyUpdate, use updateUnincludedStudy.")
      else
        ' (pgn, lastModified) <-
            await_fetchStudy (LichessStudy.lichessId study)
                             lichess_username lichess_access_token ;;
        (* [study.onlyVariant] is not selected: undefined *)
        updated_moves <- call_pgndbToMoves pgn (LichessStudy.repForWhite study) None ;;
        let (new_moves, removed_moves) :=
          compareMovesLists E (map Move.select moves) updated_moves in
        let numNewMoves := List.length new_moves in
        let numRemovedMoves := List.length removed_moves in
        let numNewOwnMoves := List.length (filter MoveData.ownMove new_moves) in
        let numRemovedOwnMoves := List.length (filter MoveData.ownMove removed_moves) in
        let updated_study :=
          LichessStudyUpdate.mk (LichessStudy.id study) (now E) lastModified
            numNewMoves numNewOwnMoves numRemovedMoves numRemovedOwnMoves pgn in
        LichessStudyUpdate_upsert updated_study ;;;
        ret (mkStats numNewMoves numNewOwnMoves numRemovedMoves numRemovedOwnMoves)
  end.

Definition content_data (lastModified fetched : Date) (pgn : string) : LichessStudy.data :=
  LichessStudy.mkdata None None None None (Some lastModified) (Some fetched) (Some pgn) None.

(** [updateUnincludedStudy] (lines 252-277). *)
Definition updateUnincludedStudy (user_id study_id : Z)
    (lichess_username lichess_access_token : string) : M unit :=
  found <- LichessStudy_findUnique study_id ;;
  match found with
  | None => throw null_userId
  | Some study =>
      if negb (LichessStudy.userId study =? user_id) then
        throw (Error "Study does not belong to this user (are you logged in?)")
      else if LichessStudy.included study then
        throw (Error "Studies that are part of your repertoire cannot be updated with updateUnincludedStudy, use fetchStudyUpdate.")
      else
        ' (pgn, lastModified) <-
            await_fetchStudy (LichessStudy.lichessId study)
                             lichess_username lichess_access_token ;;
        await (LichessStudy_update (LichessStudy.id study)
                 (content_data lastModified (now E) pgn))
  end.

(** The mutable locals of [fetchAllStudyChanges]. *)
Record Locals := mkLocals {
  num_new_studies : nat;
  num_updates_fetched : nat;
  num_renamed_studies : nat;
  num_removed_studies : nat;
  queries : list Query
}.

Definition push (q : Query) (l : Locals) : Locals :=
  mkLocals (num_new_studies l) (num_updates_fetched l) (num_renamed_studies l)
           (num_removed_studies l) (queries l ++ [q]).

Definition incr_new (l : Locals) : Locals :=
  mkLocals (S (num_new_studies l)) (num_updates_fetched l) (num_renamed_studies l)
           (num_removed_studies l) (queries l).

Definition incr_updates (l : Locals) : Locals :=
  mkLocals (num_new_studies l) (S (num_updates_fetched l)) (num_renamed_studies l)
           (num_removed_studies l) (queries l).

Definition incr_renamed (l : Locals) : Locals :=
  mkLocals (num_new_studies l) (num_updates_fetched l) (S (num_renamed_studies l))
           (num_removed_studies l) (queries l).

Definition incr_removed (l : Locals) : Locals :=
  mkLocals (num_new_studies l) (num_updates_fetched l) (num_renamed_studies l)
           (S (num_removed_studies l)) (queries l).

Definition data_removedOnLichess (b : bool) : LichessStudy.data :=
  LichessStudy.mkdata None (Some b) None None None None None None.

Definition data_name (n : string) : LichessStudy.data :=
  LichessStudy.mkdata (Some n) None None None None None None None.

(** Lines 86-88: the test that decides whether the PGN is fetched again. *)
Definition has_newer_version_on_lichess (existing_study : Existing.t)
    (lichess_last_modified : Date) : bool :=
  Existing.lastFetched existing_study <? lichess_last_modified.

Definition has_current_update_fetched (existing_study : Existing.t)
    (lichess_last_modified : Date) : bool :=
  match Existing.updates existing_study with
  | [] => false                      (* [updates.length] is 0 *)
  | u :: _ => lichess_last_modified <=? LichessStudyUpdate.fetched u
  end.

Definition pgn_was_modified (existing_study : Existing.t) (lichess_study : Metadata.t)
  : bool :=
  let lichess_last_modified := Metadata.updatedAt lichess_study in
  has_newer_version_on_lichess existing_study lichess_last_modified
  && negb (has_current_update_fetched existing_study lichess_last_modified).

(** Lines 67-101: a study of Lichess that is already in the database. *)
Definition existing_study_step (user_id : Z) (lichess_username lichess_access_token : string)
    (existing_study : Existing.t) (lichess_study : Metadata.t) (l : Locals) : M Locals :=
  let l :=
    if Existing.removedOnLichess existing_study
    then push (LichessStudy_update (Existing.id existing_study)
                                   (data_removedOnLichess false)) l
    else l in
  let l :=
    if negb (String.eqb (Existing.name existing_study) (Metadata.name lichess_study))
    then incr_renamed
           (push (LichessStudy_update (Existing.id existing_study)
                                      (data_name (Metadata.name lichess_study))) l)
    else l in
  if pgn_was_modified existing_study lichess_study then
    if Existing.included existing_study then
      fetchStudyUpdate user_id (Existing.id existing_study)
                       lichess_username lichess_access_token ;;;
      ret (incr_updates l)
    else if negb (Existing.hidden existing_study) then
      updateUnincludedStudy user_id (Existing.id existing_study)
                            lichess_username lichess_access_token ;;;
      ret (incr_updates l)
    else ret l
  else ret l.

(** Lines 50-103: the body of the loop over [lichess_studies]. *)
Definition lichess_study_step (user_id : Z) (lichess_username lichess_access_token : string)
    (existing_studies : list Existing.t) (existing_study_ids : list string)
    (lichess_study : Metadata.t) (l : Locals) : M Locals :=
  if negb (Set_has existing_study_ids (Metadata.id lichess_study)) then
    ' (pgn, _) <- await_fetchStudy (Metadata.id lichess_study)
                                   lichess_username lichess_access_token ;;
    let guessedColor := guessColor E pgn in
    let previewFen := makePreviewFen E pgn in
    LichessStudy_create (now E)
      (LichessStudy.mkcreate (Metadata.id lichess_study) user_id
         (Metadata.updatedAt lichess_study) (Metadata.name lichess_study)
         pgn guessedColor previewFen) ;;;
    ret (incr_new l)
  else
    match find (fun study => String.eqb (Existing.lichessId study)
                                        (Metadata.id lichess_study))
               existing_studies with
    | None => throw (TypeError "Cannot read properties of undefined (reading 'removedOnLichess')")
    | Some existing_study =>
        existing_study_step user_id lichess_username lichess_access_token
                            existing_study lichess_study l
    end.

(** Lines 106-126: the body of the loop over [existing_studies]. *)
Definition removed_study_step (lichess_study_ids : list string)
    (existing_study : Existing.t) (l : Locals) : Locals :=
  if negb (Set_has lichess_study_ids (Existing.lichessId existing_study)) then
    if Existing.included existing_study then
      if negb (Existing.removedOnLichess existing_study) then
        incr_removed
          (push (LichessStudy_update (Existing.id existing_study)
                                     (data_removedOnLichess true)) l)
      else l
    else
      incr_removed (push (LichessStudy_delete (Existing.id existing_study)) l)
  else l.

Record Counts := mkCounts {
  r_num_new_studies : nat;
  r_num_updates_fetched : nat;
  r_num_renamed_studies : nat;
  r_num_removed_studies : nat
}.

(** Lines 14-126: everything before the transaction. *)
Definition collect_changes (user_id : Z) (lichess_username lichess_access_token : string)
  : M Locals :=
  existing_studies <- LichessStudy_findMany user_id ;;
  let existing_study_ids := map Existing.lichessId existing_studies in
  lichess_studies <- await_fetchStudiesMetadata lichess_username lichess_access_token ;;
  let lichess_study_ids := map Metadata.id lichess_studies in
  l <- for_of lichess_studies
         (lichess_study_step user_id lichess_username lichess_access_token
                             existing_studies existing_study_ids)
         (mkLocals 0 0 0 0 []) ;;
  ret (fold_left (fun l existing_study =>
                    removed_study_step lichess_study_ids existing_study l)
                 existing_studies l).

(** [fetchAllStudyChanges] (lines 12-150).  The two assignments after the
    [throw] of the [catch] block are never reached. *)
Definition fetchAllStudyChanges (user_id : Z) (lichess_username lichess_access_token : string)
  : M Counts :=
  l <- collect_changes user_id lichess_username lichess_access_token ;;
  try_catch (transaction (queries l))
    (fun e => throw (Error ("Exception renaming study: " ++ message e))) ;;;
  User_update_lastRepertoireUpdateCheck user_id (now E) ;;;
  ret (mkCounts (num_new_studies l) (num_updates_fetched l)
                (num_renamed_studies l) (num_removed_studies l)).

(** [fetchAllStudyChangesUnlessFetchedRecently] (lines 154-168); [None]
    is the empty object. *)
Definition fetchAllStudyChangesUnlessFetchedRecently (user_id : Z) (min_interval_s : option Z)
  : M (option Counts) :=
  let min_interval_s := match min_interval_s with Some s => s | None => 5 * 60 end in
  cdUser <- User_findUniqueOrThrow user_id ;;
  if match User.lastRepertoireUpdateCheck cdUser with
     | None => true
     | Some checked => checked <? now E - min_interval_s * 1000
     end
  then
    c <- fetchAllStudyChanges user_id (User.lichessUsername cdUser)
                              (User.lichessAccessToken cdUser) ;;
    ret (Some c)
  else ret None.

Definition data_uninclude : LichessStudy.data :=
  LichessStudy.mkdata None None (Some false) None None None None (Some []).

(** [unincludeStudy] (lines 361-405). *)
Definition unincludeStudy (study_id user_id : Z) : M nat :=
  found <- LichessStudy_findUnique_moves study_id ;;
  match found with
  | None => throw (Error ("Study #" ++ string_of_Z study_id ++ " not found"))
  | Some (study, moves) =>
      if negb (LichessStudy.userId study =? user_id) then
        throw (Error "Study does not belong to this account (are you logged in?)")
      else
        let queries := orphanMoveSoftDeletionsQueries moves in
        let num_deleted_moves := List.length queries in
        let queries := queries ++ [LichessStudy_update study_id data_uninclude] in
        try_catch (transaction queries) (fun e => throw (Error (message e))) ;;;
        ret num_deleted_moves
  end.

(** [deleteStudy] (lines 281-299). *)
Definition deleteStudy (user_id study_id : Z) : M unit :=
  found <- LichessStudy_findUnique study_id ;;
  match found with
  | None => throw null_userId
  | Some study =>
      if negb (LichessStudy.userId study =? user_id) then
        throw (Error "Study does not belong to this user (are you logged in?)")
      else
        (if LichessStudy.included study
         then unincludeStudy study_id user_id ;;; ret tt
         else ret tt) ;;;
        await (LichessStudy_delete study_id)
  end.

Definition data_include (repForWhite : bool) : LichessStudy.data :=
  LichessStudy.mkdata None None (Some true) (Some repForWhite) None None None None.

(** The upsert of one parsed move (lines 321-337). *)
Definition upsert_of_move (user_id study_id : Z) (move : MoveData.t) : Query :=
  move_upsert
    (Move.mkkey user_id (MoveData.repForWhite move)
                (MoveData.fromFen move) (MoveData.toFen move))
    (Move.mkcreate user_id move [study_id])
    (Move.mkupdate [study_id] (Some false)).

(** [includeStudy] (lines 302-356); an omitted [onlyVariant] is [None]. *)
Definition includeStudy (study_id user_id : Z) (repForWhite : bool)
    (onlyVariant : option bool) : M unit :=
  let onlyVariant := match onlyVariant with Some b => b | None => false end in
  study <- LichessStudy_findUniqueOrThrow study_id ;;
  if negb (LichessStudy.userId study =? user_id) then
    throw (Error "Adding Lichess study failed: user ID does not match")
  else if LichessStudy.hidden study then
    throw (Error "Adding Lichess study failed: can't import hidden study, unhide it first")
  else if LichessStudy.included study then
    throw (Error "Adding Lichess study failed: study is already included")
  else
    let onlyVariant := true in
    moves <- call_pgndbToMoves (LichessStudy.pgn study) (Some repForWhite)
                               (Some onlyVariant) ;;
    let queries := map (upsert_of_move user_id study_id) moves in
    let queries := queries ++ [LichessStudy_update study_id (data_include repForWhite)] in
    try_catch (transaction queries)
      (fun e => throw (Error ("Exception inserting moves into database: " ++ message e))).

End LichessStudyJs.

(** ** Notions used by the statements *)

(** The criterion as the specification words it (4.3): the local copy is
    older than the remote one and no pending update carries a
    [lastModifiedOnLichess] at or after the remote modification time. *)
Definition spec_content_change (existing_study : Existing.t) (lichess_study : Metadata.t)
  : bool :=
  (Existing.lastFetched existing_study <? Metadata.updatedAt lichess_study)
  && negb (existsb (fun u => Metadata.updatedAt lichess_study
                             <=? LichessStudyUpdate.lastModifiedOnLichess u)
                   (Existing.updates existing_study)).

(** The owning collections of a move: studies and uploaded PGNs. *)
Definition owned (m : Move.t) : bool :=
  match Move.studies m, Move.pgns m with
  | [], [] => false
  | _, _ => true
  end.

(** A move attached to study [sid] that no other collection owns. *)
Definition exclusively_owned (sid : Z) (m : Move.t) : bool :=
  mem_id sid (Move.studies m)
  && match filter (fun x => negb (x =? sid)) (Move.studies m), Move.pgns m with
     | [], [] => true
     | _, _ => false
     end.

(** What un-including study [sid] does to one move: the edge to [sid]
    goes, and the move is soft-deleted when [sid] was its only owner. *)
Definition detach (sid : Z) (m : Move.t) : Move.t :=
  disconnect_study sid
    (if exclusively_owned sid m then Move.with_deleted true m else m).

(** Primary keys and edge sets of the move table. *)
Definition moves_wf (l : list Move.t) : Prop :=
  NoDup (map Move.id l) /\ Forall (fun m => NoDup (Move.studies m)) l.

(** The invariant of the data model: an owned move is not soft-deleted. *)
Definition owned_not_deleted (l : list Move.t) : Prop :=
  Forall (fun m => owned m = true -> Move.deleted m = false) l.

(** The entry points of the file, and the store each leaves behind. *)
Inductive Operation :=
| op_fetchAllStudyChanges (user_id : Z) (lichess_username lichess_access_token : string)
| op_fetchAllStudyChangesUnlessFetchedRecently (user_id : Z) (min_interval_s : option Z)
| op_fetchStudyUpdate (user_id study_id : Z) (lichess_username lichess_access_token : string)
| op_updateUnincludedStudy (user_id study_id : Z) (lichess_username lichess_access_token : string)
| op_deleteStudy (user_id study_id : Z)
| op_includeStudy (study_id user_id : Z) (repForWhite : bool) (onlyVariant : option bool)
| op_unincludeStudy (study_id user_id : Z).

Definition run (E : Env) (op : Operation) (st : Store) : Store :=
  match op with
  | op_fetchAllStudyChanges u n t => snd (fetchAllStudyChanges E u n t st)
  | op_fetchAllStudyChangesUnlessFetchedRecently u i =>
      snd (fetchAllStudyChangesUnlessFetchedRecently E u i st)
  | op_fetchStudyUpdate u s n t => snd (fetchStudyUpdate E u s n t st)
  | op_updateUnincludedStudy u s n t => snd (updateUnincludedStudy E u s n t st)
  | op_deleteStudy u s => snd (deleteStudy E u s st)
  | op_includeStudy s u r o => snd (includeStudy E s u r o st)
  | op_unincludeStudy s u => snd (unincludeStudy E s u st)
  end.

(** [E] with the [onlyVariant] argument of the parser fixed. *)
Definition with_onlyVariant (ov : option bool) (E : Env) : Env :=
  mkEnv (fetchStudiesMetadata E) (fetchStudy E)
        (fun pgn repForWhite _ => pgndbToMoves E pgn repForWhite ov)
        (guessColor E) (makePreviewFen E) (compareMovesLists E) (now E)
        (transaction_fault E) (User_update_fault E).

(** ** Notions used by the proofs *)

(** Queries on moves do not touch the other tables. *)
Definition same_but_moves (st st' : Store) : Prop :=
  LichessStudy_table st' = LichessStudy_table st
  /\ LichessStudyUpdate_table st' = LichessStudyUpdate_table st
  /\ User_table st' = User_table st
  /\ remote_calls st' = remote_calls st.

(** Upserts and updates of moves. *)
Definition is_move_query (q : Query) : Prop :=
  match q with
  | move_upsert _ _ _ | move_update _ _ => True
  | _ => False
  end.

(** Soft-deleting the moves of a list of ids, one update after the other. *)
Definition soft_delete_ids (ids : list Z) (l : list Move.t) : list Move.t :=
  map (fun m => if mem_id (Move.id m) ids then Move.with_deleted true m else m) l.

(** The store a committed un-inclusion leaves behind. *)
Definition unincluded (sid : Z) (st : Store) : Store :=
  mkStore (update_study sid data_uninclude (LichessStudy_table st))
          (LichessStudyUpdate_table st)
          (map (detach sid) (move_table st))
          (User_table st) (remote_calls st).

(** [maintains R m]: whether [m] returns or throws, the store it leaves
    is related by [R] to the store it found. *)
Definition maintains {A} (R : Store -> Store -> Prop) (m : M A) : Prop :=
  forall st, R st (snd (m st)).

(** [returns Q m]: a value [m] returns satisfies [Q]. *)
Definition returns {A} (Q : A -> Prop) (m : M A) : Prop :=
  forall st a st', m st = (Return a, st') -> Q a.

(** A study row that differs from [s] in its content at most: PGN,
    name and timestamps. *)
Definition same_study (s s' : LichessStudy.t) : Prop :=
  LichessStudy.id s' = LichessStudy.id s
  /\ LichessStudy.lichessId s' = LichessStudy.lichessId s
  /\ LichessStudy.userId s' = LichessStudy.userId s
  /\ LichessStudy.included s' = LichessStudy.included s
  /\ LichessStudy.hidden s' = LichessStudy.hidden s
  /\ LichessStudy.removedOnLichess s' = LichessStudy.removedOnLichess s
  /\ LichessStudy.repForWhite s' = LichessStudy.repForWhite s.

(** How [fetchAllStudyChanges] moves the store before its transaction:
    users and moves are left alone, and a study row that was there is
    still there, the same but for its content. *)
Definition sync_step (st st' : Store) : Prop :=
  User_table st' = User_table st
  /\ move_table st' = move_table st
  /\ forall i s,
       find_study i (LichessStudy_table st) = Some s ->
       exists s', find_study i (LichessStudy_table st') = Some s' /\ same_study s s'.

(** No write to the User table. *)
Definition same_users (st st' : Store) : Prop := User_table st' = User_table st.

(** The study a query writes to, if any. *)
Definition study_of_query (q : Query) : option Z :=
  match q with
  | LichessStudy_update i _ | LichessStudy_delete i => Some i
  | move_upsert _ _ _ | move_update _ _ => None
  end.

(** A study whose [lichessId] is not in [lichess_study_ids] (line 107). *)
Definition gone_from_lichess (lichess_study_ids : list string) (es : Existing.t) : bool :=
  negb (Set_has lichess_study_ids (Existing.lichessId es)).

(** The studies the second loop counts in [num_removed_studies]. *)
Definition counted_as_removed (lichess_study_ids : list string) (es : Existing.t) : bool :=
  gone_from_lichess lichess_study_ids es
  && (if Existing.included es then negb (Existing.removedOnLichess es) else true).

(** The queries the second loop pushes for one study. *)
Definition removal_queries (lichess_study_ids : list string) (es : Existing.t)
  : list Query :=
  if gone_from_lichess lichess_study_ids es then
    if Existing.included es then
      if Existing.removedOnLichess es then []
      else [LichessStudy_update (Existing.id es) (data_removedOnLichess true)]
    else [LichessStudy_delete (Existing.id es)]
  else [].

(** What the first loop queues: updates of studies that Lichess still
    lists, none of them touching the moves; it counts no removal. *)
Definition queued_for_listed (existing : list Existing.t) (ids : list string) (q : Query)
  : Prop :=
  exists es d,
    q = LichessStudy_update (Existing.id es) d
    /\ LichessStudy.moves_set d = None
    /\ In es existing
    /\ Set_has ids (Existing.lichessId es) = true.

(** The locals while the first loop runs. *)
Definition first_loop_locals (existing : list Existing.t) (ids : list string) (l : Locals)
  : Prop :=
  num_removed_studies l = 0%nat /\ Forall (queued_for_listed existing ids) (queries l).

(** The studies [findMany] hands to [fetchAllStudyChanges]. *)
Definition existing_studies_of (user_id : Z) (st : Store) : list Existing.t :=
  map (fun s => Existing.mk s (updates_of (LichessStudy.id s) st))
      (filter (fun s => LichessStudy.userId s =? user_id) (LichessStudy_table st)).

(** A well-formed move table that satisfies the invariant. *)
Definition repertoire_ok (l : list Move.t) : Prop := moves_wf l /\ owned_not_deleted l.

(** A step that cannot break a sound move table. *)
Definition keeps_repertoire (st st' : Store) : Prop :=
  repertoire_ok (move_table st) -> repertoire_ok (move_table st').

(** A change of one row that cannot break the invariant. *)
Definition safe_change (f : Move.t -> Move.t) : Prop :=
  forall m,
    Move.id (f m) = Move.id m
    /\ (NoDup (Move.studies m) -> NoDup (Move.studies (f m)))
    /\ ((owned m = true -> Move.deleted m = false) ->
        owned (f m) = true -> Move.deleted (f m) = false).

(** The queries that keep the invariant one by one: every query of the
    file except the soft-deletion of an orphan, which is only sound
    together with the edge removal of its batch. *)
Definition benign (q : Query) : Prop :=
  match q with
  | LichessStudy_update _ d =>
      LichessStudy.moves_set d = None \/ LichessStudy.moves_set d = Some []
  | LichessStudy_delete _ => True
  | move_upsert _ _ u => Move.u_deleted u = Some false
  | move_update _ _ => False
  end.

(** ** A small world to run the functions on *)

Module Demo.
Definition e4 : MoveData.t := MoveData.mk true true "start" "1.e4".
Definition e5 : MoveData.t := MoveData.mk true false "1.e4" "1.e4 e5".
Definition Nf3 : MoveData.t := MoveData.mk true true "1.e4 e5" "1.e4 e5 2.Nf3".

Definition same_move (a b : MoveData.t) : bool :=
  Bool.eqb (MoveData.repForWhite a) (MoveData.repForWhite b)
  && String.eqb (MoveData.fromFen a) (MoveData.fromFen b)
  && String.eqb (MoveData.toFen a) (MoveData.toFen b).

Definition parse (pgn : string) (repForWhite onlyVariant : option bool)
  : Outcome (list MoveData.t) :=
  if String.eqb pgn "1. e4 e5" then Return [e4; e5]
  else if String.eqb pgn "1. e4 e5 2. Nf3" then Return [e4; e5; Nf3]
  else if String.eqb pgn "" then Return []
  else Throw (Error "invalid PGN").

Definition diff (old new : list MoveData.t) : list MoveData.t * list MoveData.t :=
  (filter (fun n => negb (existsb (same_move n) old)) new,
   filter (fun o => negb (existsb (same_move o) new)) old).

Definition studyA : Metadata.t := Metadata.mk "lichessA" "Y" 10.
Definition studyC : Metadata.t := Metadata.mk "lichessC" "C" 7.

Definition env_with (fault : list Query -> option Exn) (stamp_fault : Z -> option Exn)
  : Env :=
  mkEnv (fun _ _ => Return [studyA; studyC])
        (fun lichess_id _ _ =>
           if String.eqb lichess_id "lichessA" then Return ("1. e4 e5 2. Nf3"%string, 10)
           else Return ("1. e4 e5"%string, 7))
        parse (fun _ => "w"%string) (fun _ => "start"%string) diff 100 fault stamp_fault.

Definition env (fault : list Query -> option Exn) : Env := env_with fault (fun _ => None).

Definition healthy : Env := env (fun _ => None).
Definition faulty : Env := env (fun _ => Some (Error "deadlock detected")).
(** The batch commits and the write of the timestamp is rejected. *)
Definition unstamped : Env :=
  env_with (fun _ => None) (fun _ => Some (Error "connection lost")).

(** Study 1 (A) is included with moves e4 and e5; e5 is shared with the
    uploaded PGN 9.  Study 2 (B) is not included and no longer on
    Lichess.  Study 3 is included, too, and gone from Lichess. *)
Definition A : LichessStudy.t :=
  LichessStudy.mk 1 "lichessA" 42 0 0 "X" "1. e4 e5" "w" "start" true false false (Some true).
Definition B : LichessStudy.t :=
  LichessStudy.mk 2 "lichessB" 42 0 0 "B" "" "w" "start" false false false None.
Definition G : LichessStudy.t :=
  LichessStudy.mk 3 "lichessG" 42 0 0 "G" "" "w" "start" true false false (Some true).
(** A study that is not included yet, and one that is hidden. *)
Definition N : LichessStudy.t :=
  LichessStudy.mk 4 "lichessA" 42 0 0 "Y" "1. e4 e5" "w" "start" false false false None.
Definition H : LichessStudy.t :=
  LichessStudy.mk 5 "lichessA" 42 0 0 "Y" "1. e4 e5" "w" "start" false true false None.

Definition m_e4 : Move.t := Move.mk 1 42 true true "start" "1.e4" false [1] [].
Definition m_e5 : Move.t := Move.mk 2 42 true false "1.e4" "1.e4 e5" false [1] [9].
(** e4 as a soft-deleted leftover of an earlier un-inclusion. *)
Definition m_e4_deleted : Move.t := Move.mk 1 42 true true "start" "1.e4" true [] [].

Definition alice : User.t := User.mk 42 "alice" "token" None.

Definition store : Store := mkStore [A; B; G] [] [m_e4; m_e5] [alice] [].
Definition store_N : Store := mkStore [N] [] [m_e4_deleted] [alice] [].

(** The sync-disabled case: the pending update of study 1 was fetched at
    time 5 and carries the remote modification time 10. *)
Definition pending : LichessStudyUpdate.t :=
  LichessStudyUpdate.mk 1 5 10 1 1 0 0 "1. e4 e5 2. Nf3".
Definition store_pending : Store := mkStore [A] [pending] [m_e4; m_e5] [alice] [].
Definition existing_A : Existing.t := Existing.mk A [pending].

(** A pending update fetched after the remote modification time. *)
Definition pending_late : LichessStudyUpdate.t :=
  LichessStudyUpdate.mk 1 50 10 1 1 0 0 "1. e4 e5 2. Nf3".
Definition store_late : Store := mkStore [A] [pending_late] [m_e4; m_e5] [alice] [].
Definition existing_A_late : Existing.t := Existing.mk A [pending_late].
Definition existing_A0 : Existing.t := Existing.mk A [].
Definition studyA_again : Metadata.t := Metadata.mk "lichessA" "Y" 20.

(** A second row of the user under the Lichess id of study 1: hidden,
    under the old name and flagged as removed. *)
Definition A_again : LichessStudy.t :=
  LichessStudy.mk 6 "lichessA" 42 0 0 "X" "1. e4 e5" "w" "start" false true true None.
Definition store_twice : Store := mkStore [A; A_again] [] [m_e4; m_e5] [alice] [].
Definition existing_A_again : Existing.t := Existing.mk A_again [].
End Demo.

(** ** Notions used by the further properties *)

(** The study of the snapshot that the first loop takes for a study of
    Lichess (lines 51 and 68): none when the id is not in
    [existing_study_ids]. *)
Definition listed_as (existing_studies : list Existing.t) (lichess_study : Metadata.t)
  : option Existing.t :=
  if Set_has (map Existing.lichessId existing_studies) (Metadata.id lichess_study)
  then find (fun study => String.eqb (Existing.lichessId study)
                                     (Metadata.id lichess_study)) existing_studies
  else None.

(** The queries the first loop pushes for one study of Lichess. *)
Definition listed_queries (existing_studies : list Existing.t) (lichess_study : Metadata.t)
  : list Query :=
  match listed_as existing_studies lichess_study with
  | Some es =>
      (if Existing.removedOnLichess es
       then [LichessStudy_update (Existing.id es) (data_removedOnLichess false)]
       else [])
      ++ (if negb (String.eqb (Existing.name es) (Metadata.name lichess_study))
          then [LichessStudy_update (Existing.id es)
                                    (data_name (Metadata.name lichess_study))]
          else [])
  | None => []
  end.

(** The studies of Lichess the first loop counts as new, as renamed and
    as fetched again. *)
Definition counted_as_new (existing_studies : list Existing.t) (ls : Metadata.t) : bool :=
  negb (Set_has (map Existing.lichessId existing_studies) (Metadata.id ls)).

Definition counted_as_renamed (existing_studies : list Existing.t) (ls : Metadata.t)
  : bool :=
  match listed_as existing_studies ls with
  | Some es => negb (String.eqb (Existing.name es) (Metadata.name ls))
  | None => false
  end.

Definition counted_as_fetched (existing_studies : list Existing.t) (ls : Metadata.t)
  : bool :=
  match listed_as existing_studies ls with
  | Some es => pgn_was_modified es ls
               && (Existing.included es || negb (Existing.hidden es))
  | None => false
  end.

(** What the first loop has in its locals after a study of Lichess. *)
Definition locals_after (existing_studies : list Existing.t) (ls : Metadata.t)
    (l : Locals) : Locals :=
  mkLocals
    (num_new_studies l + if counted_as_new existing_studies ls then 1 else 0)
    (num_updates_fetched l + if counted_as_fetched existing_studies ls then 1 else 0)
    (num_renamed_studies l + if counted_as_renamed existing_studies ls then 1 else 0)
    (num_removed_studies l)
    (queries l ++ listed_queries existing_studies ls).

(** Nothing happens outside study [sid]: users, calls to Lichess, the
    rows and the pending updates of the other studies are as before. *)
Definition only_study (sid : Z) (st st' : Store) : Prop :=
  User_table st' = User_table st
  /\ remote_calls st' = remote_calls st
  /\ (forall j, j <> sid ->
                find_study j (LichessStudy_table st') = find_study j (LichessStudy_table st))
  /\ (forall j, j <> sid -> updates_of j st' = updates_of j st).

(** A query that writes to no study but [sid]. *)
Definition within_study (sid : Z) (q : Query) : Prop :=
  match study_of_query q with
  | Some i => i = sid
  | None => True
  end.

(** The composite identity key of a stored move, and the key under which
    [includeStudy] upserts a parsed move. *)
Definition key_of_move (m : Move.t) : Move.key :=
  Move.mkkey (Move.userId m) (Move.repForWhite m) (Move.fromFen m) (Move.toFen m).

Definition key_of_parsed (user_id : Z) (move : MoveData.t) : Move.key :=
  Move.mkkey user_id (MoveData.repForWhite move) (MoveData.fromFen move)
             (MoveData.toFen move).

(** No two moves of a table share their key. *)
Definition keys_unique (st st' : Store) : Prop :=
  NoDup (map key_of_move (move_table st)) -> NoDup (map key_of_move (move_table st')).

(** The move stored under key [k] is attached to study [sid] and is not
    soft-deleted. *)
Definition in_repertoire_of (sid : Z) (k : Move.key) (l : list Move.t) : Prop :=
  exists m,
    find (Move.has_key k) l = Some m
    /\ In sid (Move.studies m)
    /\ Move.deleted m = false.

(** An upsert that creates, when it creates, a row with the key it looked
    up. *)
Definition keyed (q : Query) : Prop :=
  match q with
  | move_upsert k c _ => k = key_of_parsed (Move.c_userId c) (Move.c_move c)
  | _ => True
  end.

(** [m'] is [m] with some of its edges to studies dropped. *)
Definition edges_dropped (m m' : Move.t) : Prop :=
  m' = Move.with_studies (Move.studies m') m
  /\ incl (Move.studies m') (Move.studies m).

(** Row by row the move table is the same but for dropped edges. *)
Definition moves_only_lose_edges (st st' : Store) : Prop :=
  Forall2 edges_dropped (move_table st) (move_table st').

(** The queries [fetchAllStudyChanges] queues: a flag or a name of a
    study, or the deletion of a study. *)
Definition structural (q : Query) : Prop :=
  match q with
  | LichessStudy_update _ d => LichessStudy.moves_set d = None
  | LichessStudy_delete _ => True
  | _ => False
  end.

(** Every study row of [st] is still in [st'], related to what it was. *)
Definition rows_kept (P : LichessStudy.t -> LichessStudy.t -> Prop) (st st' : Store)
  : Prop :=
  forall i s,
    find_study i (LichessStudy_table st) = Some s ->
    exists s', find_study i (LichessStudy_table st') = Some s' /\ P s s'.

(** The same study under the same name: only PGN and timestamps may
    differ. *)
Definition same_named_study (s s' : LichessStudy.t) : Prop :=
  same_study s s' /\ LichessStudy.name s' = LichessStudy.name s.

(** With respect to the ids [orig] of the study rows a pass found: they
    stay in the table if they were all there, and the rows under other
    ids stay as they are. *)
Definition new_rows_stay (orig : list Z) (st st' : Store) : Prop :=
  (incl orig (map LichessStudy.id (LichessStudy_table st)) ->
   incl orig (map LichessStudy.id (LichessStudy_table st')))
  /\ forall row,
       In row (LichessStudy_table st) -> ~ In (LichessStudy.id row) orig ->
       In row (LichessStudy_table st').

(** The query writes to no study outside [orig]. *)
Definition writes_within (orig : list Z) (q : Query) : Prop :=
  forall i, study_of_query q = Some i -> In i orig.

(** * Verification *)

Unset Implicit Arguments.

(** ** Tables *)

Lemma find_study_update i j d l :
  find_study i (update_study j d l)
  = if i =? j then option_map (LichessStudy.apply d) (find_study i l)
    else find_study i l.
Proof.
  unfold find_study, update_study.
  induction l as [|s l IH]; simpl.
  - now destruct (i =? j).
  - destruct (LichessStudy.id s =? j) eqn:Hj; simpl.
    + apply Z.eqb_eq in Hj. rewrite Hj.
      destruct (j =? i) eqn:Hi.
      * apply Z.eqb_eq in Hi. subst. now rewrite Z.eqb_refl.
      * rewrite IH. reflexivity.
    + destruct (LichessStudy.id s =? i) eqn:Hi.
      * apply Z.eqb_eq in Hi. rewrite <- Hi, Hj. reflexivity.
      * exact IH.
Qed.

Lemma find_study_delete i j l :
  find_study i (delete_study j l) = if i =? j then None else find_study i l.
Proof.
  unfold find_study, delete_study.
  induction l as [|s l IH]; simpl.
  - now destruct (i =? j).
  - destruct (LichessStudy.id s =? j) eqn:Hj; simpl.
    + apply Z.eqb_eq in Hj. rewrite IH.
      destruct (i =? j) eqn:Hi; [reflexivity|].
      rewrite Hj, Z.eqb_sym, Hi. reflexivity.
    + destruct (LichessStudy.id s =? i) eqn:Hi; [|exact IH].
      apply Z.eqb_eq in Hi. now rewrite <- Hi, Hj.
Qed.

Lemma find_study_some i l s : find_study i l = Some s -> In s l /\ LichessStudy.id s = i.
Proof.
  unfold find_study. intros H. apply find_some in H.
  destruct H as [H1 H2]. apply Z.eqb_eq in H2. now split.
Qed.

Lemma find_study_app_old i l l' s :
  find_study i l = Some s -> find_study i (l ++ l') = Some s.
Proof.
  unfold find_study. induction l as [|x l IH]; simpl; [discriminate|].
  destruct (LichessStudy.id x =? i); auto.
Qed.

(** ** Transactions *)

Lemma exec_all_app qs1 qs2 st :
  exec_all (qs1 ++ qs2) st
  = match exec_all qs1 st with
    | Return st' => exec_all qs2 st'
    | Throw e => Throw e
    end.
Proof.
  revert st. induction qs1 as [|q qs1 IH]; intros st; simpl; [reflexivity|].
  destruct (exec q st); [apply IH | reflexivity].
Qed.

(** A transaction that throws leaves the store as it was. *)
Lemma transaction_throw E qs st e st' :
  transaction E qs st = (Throw e, st') -> st' = st.
Proof.
  unfold transaction. intros H.
  destruct (transaction_fault E qs); [now inversion H|].
  destruct (exec_all qs st); now inversion H.
Qed.

Lemma transaction_return E qs st u st' :
  transaction E qs st = (Return u, st') ->
  transaction_fault E qs = None /\ exec_all qs st = Return st'.
Proof.
  unfold transaction. intros H.
  destruct (transaction_fault E qs); [discriminate|].
  destruct (exec_all qs st); inversion H; auto.
Qed.

Lemma transaction_healthy E qs st st' :
  transaction_fault E qs = None -> exec_all qs st = Return st' ->
  transaction E qs st = (Return tt, st').
Proof. unfold transaction. now intros -> ->. Qed.

Lemma exec_move_query q st st' :
  is_move_query q -> exec q st = Return st' -> same_but_moves st st'.
Proof.
  unfold same_but_moves.
  destruct q as [i d|i|k c u|i d]; simpl; try contradiction; intros _ H.
  - destruct (find (Move.has_key k) (move_table st)).
    + destruct (all_studies_exist _ _); inversion H; subst; simpl; auto.
    + destruct (all_studies_exist _ _); inversion H; subst; simpl; auto.
  - destruct (find_move i (move_table st)); [|discriminate].
    destruct (all_studies_exist _ _); inversion H; subst; simpl; auto.
Qed.

Lemma exec_all_move_queries qs st st' :
  Forall is_move_query qs -> exec_all qs st = Return st' -> same_but_moves st st'.
Proof.
  intros HF. revert st. induction HF as [|q qs Hq _ IH]; intros st; simpl.
  - intros H. inversion H. subst. unfold same_but_moves. auto.
  - destruct (exec q st) as [st1|] eqn:E1; [|discriminate].
    intros H. apply IH in H. apply exec_move_query in E1; auto.
    unfold same_but_moves in *.
    destruct H as (a & b & c & d), E1 as (a' & b' & c' & d').
    repeat split; congruence.
Qed.

Lemma upserts_are_move_queries user_id study_id moves :
  Forall is_move_query (map (upsert_of_move user_id study_id) moves).
Proof. apply Forall_forall. intros q H. apply in_map_iff in H. destruct H as (m & <- & _). exact I. Qed.

(** ** includeStudy *)

(** What a successful inclusion commits. *)
Lemma includeStudy_return E study_id user_id repForWhite onlyVariant st u st' :
  includeStudy E study_id user_id repForWhite onlyVariant st = (Return u, st') ->
  exists study moves,
    find_study study_id (LichessStudy_table st) = Some study
    /\ LichessStudy.userId study = user_id
    /\ LichessStudy.hidden study = false
    /\ LichessStudy.included study = false
    /\ pgndbToMoves E (LichessStudy.pgn study) (Some repForWhite) (Some true) = Return moves
    /\ exec_all (map (upsert_of_move user_id study_id) moves
                 ++ [LichessStudy_update study_id (data_include repForWhite)]) st
       = Return st'.
Proof.
  unfold includeStudy, bind, LichessStudy_findUniqueOrThrow, call_pgndbToMoves, try_catch, throw.
  destruct (find_study study_id (LichessStudy_table st)) as [study|] eqn:Hf; [|discriminate].
  destruct (LichessStudy.userId study =? user_id) eqn:Hu; simpl; [|discriminate].
  destruct (LichessStudy.hidden study) eqn:Hh; [discriminate|].
  destruct (LichessStudy.included study) eqn:Hi; [discriminate|].
  destruct (pgndbToMoves E _ _ _) as [moves|] eqn:Hp; [|discriminate].
  match goal with |- context [transaction E ?q st] =>
    destruct (transaction E q st) as [[[]|e] st1] eqn:Ht end; [|discriminate].
  intros H. inversion H. subst st1.
  apply transaction_return in Ht. destruct Ht as [_ Ht].
  exists study, moves. apply Z.eqb_eq in Hu. repeat split; auto.
Qed.

Lemma includeStudy_throw E study_id user_id repForWhite onlyVariant st e st' :
  includeStudy E study_id user_id repForWhite onlyVariant st = (Throw e, st') -> st' = st.
Proof.
  unfold includeStudy, bind, LichessStudy_findUniqueOrThrow, call_pgndbToMoves, try_catch, throw.
  destruct (find_study study_id (LichessStudy_table st)) as [study|]; [|now inversion 1].
  destruct (negb _); [now inversion 1|].
  destruct (LichessStudy.hidden study); [now inversion 1|].
  destruct (LichessStudy.included study); [now inversion 1|].
  destruct (pgndbToMoves E _ _ _) as [moves|]; [|now inversion 1].
  match goal with |- context [transaction E ?q st] =>
    destruct (transaction E q st) as [[[]|e1] st1] eqn:Ht end; [discriminate|].
  apply transaction_throw in Ht. subst st1. now inversion 1.
Qed.

Lemma includeStudy_precondition E study_id user_id repForWhite onlyVariant st study :
  find_study study_id (LichessStudy_table st) = Some study ->
  LichessStudy.userId study <> user_id \/ LichessStudy.hidden study = true
  \/ LichessStudy.included study = true ->
  exists m, includeStudy E study_id user_id repForWhite onlyVariant st = (Throw (Error m), st).
Proof.
  intros Hf H.
  unfold includeStudy, bind, LichessStudy_findUniqueOrThrow, throw. rewrite Hf.
  destruct (LichessStudy.userId study =? user_id) eqn:Hu; simpl; [|eauto].
  destruct (LichessStudy.hidden study); [eauto|].
  destruct (LichessStudy.included study); [eauto|].
  apply Z.eqb_eq in Hu. destruct H as [H|[H|H]]; congruence.
Qed.

(** After a successful inclusion the study row is flagged [included]. *)
Lemma includeStudy_sets_included E study_id user_id repForWhite onlyVariant st u st' :
  includeStudy E study_id user_id repForWhite onlyVariant st = (Return u, st') ->
  exists study,
    find_study study_id (LichessStudy_table st) = Some study
    /\ LichessStudy.userId study = user_id
    /\ LichessStudy.hidden study = false
    /\ find_study study_id (LichessStudy_table st')
       = Some (LichessStudy.apply (data_include repForWhite) study).
Proof.
  intros H. apply includeStudy_return in H.
  destruct H as (study & moves & Hf & Hu & Hh & _ & _ & Hx).
  rewrite exec_all_app in Hx.
  destruct (exec_all (map _ moves) st) as [st1|] eqn:H1; [|discriminate].
  apply exec_all_move_queries in H1; [|apply upserts_are_move_queries].
  destruct H1 as (Hs & _).
  cbn [exec_all exec] in Hx. rewrite Hs, Hf in Hx.
  cbn [LichessStudy.moves_set data_include] in Hx. inversion Hx. subst st'.
  cbn [LichessStudy_table with_studies].
  rewrite find_study_update, Z.eqb_refl, Hf. simpl. eauto.
Qed.

(** C4: [includeStudy] throws when the study belongs to another user, is
    hidden or is already included; whenever it throws, the store is the
    one it started from (no flag changed, no edge added: the upserts and
    the flag flip are one transaction); and once an inclusion has
    succeeded, including the same study again throws "already included"
    and leaves the store, hence the move graph, unchanged. *)
Theorem includeStudy_fails_atomically E study_id user_id repForWhite onlyVariant st :
  (forall study,
      find_study study_id (LichessStudy_table st) = Some study ->
      LichessStudy.userId study <> user_id \/ LichessStudy.hidden study = true
      \/ LichessStudy.included study = true ->
      exists m, includeStudy E study_id user_id repForWhite onlyVariant st
                = (Throw (Error m), st))
  /\ (forall e st',
         includeStudy E study_id user_id repForWhite onlyVariant st = (Throw e, st') ->
         st' = st)
  /\ (forall u st',
         includeStudy E study_id user_id repForWhite onlyVariant st = (Return u, st') ->
         forall repForWhite' onlyVariant',
           includeStudy E study_id user_id repForWhite' onlyVariant' st'
           = (Throw (Error "Adding Lichess study failed: study is already included"), st')).
Proof.
  split; [|split].
  - intros study Hf H. eapply includeStudy_precondition; eauto.
  - intros e st' H. eapply includeStudy_throw; eauto.
  - intros u st' H r' ov'.
    apply includeStudy_sets_included in H.
    destruct H as (study & _ & Hu & Hh & Hf').
    unfold includeStudy, bind, LichessStudy_findUniqueOrThrow, throw.
    rewrite Hf'. cbn. rewrite Hu, Z.eqb_refl, Hh. reflexivity.
Qed.

Lemma includeStudy_fails_atomically_witness :
  (exists m, includeStudy Demo.healthy 1 42 true None Demo.store
             = (Throw (Error m), Demo.store))
  /\ snd (includeStudy Demo.faulty 4 42 true None Demo.store_N) = Demo.store_N
  /\ (let st' := snd (includeStudy Demo.healthy 4 42 true None Demo.store_N) in
      includeStudy Demo.healthy 4 42 false (Some false) st'
      = (Throw (Error "Adding Lichess study failed: study is already included"), st')).
Proof.
  split; [|split].
  - apply (proj1 (includeStudy_fails_atomically Demo.healthy 1 42 true None Demo.store)
             Demo.A); [reflexivity | right; right; reflexivity].
  - apply (proj1 (proj2 (includeStudy_fails_atomically Demo.faulty 4 42 true None
                           Demo.store_N))
             (Error "Exception inserting moves into database: deadlock detected")).
    vm_compute. reflexivity.
  - apply (proj2 (proj2 (includeStudy_fails_atomically Demo.healthy 4 42 true None
                           Demo.store_N)) tt).
    vm_compute. reflexivity.
Defined.

(** C9: the [onlyVariant] argument of [includeStudy] has no effect: any
    two values (or none) give the same outcome and the same store, which
    are those obtained when the parser is always asked for variants only. *)
Theorem includeStudy_onlyVariant_ignored E study_id user_id repForWhite
    (onlyVariant onlyVariant' : option bool) st :
  includeStudy E study_id user_id repForWhite onlyVariant st
  = includeStudy E study_id user_id repForWhite onlyVariant' st
  /\ includeStudy E study_id user_id repForWhite onlyVariant st
     = includeStudy (with_onlyVariant (Some true) E) study_id user_id repForWhite
                    onlyVariant st.
Proof. split; reflexivity. Qed.

(** ** deleteStudy *)

(** C10: [deleteStudy] on a study id without a record reads [userId] of
    [null]: the call throws a [TypeError], not a descriptive [Error], and
    the store is untouched (nothing deleted, nothing un-included). *)
Theorem deleteStudy_missing_study E user_id study_id st :
  find_study study_id (LichessStudy_table st) = None ->
  deleteStudy E user_id study_id st
  = (Throw (TypeError "Cannot read properties of null (reading 'userId')"), st).
Proof.
  intros H. unfold deleteStudy, bind, LichessStudy_findUnique. now rewrite H.
Qed.

Lemma deleteStudy_missing_study_witness :
  deleteStudy Demo.healthy 42 7 Demo.store
  = (Throw (TypeError "Cannot read properties of null (reading 'userId')"), Demo.store).
Proof. apply deleteStudy_missing_study. reflexivity. Defined.

(** ** fetchAllStudyChanges: detecting a modified PGN *)

Lemma pgn_was_modified_true existing_study lichess_study :
  pgn_was_modified existing_study lichess_study = true <->
  Existing.lastFetched existing_study < Metadata.updatedAt lichess_study
  /\ match Existing.updates existing_study with
     | [] => True
     | u :: _ => LichessStudyUpdate.fetched u < Metadata.updatedAt lichess_study
     end.
Proof.
  unfold pgn_was_modified, has_newer_version_on_lichess, has_current_update_fetched.
  rewrite andb_true_iff, negb_true_iff, Z.ltb_lt.
  destruct (Existing.updates existing_study) as [|u l].
  - tauto.
  - rewrite Z.leb_gt. tauto.
Qed.

(** With a current update at hand the step only queues the restore and
    rename queries: no call to Lichess, no write. *)
Lemma existing_study_step_unmodified E user_id username token existing_study
    lichess_study l st :
  pgn_was_modified existing_study lichess_study = false ->
  exists l',
    existing_study_step E user_id username token existing_study lichess_study l st
    = (Return l', st)
    /\ num_updates_fetched l' = num_updates_fetched l.
Proof.
  intros H. unfold existing_study_step. rewrite H.
  destruct (Existing.removedOnLichess existing_study);
    destruct (negb _); eexists; split; reflexivity.
Qed.

(** C1 (as the code has it): with at most one pending update per study,
    the PGN counts as modified exactly when the local [lastFetched] is
    earlier than the remote modification time and no pending update was
    fetched ([fetched]) at or after that time; and a study whose pending
    update was fetched at or after the reported modification time is
    neither fetched again nor given another pending update: the step
    returns with the store as it was. *)
Theorem pgn_was_modified_iff existing_study lichess_study :
  (List.length (Existing.updates existing_study) <= 1)%nat ->
  (pgn_was_modified existing_study lichess_study = true <->
   Existing.lastFetched existing_study < Metadata.updatedAt lichess_study
   /\ ~ exists u, In u (Existing.updates existing_study)
                  /\ Metadata.updatedAt lichess_study <= LichessStudyUpdate.fetched u)
  /\ ((exists u, In u (Existing.updates existing_study)
                 /\ Metadata.updatedAt lichess_study <= LichessStudyUpdate.fetched u) ->
      forall E user_id username token l st,
      exists l',
        existing_study_step E user_id username token existing_study lichess_study l st
        = (Return l', st)
        /\ num_updates_fetched l' = num_updates_fetched l).
Proof.
  intros Hlen.
  assert (Hiff : pgn_was_modified existing_study lichess_study = true <->
    Existing.lastFetched existing_study < Metadata.updatedAt lichess_study
    /\ ~ exists u, In u (Existing.updates existing_study)
                   /\ Metadata.updatedAt lichess_study <= LichessStudyUpdate.fetched u).
  { rewrite pgn_was_modified_true.
    destruct (Existing.updates existing_study) as [|u [|u' l]]; simpl in *; [| |lia].
    - split; intros [H _]; split; auto. intros (u & [] & _).
    - split; intros [H1 H2]; split; auto.
      + intros (x & [<-|[]] & Hx). lia.
      + apply Z.nle_gt. intros Hle. apply H2. exists u. auto. }
  split; [exact Hiff|].
  intros Hex E user_id username token l st.
  apply existing_study_step_unmodified.
  destruct (pgn_was_modified existing_study lichess_study); [|reflexivity].
  exfalso. destruct (proj1 Hiff eq_refl) as [_ Hn]. exact (Hn Hex).
Qed.

Lemma pgn_was_modified_iff_witness :
  pgn_was_modified Demo.existing_A_late Demo.studyA = false
  /\ existing_study_step Demo.healthy 42 "alice" "token" Demo.existing_A_late
       Demo.studyA (mkLocals 0 0 0 0 []) Demo.store_late
     = (Return (mkLocals 0 0 1 0 [LichessStudy_update 1 (data_name "Y")]), Demo.store_late).
Proof.
  assert (Hlen : (List.length (Existing.updates Demo.existing_A_late) <= 1)%nat)
    by (simpl; lia).
  destruct (pgn_was_modified_iff Demo.existing_A_late Demo.studyA Hlen) as [Hiff Hstep].
  assert (Hex : exists u, In u (Existing.updates Demo.existing_A_late)
                          /\ Metadata.updatedAt Demo.studyA <= LichessStudyUpdate.fetched u).
  { exists Demo.pending_late. split; [left; reflexivity | simpl; lia]. }
  split.
  - destruct (pgn_was_modified Demo.existing_A_late Demo.studyA); [|reflexivity].
    exfalso. destruct (proj1 Hiff eq_refl) as [_ Hn]. exact (Hn Hex).
  - destruct (Hstep Hex Demo.healthy 42 "alice"%string "token"%string
                    (mkLocals 0 0 0 0 []) Demo.store_late) as (l' & Heq & _).
    rewrite Heq. vm_compute in Heq. inversion Heq. reflexivity.
Defined.

(** C1 as the specification states it fails on the code.  Study 1 is
    included and holds a pending update whose [lastModifiedOnLichess] (10)
    equals the modification time Lichess reports, but which was fetched at
    time 5: the specification's criterion sees no change, the code sees
    one, fetches the study again and replaces the pending update.  In the
    other direction, a pending update fetched at time 50 for the remote
    state of time 10 hides a modification reported for time 20. *)
Lemma pgn_was_modified_counterexample :
  Existing.included Demo.existing_A = true
  /\ Existing.updates Demo.existing_A = [Demo.pending]
  /\ LichessStudyUpdate.lastModifiedOnLichess Demo.pending = Metadata.updatedAt Demo.studyA
  /\ spec_content_change Demo.existing_A Demo.studyA = false
  /\ pgn_was_modified Demo.existing_A Demo.studyA = true
  /\ remote_calls
       (snd (existing_study_step Demo.healthy 42 "alice" "token" Demo.existing_A
               Demo.studyA (mkLocals 0 0 0 0 []) Demo.store_pending))
     = [call_fetchStudy "lichessA" "alice" "token"]
  /\ spec_content_change Demo.existing_A_late Demo.studyA_again = true
  /\ pgn_was_modified Demo.existing_A_late Demo.studyA_again = false.
Proof. repeat split. Qed.

(** ** unincludeStudy *)

Lemma mem_id_true x l : mem_id x l = true <-> In x l.
Proof.
  unfold mem_id. rewrite existsb_exists. split.
  - intros (y & Hy & He). apply Z.eqb_eq in He. now subst.
  - intros H. exists x. split; [assumption | apply Z.eqb_refl].
Qed.

Lemma mem_id_false x l : mem_id x l = false <-> ~ In x l.
Proof.
  rewrite <- mem_id_true. destruct (mem_id x l); split; congruence.
Qed.

Lemma find_move_update_move i j d l :
  find_move i (update_move j d l) = None <-> find_move i l = None.
Proof.
  unfold find_move, update_move.
  assert (Hid : forall m, Move.id (apply_move_update d m) = Move.id m).
  { intros m. unfold apply_move_update.
    assert (Hc : forall ids m0, Move.id (fold_left (fun m1 sid => connect_study sid m1) ids m0)
                                = Move.id m0).
    { induction ids as [|a ids IH]; intros m0; simpl; [reflexivity|].
      rewrite IH. unfold connect_study. now destruct (mem_id a (Move.studies m0)). }
    destruct (Move.u_deleted d); simpl; apply Hc. }
  induction l as [|m l IH]; simpl; [tauto|].
  destruct (Move.id m =? j); [rewrite Hid|]; destruct (Move.id m =? i);
    try tauto; split; discriminate.
Qed.

Lemma with_moves_with_moves l l' st : with_moves l (with_moves l' st) = with_moves l st.
Proof. reflexivity. Qed.

Lemma exec_soft_deletes ids st :
  (forall i, In i ids -> find_move i (move_table st) <> None) ->
  exec_all (map (fun i => move_update i soft_delete) ids) st
  = Return (with_moves (soft_delete_ids ids (move_table st)) st).
Proof.
  revert st. induction ids as [|i ids IH]; intros st Hin.
  - simpl. unfold soft_delete_ids. simpl. rewrite map_id. now destruct st.
  - cbn [map exec_all exec].
    destruct (find_move i (move_table st)) eqn:Hf;
      [|exfalso; apply (Hin i); [now left | assumption]].
    cbn [soft_delete Move.u_connect all_studies_exist forallb].
    rewrite IH.
    + rewrite with_moves_with_moves. f_equal. f_equal.
      cbn [move_table with_moves]. unfold soft_delete_ids, update_move.
      rewrite map_map. apply map_ext. intros m.
      cbn [mem_id existsb]. fold (mem_id (Move.id m) ids).
      rewrite (Z.eqb_sym (Move.id m) i).
      destruct (i =? Move.id m); cbn; [|reflexivity].
      now destruct (mem_id (Move.id m) ids).
    + intros j Hj. cbn [move_table with_moves].
      rewrite find_move_update_move. apply Hin. now right.
Qed.

Lemma NoDup_map_inj {A B} (f : A -> B) l x y :
  NoDup (map f l) -> In x l -> In y l -> f x = f y -> x = y.
Proof.
  induction l as [|a l IH]; simpl; [contradiction|].
  intros Hnd Hx Hy Hf. inversion Hnd as [|? ? Hna Hnd']; subst.
  destruct Hx as [->|Hx], Hy as [->|Hy]; auto.
  - exfalso. apply Hna. rewrite Hf. now apply in_map.
  - exfalso. apply Hna. rewrite <- Hf. now apply in_map.
Qed.

Lemma length_filter_out x l :
  NoDup l -> In x l ->
  List.length l = S (List.length (filter (fun y => negb (y =? x)) l)).
Proof.
  induction l as [|a l IH]; simpl; [contradiction|].
  intros Hnd Hin. inversion Hnd as [|? ? Hna Hnd']; subst.
  destruct (a =? x) eqn:Hax; simpl.
  - apply Z.eqb_eq in Hax. subst a. f_equal.
    clear IH Hin Hnd. induction l as [|b l IH]; simpl; [reflexivity|].
    destruct (b =? x) eqn:Hbx.
    + apply Z.eqb_eq in Hbx. subst. exfalso. apply Hna. now left.
    + simpl. f_equal. apply IH.
      * intros H. apply Hna. now right.
      * now inversion Hnd'.
  - destruct Hin as [->|Hin]; [rewrite Z.eqb_refl in Hax; discriminate|].
    f_equal. now apply IH.
Qed.

(** The helper's test agrees with the specification's words on the moves
    it is given: an attached move has a single owner exactly when nothing
    else owns it. *)
Lemma is_orphan_exclusively_owned sid m :
  NoDup (Move.studies m) ->
  mem_id sid (Move.studies m) && is_orphan m = exclusively_owned sid m.
Proof.
  intros Hnd. unfold exclusively_owned, is_orphan.
  destruct (mem_id sid (Move.studies m)) eqn:Hm; [|reflexivity]. simpl.
  apply mem_id_true in Hm.
  rewrite (length_filter_out sid (Move.studies m) Hnd Hm).
  destruct (filter _ (Move.studies m)), (Move.pgns m);
    try reflexivity; apply Nat.eqb_neq; simpl; lia.
Qed.

Lemma orphans_of_study sid l :
  moves_wf l ->
  forall m, In m l ->
    mem_id (Move.id m) (map Move.id (filter is_orphan (study_moves sid l)))
    = exclusively_owned sid m.
Proof.
  intros [Hnd Hst] m Hin.
  rewrite <- is_orphan_exclusively_owned
    by (rewrite Forall_forall in Hst; now apply Hst).
  destruct (mem_id (Move.id m) _) eqn:Hmem.
  - apply mem_id_true, in_map_iff in Hmem. destruct Hmem as (m' & Hid & Hm').
    apply filter_In in Hm'. destruct Hm' as [Hm' Ho].
    unfold study_moves in Hm'. apply filter_In in Hm'. destruct Hm' as [Hm' Ha].
    assert (m' = m) by (eapply NoDup_map_inj; eauto). subst m'.
    now rewrite Ha, Ho.
  - apply mem_id_false in Hmem.
    destruct (mem_id sid (Move.studies m) && is_orphan m) eqn:Hb; [|reflexivity].
    apply andb_true_iff in Hb. destruct Hb as [Ha Ho].
    exfalso. apply Hmem. apply in_map. apply filter_In. split; [|assumption].
    apply filter_In. now split.
Qed.

Lemma count_orphans sid l :
  moves_wf l ->
  List.length (filter is_orphan (study_moves sid l))
  = List.length (filter (exclusively_owned sid) l).
Proof.
  intros [_ Hst]. unfold study_moves.
  induction Hst as [|m l Hm _ IH]; simpl; [reflexivity|].
  rewrite <- (is_orphan_exclusively_owned sid m Hm).
  destruct (mem_id sid (Move.studies m)); simpl; [|exact IH].
  destruct (is_orphan m); simpl; congruence.
Qed.

Lemma uninclude_batch sid st study :
  find_study sid (LichessStudy_table st) = Some study ->
  moves_wf (move_table st) ->
  exec_all (orphanMoveSoftDeletionsQueries (study_moves sid (move_table st))
            ++ [LichessStudy_update sid data_uninclude]) st
  = Return (unincluded sid st).
Proof.
  intros Hf Hwf. rewrite exec_all_app.
  unfold orphanMoveSoftDeletionsQueries.
  rewrite <- (map_map Move.id (fun i => move_update i soft_delete)).
  rewrite exec_soft_deletes.
  - cbn [exec_all exec LichessStudy_table with_moves]. rewrite Hf.
    cbn [data_uninclude LichessStudy.moves_set]. f_equal.
    unfold unincluded, with_moves, with_studies. cbn. f_equal.
    unfold set_study_moves, soft_delete_ids. rewrite map_map.
    apply map_ext_in. intros m Hin. cbn [mem_id existsb].
    unfold detach. now rewrite orphans_of_study.
  - intros i Hi Hnone. apply in_map_iff in Hi. destruct Hi as (m & <- & Hm).
    apply filter_In in Hm. destruct Hm as [Hm _].
    unfold study_moves in Hm. apply filter_In in Hm. destruct Hm as [Hm _].
    unfold find_move in Hnone. eapply find_none in Hnone; eauto.
    now rewrite Z.eqb_refl in Hnone.
Qed.

Lemma detach_not_attached sid m : ~ In sid (Move.studies (detach sid m)).
Proof.
  unfold detach, disconnect_study. cbn [Move.studies Move.with_studies].
  intros H. apply filter_In in H. destruct H as [_ H].
  now rewrite Z.eqb_refl in H.
Qed.

(** The row of a move after the un-inclusion of study [sid]: soft-deleted
    when [sid] was its only owner, its flag as before otherwise, and
    without the edge to [sid]. *)
Lemma detached_row sid l m :
  NoDup (map Move.id l) -> In m l ->
  exists m',
    find_move (Move.id m) (map (detach sid) l) = Some m'
    /\ (exclusively_owned sid m = true -> Move.deleted m' = true)
    /\ (exclusively_owned sid m = false -> Move.deleted m' = Move.deleted m)
    /\ Move.studies m' = filter (fun x => negb (x =? sid)) (Move.studies m)
    /\ Move.pgns m' = Move.pgns m.
Proof.
  intros Hnd Hin. exists (detach sid m). split.
  - unfold find_move. induction l as [|x l IH]; [contradiction|].
    cbn [map find]. inversion Hnd as [|? ? Hx Hnd']; subst.
    assert (Hid : Move.id (detach sid x) = Move.id x).
    { unfold detach. now destruct (exclusively_owned sid x). }
    rewrite Hid. destruct Hin as [->|Hin]; [now rewrite Z.eqb_refl|].
    destruct (Move.id x =? Move.id m) eqn:He; [|now apply IH].
    apply Z.eqb_eq in He. exfalso. apply Hx. rewrite He. now apply in_map.
  - unfold detach. destruct (exclusively_owned sid m); cbn;
      repeat split; congruence.
Qed.

Lemma unincludeStudy_throw E study_id user_id st e st' :
  unincludeStudy E study_id user_id st = (Throw e, st') -> st' = st.
Proof.
  unfold unincludeStudy, bind, LichessStudy_findUnique_moves, try_catch, throw.
  destruct (find_study study_id (LichessStudy_table st)) as [study|]; [|now inversion 1].
  destruct (negb _); [now inversion 1|].
  match goal with |- context [transaction E ?q st] =>
    destruct (transaction E q st) as [[[]|e1] st1] eqn:Ht end; [discriminate|].
  apply transaction_throw in Ht. subst st1. now inversion 1.
Qed.

Lemma unincludeStudy_commits E study_id user_id st study :
  find_study study_id (LichessStudy_table st) = Some study ->
  LichessStudy.userId study = user_id ->
  moves_wf (move_table st) ->
  transaction_fault E
    (orphanMoveSoftDeletionsQueries (study_moves study_id (move_table st))
     ++ [LichessStudy_update study_id data_uninclude]) = None ->
  unincludeStudy E study_id user_id st
  = (Return (List.length (filter (exclusively_owned study_id) (move_table st))),
     unincluded study_id st).
Proof.
  intros Hf Hu Hwf Hok.
  unfold unincludeStudy, bind, LichessStudy_findUnique_moves, try_catch.
  rewrite Hf, Hu, Z.eqb_refl. cbn [negb].
  rewrite (transaction_healthy E _ st _ Hok (uninclude_batch _ _ _ Hf Hwf)).
  unfold ret. f_equal. f_equal.
  unfold orphanMoveSoftDeletionsQueries. rewrite length_map.
  now apply count_orphans.
Qed.

Ltac solve_NoDup :=
  repeat (apply NoDup_cons; [simpl; intuition discriminate|]); apply NoDup_nil.

Ltac solve_moves_wf :=
  split; [simpl; solve_NoDup | repeat (apply Forall_cons; [simpl; solve_NoDup|]); apply Forall_nil].

(** C3: [unincludeStudy] throws when the study is not found or belongs
    to another account.  Otherwise (the storage engine accepting the
    batch) one transaction soft-deletes exactly the moves that no
    collection owns besides this study, clears [included] and removes the
    edge from the study to every move, orphaned or not, and the call
    returns the number of soft-deleted moves: afterwards the row of a move
    that only this study owned has [deleted = true], the row of any other
    move has its [deleted] flag as before, and no row has an edge to the
    study.  A call that throws leaves the store unchanged. *)
Theorem unincludeStudy_spec E study_id user_id st :
  (find_study study_id (LichessStudy_table st) = None ->
   unincludeStudy E study_id user_id st
   = (Throw (Error ("Study #" ++ string_of_Z study_id ++ " not found")), st))
  /\ (forall study,
        find_study study_id (LichessStudy_table st) = Some study ->
        LichessStudy.userId study <> user_id ->
        unincludeStudy E study_id user_id st
        = (Throw (Error "Study does not belong to this account (are you logged in?)"), st))
  /\ (forall study,
        find_study study_id (LichessStudy_table st) = Some study ->
        LichessStudy.userId study = user_id ->
        moves_wf (move_table st) ->
        transaction_fault E
          (orphanMoveSoftDeletionsQueries (study_moves study_id (move_table st))
           ++ [LichessStudy_update study_id data_uninclude]) = None ->
        unincludeStudy E study_id user_id st
        = (Return (List.length (filter (exclusively_owned study_id) (move_table st))),
           unincluded study_id st)
        /\ move_table (unincluded study_id st) = map (detach study_id) (move_table st)
        /\ (forall m, In m (move_table (unincluded study_id st)) ->
                      ~ In study_id (Move.studies m))
        /\ (exists study',
              find_study study_id (LichessStudy_table (unincluded study_id st)) = Some study'
              /\ LichessStudy.included study' = false)
        /\ (forall m,
              In m (move_table st) ->
              exists m',
                find_move (Move.id m) (move_table (unincluded study_id st)) = Some m'
                /\ (exclusively_owned study_id m = true -> Move.deleted m' = true)
                /\ (exclusively_owned study_id m = false ->
                    Move.deleted m' = Move.deleted m)
                /\ Move.studies m'
                   = filter (fun x => negb (x =? study_id)) (Move.studies m)
                /\ Move.pgns m' = Move.pgns m))
  /\ (forall e st', unincludeStudy E study_id user_id st = (Throw e, st') -> st' = st).
Proof.
  repeat apply conj.
  - intros Hf. unfold unincludeStudy, bind, LichessStudy_findUnique_moves.
    now rewrite Hf.
  - intros study Hf Hu. unfold unincludeStudy, bind, LichessStudy_findUnique_moves.
    rewrite Hf. apply Z.eqb_neq in Hu. now rewrite Hu.
  - intros study Hf Hu Hwf Hok. repeat apply conj.
    + now apply unincludeStudy_commits with (study := study).
    + reflexivity.
    + intros m Hin. cbn [unincluded move_table] in Hin.
      apply in_map_iff in Hin. destruct Hin as (m0 & <- & _).
      apply detach_not_attached.
    + exists (LichessStudy.apply data_uninclude study). split; [|reflexivity].
      cbn [unincluded LichessStudy_table].
      now rewrite find_study_update, Z.eqb_refl, Hf.
    + intros m Hin. cbn [unincluded move_table].
      apply detached_row; [apply Hwf | exact Hin].
  - intros e st'. apply unincludeStudy_throw.
Qed.

Lemma unincludeStudy_spec_witness :
  unincludeStudy Demo.healthy 7 42 Demo.store
  = (Throw (Error "Study #7 not found"), Demo.store)
  /\ unincludeStudy Demo.healthy 1 43 Demo.store
     = (Throw (Error "Study does not belong to this account (are you logged in?)"),
        Demo.store)
  /\ unincludeStudy Demo.healthy 1 42 Demo.store = (Return 1%nat, unincluded 1 Demo.store)
  /\ snd (unincludeStudy Demo.faulty 1 42 Demo.store) = Demo.store
  /\ (exists m',
        find_move 1 (move_table (snd (unincludeStudy Demo.healthy 1 42 Demo.store)))
        = Some m'
        /\ Move.deleted m' = true /\ Move.studies m' = [])
  /\ (exists m',
        find_move 2 (move_table (snd (unincludeStudy Demo.healthy 1 42 Demo.store)))
        = Some m'
        /\ Move.deleted m' = false /\ Move.studies m' = [] /\ Move.pgns m' = [9]).
Proof.
  pose proof (unincludeStudy_spec Demo.healthy 7 42 Demo.store) as (H7 & _).
  pose proof (unincludeStudy_spec Demo.healthy 1 43 Demo.store) as (_ & H43 & _).
  pose proof (unincludeStudy_spec Demo.healthy 1 42 Demo.store) as (_ & _ & H1 & _).
  pose proof (unincludeStudy_spec Demo.faulty 1 42 Demo.store) as (_ & _ & _ & Hf).
  assert (Hwf : moves_wf (move_table Demo.store))
    by (unfold Demo.store; simpl; solve_moves_wf).
  destruct (H1 Demo.A eq_refl eq_refl Hwf eq_refl) as (Hrun & _ & _ & _ & Hrows).
  repeat apply conj.
  - apply H7. reflexivity.
  - apply (H43 Demo.A); [reflexivity | simpl; lia].
  - exact Hrun.
  - apply (Hf (Error "deadlock detected")). vm_compute. reflexivity.
  - rewrite Hrun. cbn [snd].
    destruct (Hrows Demo.m_e4) as (m' & Hm & Hd & _ & Hs & _); [simpl; tauto|].
    exists m'. split; [exact Hm|]. split; [apply Hd; reflexivity | exact Hs].
  - rewrite Hrun. cbn [snd].
    destruct (Hrows Demo.m_e5) as (m' & Hm & _ & Hd & Hs & Hp); [simpl; tauto|].
    exists m'. split; [exact Hm|]. split; [apply Hd; reflexivity|]. split; assumption.
Defined.

(** ** deleteStudy on an included study *)

Lemma filter_idem {A} (f : A -> bool) l : filter f (filter f l) = filter f l.
Proof.
  induction l as [|a l IH]; simpl; [reflexivity|].
  destruct (f a) eqn:Ha; simpl; rewrite ?Ha; congruence.
Qed.

Lemma disconnect_detach sid m : disconnect_study sid (detach sid m) = detach sid m.
Proof.
  unfold detach, disconnect_study.
  destruct (exclusively_owned sid m); cbn; now rewrite filter_idem.
Qed.

(** C7: [deleteStudy] throws when the study belongs to another user.  For
    an included study of the user it first runs [unincludeStudy], whose
    transaction soft-deletes the exclusively owned moves and detaches
    every edge, and then deletes the row in a second step applied to the
    store the un-inclusion committed; afterwards the study is not found,
    the row of a move that only this study owned has [deleted = true],
    the row of any other move has its [deleted] flag as before, and no
    row has an edge to the study.  When the un-inclusion throws, the row
    is not deleted. *)
Theorem deleteStudy_spec E user_id study_id st study :
  find_study study_id (LichessStudy_table st) = Some study ->
  (LichessStudy.userId study <> user_id ->
   deleteStudy E user_id study_id st
   = (Throw (Error "Study does not belong to this user (are you logged in?)"), st))
  /\ (LichessStudy.userId study = user_id ->
      LichessStudy.included study = true ->
      moves_wf (move_table st) ->
      transaction_fault E
        (orphanMoveSoftDeletionsQueries (study_moves study_id (move_table st))
         ++ [LichessStudy_update study_id data_uninclude]) = None ->
      exists st2,
        unincludeStudy E study_id user_id st
        = (Return (List.length (filter (exclusively_owned study_id) (move_table st))),
           unincluded study_id st)
        /\ await (LichessStudy_delete study_id) (unincluded study_id st) = (Return tt, st2)
        /\ deleteStudy E user_id study_id st = (Return tt, st2)
        /\ move_table st2 = map (detach study_id) (move_table st)
        /\ find_study study_id (LichessStudy_table st2) = None
        /\ LichessStudy_findUniqueOrThrow study_id st2
           = (Throw (NotFoundError "No LichessStudy found"), st2)
        /\ (forall m,
              In m (move_table st) ->
              exists m',
                find_move (Move.id m) (move_table st2) = Some m'
                /\ (exclusively_owned study_id m = true -> Move.deleted m' = true)
                /\ (exclusively_owned study_id m = false ->
                    Move.deleted m' = Move.deleted m)
                /\ Move.studies m'
                   = filter (fun x => negb (x =? study_id)) (Move.studies m)
                /\ Move.pgns m' = Move.pgns m))
  /\ (LichessStudy.userId study = user_id ->
      LichessStudy.included study = true ->
      forall e st', unincludeStudy E study_id user_id st = (Throw e, st') ->
                    deleteStudy E user_id study_id st = (Throw e, st)).
Proof.
  intros Hf. repeat apply conj.
  - intros Hu. unfold deleteStudy, bind, LichessStudy_findUnique.
    rewrite Hf. apply Z.eqb_neq in Hu. now rewrite Hu.
  - intros Hu Hi Hwf Hok.
    pose proof (unincludeStudy_commits E study_id user_id st study Hf Hu Hwf Hok) as Hun.
    assert (Hf1 : find_study study_id (LichessStudy_table (unincluded study_id st))
                  = Some (LichessStudy.apply data_uninclude study)).
    { cbn [unincluded LichessStudy_table].
      now rewrite find_study_update, Z.eqb_refl, Hf. }
    eexists. split; [exact Hun|].
    assert (Hdel : await (LichessStudy_delete study_id) (unincluded study_id st)
                   = (Return tt,
                      mkStore
                        (delete_study study_id (LichessStudy_table (unincluded study_id st)))
                        (filter (fun u => negb (LichessStudyUpdate.studyId u =? study_id))
                                (LichessStudyUpdate_table st))
                        (map (detach study_id) (move_table st))
                        (User_table st) (remote_calls st))).
    { unfold await. cbn [exec]. rewrite Hf1. f_equal. f_equal.
      cbn [unincluded move_table]. rewrite map_map.
      apply map_ext. intros m. apply disconnect_detach. }
    split; [exact Hdel|]. repeat apply conj.
    + unfold deleteStudy, bind, LichessStudy_findUnique.
      rewrite Hf, Hu, Z.eqb_refl, Hi. cbn [negb]. rewrite Hun. unfold ret. exact Hdel.
    + reflexivity.
    + cbn [LichessStudy_table]. now rewrite find_study_delete, Z.eqb_refl.
    + unfold LichessStudy_findUniqueOrThrow. cbn [LichessStudy_table].
      now rewrite find_study_delete, Z.eqb_refl.
    + intros m Hin. cbn [move_table].
      apply detached_row; [apply Hwf | exact Hin].
  - intros Hu Hi e st' Hun.
    pose proof (unincludeStudy_throw E study_id user_id st e st' Hun). subst st'.
    unfold deleteStudy, bind, LichessStudy_findUnique.
    rewrite Hf, Hu, Z.eqb_refl, Hi. cbn [negb]. now rewrite Hun.
Qed.

Lemma deleteStudy_spec_witness :
  deleteStudy Demo.healthy 43 1 Demo.store
  = (Throw (Error "Study does not belong to this user (are you logged in?)"), Demo.store)
  /\ (exists st2,
        deleteStudy Demo.healthy 42 1 Demo.store = (Return tt, st2)
        /\ find_study 1 (LichessStudy_table st2) = None
        /\ (exists m', find_move 1 (move_table st2) = Some m'
                       /\ Move.deleted m' = true /\ Move.studies m' = [])
        /\ (exists m', find_move 2 (move_table st2) = Some m'
                       /\ Move.deleted m' = false /\ Move.studies m' = []
                       /\ Move.pgns m' = [9]))
  /\ deleteStudy Demo.faulty 42 1 Demo.store = (Throw (Error "deadlock detected"), Demo.store).
Proof.
  pose proof (deleteStudy_spec Demo.healthy 43 1 Demo.store Demo.A eq_refl) as (H43 & _).
  pose proof (deleteStudy_spec Demo.healthy 42 1 Demo.store Demo.A eq_refl) as (_ & H42 & _).
  pose proof (deleteStudy_spec Demo.faulty 42 1 Demo.store Demo.A eq_refl) as (_ & _ & Hf).
  repeat apply conj.
  - apply H43. simpl. lia.
  - destruct H42 as (st2 & _ & _ & Hd & _ & Hn & _ & Hrows);
      [reflexivity | reflexivity | unfold Demo.store; simpl; solve_moves_wf | reflexivity |].
    exists st2. split; [exact Hd|]. split; [exact Hn|]. split.
    + destruct (Hrows Demo.m_e4) as (m' & Hm & Hdel & _ & Hs & _); [simpl; tauto|].
      exists m'. split; [exact Hm|]. split; [apply Hdel; reflexivity | exact Hs].
    + destruct (Hrows Demo.m_e5) as (m' & Hm & _ & Hdel & Hs & Hp); [simpl; tauto|].
      exists m'. split; [exact Hm|]. split; [apply Hdel; reflexivity|].
      split; assumption.
  - apply (Hf eq_refl eq_refl (Error "deadlock detected") Demo.store). vm_compute. reflexivity.
Defined.

(** ** fetchAllStudyChanges: a study whose PGN was modified *)

Lemma filter_find_none {A} (p : A -> bool) l : find p l = None -> filter p l = [].
Proof.
  induction l as [|a l IH]; simpl; [reflexivity|].
  destruct (p a); [discriminate | exact IH].
Qed.

Lemma filter_find_some {A} (p : A -> bool) l x : find p l = Some x -> filter p l <> [].
Proof.
  induction l as [|a l IH]; simpl; [discriminate|].
  destruct (p a); [discriminate | exact IH].
Qed.


Lemma updates_of_upsert_other u l st j :
  j <> LichessStudyUpdate.studyId u ->
  updates_of j (with_updates (upsert_update u l) st)
  = filter (fun x => LichessStudyUpdate.studyId x =? j) l.
Proof.
  intros Hj. unfold updates_of, upsert_update. cbn [LichessStudyUpdate_table with_updates].
  assert (Hu : (LichessStudyUpdate.studyId u =? j) = false) by (apply Z.eqb_neq; congruence).
  destruct (find_update _ l).
  - induction l as [|a l IH]; simpl; [reflexivity|].
    destruct (LichessStudyUpdate.studyId a =? LichessStudyUpdate.studyId u) eqn:Ha; simpl.
    + apply Z.eqb_eq in Ha. rewrite Hu, Ha, Hu. exact IH.
    + destruct (LichessStudyUpdate.studyId a =? j); simpl; congruence.
  - rewrite filter_app. simpl. rewrite Hu. apply app_nil_r.
Qed.



(** ** A program logic for [M]: the rules of [maintains] and [returns] *)

Section ProgramLogic.

Variable R : Store -> Store -> Prop.
Context {R_preorder : PreOrder R}.

Lemma maintains_ret {A} (a : A) : maintains R (ret a).
Proof. intros st. reflexivity. Qed.

Lemma maintains_throw {A} e : maintains R (@throw A e).
Proof. intros st. reflexivity. Qed.

Lemma maintains_bind_returns {A B} (Q : A -> Prop) (m : M A) (k : A -> M B) :
  maintains R m -> returns Q m -> (forall a, Q a -> maintains R (k a)) ->
  maintains R (bind m k).
Proof.
  intros Hm HQ Hk st. unfold bind.
  specialize (Hm st). specialize (HQ st).
  destruct (m st) as [[a|e] st1]; simpl in *; [|exact Hm].
  transitivity st1; [exact Hm|]. apply Hk. eapply HQ. reflexivity.
Qed.

Lemma maintains_bind {A B} (m : M A) (k : A -> M B) :
  maintains R m -> (forall a, maintains R (k a)) -> maintains R (bind m k).
Proof.
  intros Hm Hk. apply maintains_bind_returns with (Q := fun _ => True); auto.
  intros st a st' _. exact I.
Qed.

Lemma maintains_try_catch {A} (m : M A) (h : Exn -> M A) :
  maintains R m -> (forall e, maintains R (h e)) -> maintains R (try_catch m h).
Proof.
  intros Hm Hh st. unfold try_catch. specialize (Hm st).
  destruct (m st) as [[a|e] st1]; simpl in *; [exact Hm|].
  transitivity st1; [exact Hm | apply Hh].
Qed.

Lemma maintains_for_of {A L} (xs : list A) (body : A -> L -> M L) (acc : L) :
  (forall x acc, In x xs -> maintains R (body x acc)) ->
  maintains R (for_of xs body acc).
Proof.
  revert acc. induction xs as [|x xs IH]; intros acc Hb; simpl.
  - apply maintains_ret.
  - apply maintains_bind.
    + apply Hb. now left.
    + intros acc'. apply IH. intros y acc'' Hy. apply Hb. now right.
Qed.

(** A single query that either throws or moves the store along [R]. *)
Lemma maintains_await q :
  (forall st st', exec q st = Return st' -> R st st') -> maintains R (await q).
Proof.
  intros H st. unfold await. destruct (exec q st) eqn:He; simpl; [auto | reflexivity].
Qed.

Lemma exec_all_related qs :
  (forall q st st', In q qs -> exec q st = Return st' -> R st st') ->
  forall st st', exec_all qs st = Return st' -> R st st'.
Proof.
  induction qs as [|q qs IH]; intros H st st'; simpl.
  - intros Heq. inversion Heq. reflexivity.
  - destruct (exec q st) as [st1|] eqn:He; [|discriminate].
    intros Hx. transitivity st1.
    + eapply H; [now left | exact He].
    + eapply IH; [|exact Hx]. intros q' s s' Hq'. apply H. now right.
Qed.

Lemma maintains_transaction E qs :
  (forall q st st', In q qs -> exec q st = Return st' -> R st st') ->
  maintains R (transaction E qs).
Proof.
  intros H st. unfold transaction.
  destruct (transaction_fault E qs); simpl; [reflexivity|].
  destruct (exec_all qs st) eqn:He; simpl; [|reflexivity].
  eapply exec_all_related; eauto.
Qed.

End ProgramLogic.

Lemma returns_ret {A} (Q : A -> Prop) a : Q a -> returns Q (ret a).
Proof. intros H st a' st' Heq. inversion Heq. now subst. Qed.

Lemma returns_throw {A} (Q : A -> Prop) e : returns Q (@throw A e).
Proof. intros st a st' Heq. discriminate. Qed.

Lemma returns_bind {A B} (P : A -> Prop) (Q : B -> Prop) (m : M A) (k : A -> M B) :
  returns P m -> (forall a, P a -> returns Q (k a)) -> returns Q (bind m k).
Proof.
  intros Hm Hk st b st'. unfold bind.
  destruct (m st) as [[a|e] st1] eqn:Hmst; [|discriminate].
  intros Hkst. eapply Hk; [|exact Hkst]. eapply Hm. exact Hmst.
Qed.

Lemma returns_for_of {A L} (P : L -> Prop) (xs : list A) (body : A -> L -> M L) acc :
  (forall x acc, In x xs -> P acc -> returns P (body x acc)) ->
  P acc -> returns P (for_of xs body acc).
Proof.
  revert acc. induction xs as [|x xs IH]; intros acc Hb Hacc; simpl.
  - now apply returns_ret.
  - apply returns_bind with (P := P).
    + apply Hb; [now left | assumption].
    + intros acc' Hacc'. apply IH; [|assumption].
      intros y acc'' Hy. apply Hb. now right.
Qed.

Ltac preorder := try solve [typeclasses eauto].

Ltac maintain :=
  repeat match goal with
    | |- maintains _ (ret _) => apply maintains_ret; preorder
    | |- maintains _ (throw _) => apply maintains_throw; preorder
    | |- maintains _ (bind _ _) => apply maintains_bind; preorder; [|intros ?; cbv beta]
    | |- maintains _ (try_catch _ _) =>
        apply maintains_try_catch; preorder; [|intros ?; cbv beta]
    | |- maintains _ (match ?x with _ => _ end) => destruct x
    end.

(** ** fetchAllStudyChanges: what the first loop does to the store *)

Lemma same_study_refl s : same_study s s.
Proof. unfold same_study. tauto. Qed.

Lemma same_study_trans s1 s2 s3 : same_study s1 s2 -> same_study s2 s3 -> same_study s1 s3.
Proof. unfold same_study. intuition congruence. Qed.

#[local] Instance sync_step_preorder : PreOrder sync_step.
Proof.
  split.
  - intros st. unfold sync_step. split; [reflexivity | split; [reflexivity|]].
    intros i s Hf. exists s. split; [assumption | apply same_study_refl].
  - intros a b c (Hu1 & Hm1 & Hs1) (Hu2 & Hm2 & Hs2). unfold sync_step.
    split; [congruence | split; [congruence|]].
    intros i s Hf. destruct (Hs1 i s Hf) as (s1 & Hf1 & Hsame1).
    destruct (Hs2 i s1 Hf1) as (s2 & Hf2 & Hsame2).
    exists s2. split; [assumption | eapply same_study_trans; eauto].
Qed.

Lemma sync_step_same_tables st st' :
  User_table st' = User_table st -> move_table st' = move_table st ->
  LichessStudy_table st' = LichessStudy_table st -> sync_step st st'.
Proof.
  intros Hu Hm Hs. unfold sync_step. rewrite Hs.
  split; [assumption | split; [assumption|]].
  intros i s Hf. exists s. split; [assumption | apply same_study_refl].
Qed.

Lemma sync_await_fetchStudy E lichess_id username token :
  maintains sync_step (await_fetchStudy E lichess_id username token).
Proof. intros st. now apply sync_step_same_tables. Qed.

Lemma sync_await_fetchStudiesMetadata E username token :
  maintains sync_step (await_fetchStudiesMetadata E username token).
Proof. intros st. now apply sync_step_same_tables. Qed.

Lemma sync_call_pgndbToMoves E pgn r o : maintains sync_step (call_pgndbToMoves E pgn r o).
Proof. intros st. now apply sync_step_same_tables. Qed.

Lemma sync_findUnique i : maintains sync_step (LichessStudy_findUnique i).
Proof. intros st. now apply sync_step_same_tables. Qed.

Lemma sync_findUnique_moves i : maintains sync_step (LichessStudy_findUnique_moves i).
Proof. intros st. now apply sync_step_same_tables. Qed.

Lemma sync_findMany u : maintains sync_step (LichessStudy_findMany u).
Proof. intros st. now apply sync_step_same_tables. Qed.

Lemma sync_upsert u : maintains sync_step (LichessStudyUpdate_upsert u).
Proof. intros st. now apply sync_step_same_tables. Qed.

Lemma sync_create d c : maintains sync_step (LichessStudy_create d c).
Proof.
  intros st. unfold sync_step. simpl. split; [reflexivity | split; [reflexivity|]].
  intros i s Hf. exists s. split; [now apply find_study_app_old | apply same_study_refl].
Qed.

Lemma sync_update_content i lastModified fetched pgn :
  maintains sync_step (await (LichessStudy_update i (content_data lastModified fetched pgn))).
Proof.
  apply maintains_await; preorder. intros st st'. cbn [exec].
  destruct (find_study i (LichessStudy_table st)); [|discriminate].
  cbn [content_data LichessStudy.moves_set]. intros H. inversion H. subst st'.
  unfold sync_step. cbn [with_studies User_table move_table LichessStudy_table].
  split; [reflexivity | split; [reflexivity|]].
  intros j s Hf. rewrite find_study_update, Hf.
  destruct (j =? i); simpl; eexists; (split; [reflexivity|]);
    unfold same_study; cbn; tauto.
Qed.

Lemma sync_fetchStudyUpdate E user_id study_id username token :
  maintains sync_step (fetchStudyUpdate E user_id study_id username token).
Proof.
  unfold fetchStudyUpdate.
  apply maintains_bind; preorder; [apply sync_findUnique_moves|]. intros [[study moves]|]; maintain.
  - apply sync_await_fetchStudy.
  - apply sync_call_pgndbToMoves.
  - apply sync_upsert.
Qed.

Lemma sync_updateUnincludedStudy E user_id study_id username token :
  maintains sync_step (updateUnincludedStudy E user_id study_id username token).
Proof.
  unfold updateUnincludedStudy.
  apply maintains_bind; preorder; [apply sync_findUnique|]. intros [study|]; maintain.
  - apply sync_await_fetchStudy.
  - apply sync_update_content.
Qed.

Lemma sync_existing_study_step E user_id username token existing_study lichess_study l :
  maintains sync_step
    (existing_study_step E user_id username token existing_study lichess_study l).
Proof.
  unfold existing_study_step. cbv zeta. maintain.
  - apply sync_fetchStudyUpdate.
  - apply sync_updateUnincludedStudy.
Qed.

Lemma sync_lichess_study_step E user_id username token existing_studies ids lichess_study l :
  maintains sync_step
    (lichess_study_step E user_id username token existing_studies ids lichess_study l).
Proof.
  unfold lichess_study_step. maintain.
  - apply sync_await_fetchStudy.
  - apply sync_create.
  - apply sync_existing_study_step.
Qed.

Lemma sync_collect_changes E user_id username token :
  maintains sync_step (collect_changes E user_id username token).
Proof.
  unfold collect_changes. maintain.
  - apply sync_findMany.
  - apply sync_await_fetchStudiesMetadata.
  - apply maintains_for_of; preorder. intros x acc _.
    apply sync_lichess_study_step.
Qed.

(** ** fetchAllStudyChanges: the update-check timestamp *)

#[local] Instance same_users_preorder : PreOrder same_users.
Proof.
  split.
  - intros a. unfold same_users. reflexivity.
  - intros a b c. unfold same_users. congruence.
Qed.

Lemma exec_same_users q st st' : exec q st = Return st' -> same_users st st'.
Proof.
  unfold same_users. destruct q as [i d|i|k c u|i d]; cbn [exec].
  - destruct (find_study i _); [|discriminate].
    destruct (LichessStudy.moves_set d); intros H; inversion H; reflexivity.
  - destruct (find_study i _); [|discriminate]. intros H; inversion H; reflexivity.
  - destruct (find _ _); destruct (all_studies_exist _ _); try discriminate;
      intros H; inversion H; reflexivity.
  - destruct (find_move i _); [|discriminate].
    destruct (all_studies_exist _ _); [|discriminate]. intros H; inversion H; reflexivity.
Qed.

Lemma transaction_same_users E qs : maintains same_users (transaction E qs).
Proof.
  apply maintains_transaction; preorder. intros q st st' _. apply exec_same_users.
Qed.

Lemma find_user_stamp i d l u :
  find_user i l = Some u ->
  find_user i (stamp_user i d l)
  = Some (User.mk (User.id u) (User.lichessUsername u) (User.lichessAccessToken u) (Some d)).
Proof.
  unfold find_user, stamp_user.
  induction l as [|x xs IH]; simpl; [discriminate|].
  destruct (User.id x =? i) eqn:Hx; simpl; rewrite Hx; [|exact IH].
  intros H. inversion H. reflexivity.
Qed.

(** C8: when the batch of queued queries fails to commit,
    [fetchAllStudyChanges] throws "Exception renaming study: ..." and so
    returns no counts, whatever the counters held; whenever the pass
    throws, the User table is as it was (no timestamp recorded); and when
    it returns, the User table is the old one with the single write of
    the current time into the user's [lastRepertoireUpdateCheck]. *)
Theorem fetchAllStudyChanges_timestamp E user_id username token st :
  (forall l st1 e st1',
      collect_changes E user_id username token st = (Return l, st1) ->
      transaction E (queries l) st1 = (Throw e, st1') ->
      fetchAllStudyChanges E user_id username token st
      = (Throw (Error ("Exception renaming study: " ++ message e)), st1)
      /\ User_table st1 = User_table st)
  /\ (forall e st',
        fetchAllStudyChanges E user_id username token st = (Throw e, st') ->
        User_table st' = User_table st)
  /\ (forall counts st',
        fetchAllStudyChanges E user_id username token st = (Return counts, st') ->
        User_table st' = stamp_user user_id (now E) (User_table st)
        /\ exists u u',
             find_user user_id (User_table st) = Some u
             /\ find_user user_id (User_table st') = Some u'
             /\ User.lastRepertoireUpdateCheck u' = Some (now E)).
Proof.
  pose proof (sync_collect_changes E user_id username token st) as (Hcu & _).
  unfold fetchAllStudyChanges, bind, try_catch.
  destruct (collect_changes E user_id username token st) as [[l|e0] st1] eqn:Hc;
    cbn [snd] in Hcu.
  - pose proof (transaction_same_users E (queries l) st1) as Htu.
    unfold same_users in Htu.
    destruct (transaction E (queries l) st1) as [[[]|e1] st2] eqn:Ht; cbn [snd] in Htu.
    + unfold User_update_lastRepertoireUpdateCheck, ret.
      destruct (User_update_fault E user_id) as [e2|];
        [|destruct (find_user user_id (User_table st2)) as [u|] eqn:Hu].
      * repeat apply conj.
        -- intros l0 st0 e st1' Heq Ht'. inversion Heq. subst.
           rewrite Ht in Ht'. discriminate.
        -- intros e st' Heq. inversion Heq. subst. congruence.
        -- discriminate.
      * repeat apply conj.
        -- intros l0 st0 e st1' Heq Ht'. inversion Heq. subst.
           rewrite Ht in Ht'. discriminate.
        -- discriminate.
        -- intros counts st' Heq. inversion Heq. subst st'.
           cbn [User_table with_users]. rewrite Htu, Hcu. split; [reflexivity|].
           rewrite Htu, Hcu in Hu. exists u. eexists. split; [exact Hu|].
           split; [apply find_user_stamp; exact Hu | reflexivity].
      * repeat apply conj.
        -- intros l0 st0 e st1' Heq Ht'. inversion Heq. subst.
           rewrite Ht in Ht'. discriminate.
        -- intros e st' Heq. inversion Heq. subst. congruence.
        -- discriminate.
    + pose proof (transaction_throw E _ _ _ _ Ht). subst st2.
      repeat apply conj.
      * intros l0 st0 e st1' Heq Ht'. inversion Heq. subst l0 st0.
        rewrite Ht in Ht'. inversion Ht'. subst. auto.
      * intros e st' Heq. unfold throw in Heq. inversion Heq. subst. congruence.
      * unfold throw. discriminate.
  - repeat apply conj.
    + discriminate.
    + intros e st' Heq. inversion Heq. subst. congruence.
    + discriminate.
Qed.

Lemma fetchAllStudyChanges_timestamp_witness :
  (exists st1,
     fetchAllStudyChanges Demo.faulty 42 "alice" "token" Demo.store
     = (Throw (Error "Exception renaming study: deadlock detected"), st1)
     /\ User_table st1 = [Demo.alice])
  /\ User_table (snd (fetchAllStudyChanges Demo.healthy 42 "alice" "token" Demo.store))
     = [User.mk 42 "alice" "token" (Some 100)].
Proof.
  split.
  - destruct (fetchAllStudyChanges_timestamp Demo.faulty 42 "alice" "token" Demo.store)
      as (H & _).
    assert (Hc : exists l st1,
               collect_changes Demo.faulty 42 "alice" "token" Demo.store = (Return l, st1))
      by (vm_compute; eauto).
    destruct Hc as (l & st1 & Hc).
    destruct (H l st1 (Error "deadlock detected") st1 Hc eq_refl) as [Hf Hu].
    exists st1. split; [exact Hf | exact Hu].
  - destruct (fetchAllStudyChanges_timestamp Demo.healthy 42 "alice" "token" Demo.store)
      as (_ & _ & H).
    eapply H. vm_compute. reflexivity.
Defined.

(** ** fetchAllStudyChanges: studies that are gone from Lichess *)

Lemma exec_other_study q st st' j :
  exec q st = Return st' -> study_of_query q <> Some j ->
  find_study j (LichessStudy_table st') = find_study j (LichessStudy_table st).
Proof.
  destruct q as [i d|i|k c u|i d]; cbn [exec study_of_query]; intros H Hj.
  - destruct (find_study i _); [|discriminate].
    assert (Hji : (j =? i) = false) by (apply Z.eqb_neq; congruence).
    destruct (LichessStudy.moves_set d); inversion H; subst st';
      cbn [LichessStudy_table with_studies with_moves];
      now rewrite find_study_update, Hji.
  - destruct (find_study i _); [|discriminate].
    assert (Hji : (j =? i) = false) by (apply Z.eqb_neq; congruence).
    inversion H; subst st'. cbn [LichessStudy_table].
    now rewrite find_study_delete, Hji.
  - destruct (find _ _); destruct (all_studies_exist _ _); try discriminate;
      inversion H; reflexivity.
  - destruct (find_move i _); [|discriminate].
    destruct (all_studies_exist _ _); [|discriminate]. inversion H; reflexivity.
Qed.

Lemma exec_all_other_study qs j :
  Forall (fun q => study_of_query q <> Some j) qs ->
  forall st st', exec_all qs st = Return st' ->
  find_study j (LichessStudy_table st') = find_study j (LichessStudy_table st).
Proof.
  induction 1 as [|q qs Hq _ IH]; intros st st'; simpl.
  - intros H. now inversion H.
  - destruct (exec q st) as [st1|] eqn:He; [|discriminate].
    intros Hx. rewrite (IH _ _ Hx). eapply exec_other_study; eauto.
Qed.

Lemma removed_study_loop ids existing l :
  fold_left (fun l es => removed_study_step ids es l) existing l
  = mkLocals (num_new_studies l) (num_updates_fetched l) (num_renamed_studies l)
             (num_removed_studies l
              + List.length (filter (counted_as_removed ids) existing))
             (queries l ++ flat_map (removal_queries ids) existing).
Proof.
  revert l. induction existing as [|es existing IH]; intros l; simpl.
  - destruct l; simpl. now rewrite Nat.add_0_r, app_nil_r.
  - rewrite IH. unfold removed_study_step, counted_as_removed, removal_queries,
      gone_from_lichess.
    destruct (negb (Set_has ids (Existing.lichessId es))); simpl; [|reflexivity].
    destruct (Existing.included es); simpl.
    + destruct (Existing.removedOnLichess es); simpl; [reflexivity|].
      rewrite <- app_assoc. simpl. f_equal. lia.
    + rewrite <- app_assoc. simpl. f_equal. lia.
Qed.

Lemma removal_queries_target ids es q :
  In q (removal_queries ids es) -> study_of_query q = Some (Existing.id es).
Proof.
  unfold removal_queries.
  destruct (gone_from_lichess ids es); [|contradiction].
  destruct (Existing.included es); [destruct (Existing.removedOnLichess es)|];
    simpl; intros H; try contradiction; destruct H as [<-|[]]; reflexivity.
Qed.

Lemma removal_queries_elsewhere ids l j :
  ~ In j (map Existing.id l) ->
  Forall (fun q => study_of_query q <> Some j) (flat_map (removal_queries ids) l).
Proof.
  intros Hj. apply Forall_forall. intros q Hq.
  apply in_flat_map in Hq. destruct Hq as (es & Hes & Hq).
  rewrite (removal_queries_target _ _ _ Hq). intros Heq. inversion Heq. subst j.
  apply Hj. now apply in_map.
Qed.

Lemma returns_then_ret {A B} (Q : B -> Prop) (m : M A) (b : B) :
  Q b -> returns Q (bind m (fun _ => ret b)).
Proof.
  intros Hb. apply returns_bind with (P := fun _ => True).
  - intros st a st' _. exact I.
  - intros a _. now apply returns_ret.
Qed.

Lemma first_loop_push existing ids es d l :
  In es existing -> Set_has ids (Existing.lichessId es) = true ->
  LichessStudy.moves_set d = None ->
  first_loop_locals existing ids l ->
  first_loop_locals existing ids (push (LichessStudy_update (Existing.id es) d) l).
Proof.
  intros Hes Hid Hd [Hn Hq]. split; [exact Hn|]. simpl.
  apply Forall_app. split; [exact Hq|]. constructor; [|constructor].
  exists es, d. auto.
Qed.

Lemma returns_existing_study_step E user_id username token existing ids es lichess_study l :
  In es existing -> Set_has ids (Existing.lichessId es) = true ->
  first_loop_locals existing ids l ->
  returns (first_loop_locals existing ids)
          (existing_study_step E user_id username token es lichess_study l).
Proof.
  intros Hes Hid Hl. unfold existing_study_step. cbv zeta.
  match goal with |- context [ret (incr_updates ?x)] => set (l1 := x) end.
  assert (Hl1 : first_loop_locals existing ids l1).
  { unfold l1.
    destruct (Existing.removedOnLichess es); destruct (negb _);
      repeat first [ assumption
                   | apply first_loop_push; try assumption; try reflexivity
                   | match goal with
                     | |- first_loop_locals _ _ (incr_renamed ?x) =>
                         cut (first_loop_locals existing ids x);
                         [intros [? ?]; split; assumption|]
                     end ]. }
  assert (Hl2 : first_loop_locals existing ids (incr_updates l1)).
  { destruct Hl1. split; assumption. }
  destruct (pgn_was_modified es lichess_study); [|now apply returns_ret].
  destruct (Existing.included es); [now apply returns_then_ret|].
  destruct (negb (Existing.hidden es)); [now apply returns_then_ret | now apply returns_ret].
Qed.

Lemma Set_has_true s x : Set_has s x = true <-> In x s.
Proof.
  unfold Set_has. rewrite existsb_exists. split.
  - intros (y & Hy & He). apply String.eqb_eq in He. now subst.
  - intros H. exists x. split; [assumption | apply String.eqb_refl].
Qed.

Lemma returns_lichess_study_step E user_id username token existing existing_ids
    lichess_studies lichess_study l :
  In lichess_study lichess_studies ->
  first_loop_locals existing (map Metadata.id lichess_studies) l ->
  returns (first_loop_locals existing (map Metadata.id lichess_studies))
          (lichess_study_step E user_id username token existing existing_ids
                              lichess_study l).
Proof.
  intros Hin Hl. unfold lichess_study_step.
  destruct (negb (Set_has existing_ids (Metadata.id lichess_study))).
  - apply returns_bind with (P := fun _ => True); [intros st a st' _; exact I|].
    intros [pgn lm] _. apply returns_then_ret. destruct Hl. split; assumption.
  - destruct (find _ existing) as [es|] eqn:Hf; [|apply returns_throw].
    apply find_some in Hf. destruct Hf as [Hes Heq]. apply String.eqb_eq in Heq.
    apply returns_existing_study_step; try assumption.
    apply Set_has_true. rewrite Heq. now apply in_map.
Qed.

Lemma collect_changes_return E user_id username token st l st1 :
  collect_changes E user_id username token st = (Return l, st1) ->
  exists lichess_studies l1,
    fetchStudiesMetadata E username token = Return lichess_studies
    /\ for_of lichess_studies
         (lichess_study_step E user_id username token (existing_studies_of user_id st)
            (map Existing.lichessId (existing_studies_of user_id st)))
         (mkLocals 0 0 0 0 [])
         (with_call (call_fetchStudiesMetadata username token) st)
       = (Return l1, st1)
    /\ l = fold_left
             (fun l es => removed_study_step (map Metadata.id lichess_studies) es l)
             (existing_studies_of user_id st) l1.
Proof.
  unfold collect_changes, bind, LichessStudy_findMany, await_fetchStudiesMetadata.
  fold (existing_studies_of user_id st).
  destruct (fetchStudiesMetadata E username token) as [lichess_studies|]; [|discriminate].
  destruct (for_of lichess_studies _ _ _) as [[l1|] st1'] eqn:Hloop; [|discriminate].
  unfold ret. intros H. inversion H. subst. eauto.
Qed.

Lemma fetchAllStudyChanges_return E user_id username token st counts st' :
  fetchAllStudyChanges E user_id username token st = (Return counts, st') ->
  exists l st1 st2,
    collect_changes E user_id username token st = (Return l, st1)
    /\ exec_all (queries l) st1 = Return st2
    /\ LichessStudy_table st' = LichessStudy_table st2
    /\ move_table st' = move_table st2
    /\ counts = mkCounts (num_new_studies l) (num_updates_fetched l)
                         (num_renamed_studies l) (num_removed_studies l).
Proof.
  unfold fetchAllStudyChanges, bind, try_catch.
  destruct (collect_changes E user_id username token st) as [[l|] st1]; [|discriminate].
  destruct (transaction E (queries l) st1) as [[[]|] st2] eqn:Ht; [|discriminate].
  apply transaction_return in Ht. destruct Ht as [_ Ht].
  unfold User_update_lastRepertoireUpdateCheck, ret.
  destruct (User_update_fault E user_id); [discriminate|].
  destruct (find_user user_id (User_table st2)); [|discriminate].
  intros H. inversion H. subst. exists l, st1, st2. auto.
Qed.

Lemma find_study_In l s :
  NoDup (map LichessStudy.id l) -> In s l -> find_study (LichessStudy.id s) l = Some s.
Proof.
  unfold find_study. induction l as [|x l IH]; simpl; [contradiction|].
  intros Hnd Hin. inversion Hnd as [|? ? Hx Hnd']; subst.
  destruct Hin as [->|Hin]; [now rewrite Z.eqb_refl|].
  destruct (LichessStudy.id x =? LichessStudy.id s) eqn:He; [|auto].
  apply Z.eqb_eq in He. exfalso. apply Hx. rewrite He. now apply in_map.
Qed.

Lemma NoDup_map_filter {A B} (f : A -> B) (p : A -> bool) l :
  NoDup (map f l) -> NoDup (map f (filter p l)).
Proof.
  induction l as [|x l IH]; simpl; [auto|].
  intros Hnd. inversion Hnd as [|? ? Hx Hnd']; subst.
  destruct (p x); simpl; auto. constructor; auto.
  intros Hin. apply Hx. apply in_map_iff in Hin. destruct Hin as (y & Hy & Hin).
  apply filter_In in Hin. rewrite <- Hy. apply in_map. tauto.
Qed.

Lemma existing_ids_NoDup user_id st :
  NoDup (map LichessStudy.id (LichessStudy_table st)) ->
  NoDup (map Existing.id (existing_studies_of user_id st)).
Proof.
  intros Hnd. unfold existing_studies_of. rewrite map_map.
  change (fun x => Existing.id _) with LichessStudy.id.
  now apply NoDup_map_filter.
Qed.

Lemma count_removed ids user_id (g : LichessStudy.t -> list LichessStudyUpdate.t) l :
  List.length
    (filter (counted_as_removed ids)
       (map (fun s => Existing.mk s (g s))
            (filter (fun s => LichessStudy.userId s =? user_id) l)))
  = List.length
      (filter (fun s => (LichessStudy.userId s =? user_id)
                        && negb (Set_has ids (LichessStudy.lichessId s))
                        && (if LichessStudy.included s
                            then negb (LichessStudy.removedOnLichess s) else true)) l).
Proof.
  induction l as [|s l IH]; simpl; [reflexivity|].
  destruct (LichessStudy.userId s =? user_id); simpl; [|exact IH].
  unfold counted_as_removed at 1, gone_from_lichess, Existing.lichessId,
    Existing.included, Existing.removedOnLichess. simpl.
  destruct (negb (Set_has ids (LichessStudy.lichessId s))
            && (if LichessStudy.included s
                then negb (LichessStudy.removedOnLichess s) else true)); simpl; congruence.
Qed.

(** Queries of the first loop never address a study that Lichess no
    longer lists. *)
Lemma first_loop_elsewhere existing ids qs es :
  NoDup (map Existing.id existing) ->
  In es existing -> Set_has ids (Existing.lichessId es) = false ->
  Forall (queued_for_listed existing ids) qs ->
  Forall (fun q => study_of_query q <> Some (Existing.id es)) qs.
Proof.
  intros Hnd Hes Hgone Hqs. eapply Forall_impl; [|exact Hqs].
  intros q (es' & d & -> & _ & Hes' & Hlisted). simpl. intros Heq. inversion Heq as [Hid].
  assert (es' = es) by (eapply NoDup_map_inj; eauto). subst es'. congruence.
Qed.

(** The store after the batch, at a study that is gone from Lichess. *)
Lemma removal_commits existing ids qs es st1 st2 s1 :
  NoDup (map Existing.id existing) ->
  In es existing -> Set_has ids (Existing.lichessId es) = false ->
  Forall (queued_for_listed existing ids) qs ->
  exec_all (qs ++ flat_map (removal_queries ids) existing) st1 = Return st2 ->
  find_study (Existing.id es) (LichessStudy_table st1) = Some s1 ->
  LichessStudy.removedOnLichess s1 = Existing.removedOnLichess es ->
  find_study (Existing.id es) (LichessStudy_table st2)
  = if Existing.included es
    then Some (LichessStudy.apply (data_removedOnLichess true) s1)
    else None.
Proof.
  intros Hnd Hes Hgone Hqs Hx Hf1 Hr1.
  rewrite exec_all_app in Hx.
  destruct (exec_all qs st1) as [sta|] eqn:Ha; [|discriminate].
  pose proof (exec_all_other_study qs (Existing.id es)
                (first_loop_elsewhere _ _ _ _ Hnd Hes Hgone Hqs) _ _ Ha) as Hfa.
  destruct (in_split _ _ Hes) as (pre & post & Hsplit).
  rewrite Hsplit, map_app in Hnd. cbn [map] in Hnd.
  pose proof (NoDup_remove_2 _ _ _ Hnd) as Hnotin.
  rewrite Hsplit, flat_map_app in Hx. cbn [flat_map] in Hx.
  rewrite exec_all_app in Hx.
  destruct (exec_all (flat_map (removal_queries ids) pre) sta) as [stb|] eqn:Hb;
    [|discriminate].
  rewrite exec_all_app in Hx.
  destruct (exec_all (removal_queries ids es) stb) as [stc|] eqn:Hc; [|discriminate].
  assert (Hfb : find_study (Existing.id es) (LichessStudy_table stb)
                = find_study (Existing.id es) (LichessStudy_table sta)).
  { eapply exec_all_other_study; [|exact Hb]. apply removal_queries_elsewhere.
    intros Hin. apply Hnotin. apply in_or_app. now left. }
  assert (Hf2 : find_study (Existing.id es) (LichessStudy_table st2)
                = find_study (Existing.id es) (LichessStudy_table stc)).
  { eapply exec_all_other_study; [|exact Hx]. apply removal_queries_elsewhere.
    intros Hin. apply Hnotin. apply in_or_app. now right. }
  rewrite Hf2. rewrite Hfa, Hf1 in Hfb.
  unfold removal_queries, gone_from_lichess in Hc. rewrite Hgone in Hc. cbn [negb] in Hc.
  destruct (Existing.included es).
  - destruct (Existing.removedOnLichess es) eqn:Hr.
    + cbn [exec_all] in Hc. inversion Hc. subst stc. rewrite Hfb. f_equal.
      destruct s1; simpl in *; now subst.
    + cbn [exec_all exec] in Hc. rewrite Hfb in Hc.
      cbn [data_removedOnLichess LichessStudy.moves_set] in Hc.
      inversion Hc. subst stc. cbn [LichessStudy_table with_studies].
      now rewrite find_study_update, Z.eqb_refl, Hfb.
  - cbn [exec_all exec] in Hc. rewrite Hfb in Hc. inversion Hc. subst stc.
    cbn [LichessStudy_table]. now rewrite find_study_delete, Z.eqb_refl.
Qed.

(** C6: after a pass that returns, every study of the user that Lichess
    no longer lists is, if it was included, still stored, still included
    and flagged [removedOnLichess], and otherwise deleted; the number of
    removed studies counts the not-included ones and the included ones
    whose flag was not set before; and for an included study whose flag
    was already set the pass queues no query at all. *)
Theorem fetchAllStudyChanges_removed E user_id username token st lichess_studies
    counts st' :
  NoDup (map LichessStudy.id (LichessStudy_table st)) ->
  fetchStudiesMetadata E username token = Return lichess_studies ->
  fetchAllStudyChanges E user_id username token st = (Return counts, st') ->
  (forall study,
      In study (LichessStudy_table st) ->
      LichessStudy.userId study = user_id ->
      Set_has (map Metadata.id lichess_studies) (LichessStudy.lichessId study) = false ->
      (LichessStudy.included study = true ->
       exists study',
         find_study (LichessStudy.id study) (LichessStudy_table st') = Some study'
         /\ LichessStudy.removedOnLichess study' = true
         /\ LichessStudy.included study' = true)
      /\ (LichessStudy.included study = false ->
          find_study (LichessStudy.id study) (LichessStudy_table st') = None)
      /\ (LichessStudy.included study = true ->
          LichessStudy.removedOnLichess study = true ->
          forall l st1 q,
            collect_changes E user_id username token st = (Return l, st1) ->
            In q (queries l) -> study_of_query q <> Some (LichessStudy.id study)))
  /\ r_num_removed_studies counts
     = List.length
         (filter (fun s => (LichessStudy.userId s =? user_id)
                           && negb (Set_has (map Metadata.id lichess_studies)
                                            (LichessStudy.lichessId s))
                           && (if LichessStudy.included s
                               then negb (LichessStudy.removedOnLichess s) else true))
                 (LichessStudy_table st)).
Proof.
  intros Hnd Hmeta Hrun.
  apply fetchAllStudyChanges_return in Hrun.
  destruct Hrun as (l & st1 & st2 & Hc & Hx & Hst & _ & Hcounts).
  pose proof (sync_collect_changes E user_id username token st) as Hsync.
  rewrite Hc in Hsync. destruct Hsync as (_ & _ & Hrows). cbn [snd] in Hrows.
  pose proof (collect_changes_return _ _ _ _ _ _ _ Hc) as (ls' & l1 & Hmeta' & Hloop & Hl).
  rewrite Hmeta in Hmeta'. inversion Hmeta'. subst ls'. clear Hmeta'.
  set (existing := existing_studies_of user_id st) in *.
  set (ids := map Metadata.id lichess_studies) in *.
  assert (Hl1 : first_loop_locals existing ids l1).
  { eapply (returns_for_of (first_loop_locals existing ids)); [| |exact Hloop].
    - intros x acc Hin Hacc. now apply returns_lichess_study_step.
    - split; [reflexivity | constructor]. }
  destruct Hl1 as [Hn0 Hq1].
  rewrite removed_study_loop in Hl.
  assert (Hql : queries l = queries l1 ++ flat_map (removal_queries ids) existing)
    by (subst l; reflexivity).
  assert (Hnl : num_removed_studies l
                = (num_removed_studies l1
                   + List.length (filter (counted_as_removed ids) existing))%nat)
    by (subst l; reflexivity).
  clear Hl. rewrite Hql in Hx.
  pose proof (existing_ids_NoDup user_id st Hnd) as Hnde. fold existing in Hnde.
  split.
  - intros study Hin Hu Hgone.
    set (es := Existing.mk study (updates_of (LichessStudy.id study) st)).
    assert (Hes : In es existing).
    { unfold existing, existing_studies_of.
      apply (in_map (fun s => Existing.mk s (updates_of (LichessStudy.id s) st))).
      apply filter_In. split; [assumption|]. now apply Z.eqb_eq. }
    destruct (Hrows _ _ (find_study_In _ _ Hnd Hin))
      as (s1 & Hf1 & _ & _ & _ & Hi1 & _ & Hr1 & _).
    pose proof (removal_commits existing ids (queries l1) es st1 st2 s1
                  Hnde Hes Hgone Hq1 Hx Hf1 Hr1) as Hfinal.
    change (Existing.id es) with (LichessStudy.id study) in Hfinal.
    change (Existing.included es) with (LichessStudy.included study) in Hfinal.
    rewrite <- Hst in Hfinal.
    repeat apply conj.
    + intros Hi. rewrite Hi in Hfinal. eexists. split; [exact Hfinal|].
      split; [reflexivity | simpl; congruence].
    + intros Hi. now rewrite Hi in Hfinal.
    + intros Hi Hr l' st1' q Hc' Hq. rewrite Hc in Hc'. inversion Hc'. subst l' st1'.
      rewrite Hql in Hq. apply in_app_or in Hq. destruct Hq as [Hq|Hq].
      * pose proof (first_loop_elsewhere _ _ _ _ Hnde Hes Hgone Hq1) as Hall.
        rewrite Forall_forall in Hall. exact (Hall q Hq).
      * apply in_flat_map in Hq. destruct Hq as (es' & Hes' & Hq).
        rewrite (removal_queries_target _ _ _ Hq). intros Heq. inversion Heq as [Hid].
        assert (es' = es) by (eapply NoDup_map_inj; eauto). subst es'.
        unfold removal_queries, gone_from_lichess in Hq.
        change (Existing.lichessId es) with (LichessStudy.lichessId study) in Hq.
        change (Existing.included es) with (LichessStudy.included study) in Hq.
        change (Existing.removedOnLichess es)
          with (LichessStudy.removedOnLichess study) in Hq.
        rewrite Hgone, Hi, Hr in Hq. exact Hq.
  - subst counts. cbn [r_num_removed_studies]. rewrite Hnl, Hn0. simpl.
    unfold existing, existing_studies_of. apply count_removed.
Qed.

Lemma fetchAllStudyChanges_removed_witness :
  (let st' := snd (fetchAllStudyChanges Demo.healthy 42 "alice" "token" Demo.store) in
   (exists study', find_study 3 (LichessStudy_table st') = Some study'
                   /\ LichessStudy.removedOnLichess study' = true
                   /\ LichessStudy.included study' = true)
   /\ find_study 2 (LichessStudy_table st') = None)
  /\ r_num_removed_studies
       (mkCounts 1 1 1 2) = 2%nat.
Proof.
  assert (Hnd : NoDup (map LichessStudy.id (LichessStudy_table Demo.store)))
    by (simpl; solve_NoDup).
  assert (Hrun : fetchAllStudyChanges Demo.healthy 42 "alice" "token" Demo.store
                 = (Return (mkCounts 1 1 1 2),
                    snd (fetchAllStudyChanges Demo.healthy 42 "alice" "token" Demo.store)))
    by (vm_compute; reflexivity).
  destruct (fetchAllStudyChanges_removed Demo.healthy 42 "alice" "token" Demo.store
              [Demo.studyA; Demo.studyC] _ _ Hnd eq_refl Hrun) as [Hrows Hcount].
  split; [split|].
  - apply (Hrows Demo.G); [simpl; tauto | reflexivity | reflexivity | reflexivity].
  - apply (Hrows Demo.B); [simpl; tauto | reflexivity | reflexivity | reflexivity].
  - rewrite Hcount. reflexivity.
Defined.

(** ** The repertoire invariant *)

#[local] Instance keeps_repertoire_preorder : PreOrder keeps_repertoire.
Proof.
  split.
  - intros a. unfold keeps_repertoire. auto.
  - intros a b c. unfold keeps_repertoire. auto.
Qed.

Lemma keeps_same_moves st st' : move_table st' = move_table st -> keeps_repertoire st st'.
Proof. unfold keeps_repertoire. now intros ->. Qed.

Lemma maintains_weaken {A} (R R' : Store -> Store -> Prop) (m : M A) :
  (forall st st', R st st' -> R' st st') -> maintains R m -> maintains R' m.
Proof. intros H Hm st. apply H, Hm. Qed.

Lemma sync_keeps_repertoire st st' : sync_step st st' -> keeps_repertoire st st'.
Proof. intros (_ & Hm & _). now apply keeps_same_moves. Qed.

Lemma repertoire_ok_map f l :
  safe_change f -> repertoire_ok l -> repertoire_ok (map f l).
Proof.
  intros Hf [[Hnd Hst] Hod]. repeat split.
  - rewrite map_map. rewrite (map_ext _ Move.id); [assumption|]. intros m. apply Hf.
  - rewrite Forall_forall in *. intros m' Hin. apply in_map_iff in Hin.
    destruct Hin as (m & <- & Hin). apply Hf. now apply Hst.
  - unfold owned_not_deleted in *. rewrite Forall_forall in *. intros m' Hin.
    apply in_map_iff in Hin. destruct Hin as (m & <- & Hin). apply Hf. now apply Hod.
Qed.

Lemma safe_change_if (c : Move.t -> bool) f g :
  safe_change f -> safe_change g -> safe_change (fun m => if c m then f m else g m).
Proof. intros Hf Hg m. destruct (c m); [apply Hf | apply Hg]. Qed.

Lemma safe_change_id : safe_change (fun m => m).
Proof. intros m. auto. Qed.

Lemma NoDup_filter {A} (p : A -> bool) l : NoDup l -> NoDup (filter p l).
Proof.
  induction 1 as [|x l Hx _ IH]; simpl; [constructor|].
  destruct (p x); [|exact IH]. constructor; [|exact IH].
  intros Hin. apply filter_In in Hin. tauto.
Qed.

Lemma NoDup_snoc {A} (x : A) l : NoDup l -> ~ In x l -> NoDup (l ++ [x]).
Proof.
  induction 1 as [|y l Hy _ IH]; simpl; intros Hx.
  - constructor; [auto | constructor].
  - constructor.
    + intros Hin. apply in_app_or in Hin. destruct Hin as [Hin|[->|[]]]; tauto.
    + apply IH. tauto.
Qed.

Lemma safe_disconnect sid : safe_change (disconnect_study sid).
Proof.
  intros m. unfold disconnect_study. cbn. repeat split.
  - apply NoDup_filter.
  - intros Hod Ho. apply Hod. unfold owned in *. cbn in Ho.
    destruct (Move.studies m); [|reflexivity]. exact Ho.
Qed.

Lemma safe_detach sid : safe_change (detach sid).
Proof.
  intros m. unfold detach, disconnect_study.
  destruct (exclusively_owned sid m) eqn:Hx; cbn; repeat split.
  - apply NoDup_filter.
  - intros _ Ho. unfold exclusively_owned in Hx. apply andb_true_iff in Hx.
    destruct Hx as [_ Hx]. unfold owned in Ho. cbn in Ho.
    destruct (filter _ (Move.studies m)), (Move.pgns m); discriminate.
  - apply NoDup_filter.
  - intros Hod Ho. apply Hod. unfold owned in *. cbn in Ho.
    destruct (Move.studies m); [|reflexivity]. exact Ho.
Qed.

Lemma connect_study_facts sid m :
  Move.id (connect_study sid m) = Move.id m
  /\ Move.deleted (connect_study sid m) = Move.deleted m
  /\ (NoDup (Move.studies m) -> NoDup (Move.studies (connect_study sid m))).
Proof.
  unfold connect_study. destruct (mem_id sid (Move.studies m)) eqn:Hm; cbn; auto.
  repeat split. intros Hnd. apply NoDup_snoc; [assumption|]. now apply mem_id_false.
Qed.

Lemma connect_all_facts sids m :
  let m' := fold_left (fun m sid => connect_study sid m) sids m in
  Move.id m' = Move.id m
  /\ Move.deleted m' = Move.deleted m
  /\ (NoDup (Move.studies m) -> NoDup (Move.studies m')).
Proof.
  revert m. induction sids as [|sid sids IH]; intros m; simpl; [auto|].
  destruct (IH (connect_study sid m)) as (Hi & Hd & Hn).
  destruct (connect_study_facts sid m) as (Hi' & Hd' & Hn').
  repeat split; [congruence | congruence | auto].
Qed.

(** The [update] branch of the upsert in [includeStudy]: it clears the
    soft-delete flag in the same write that attaches the study. *)
Lemma safe_reattach d :
  Move.u_deleted d = Some false -> safe_change (apply_move_update d).
Proof.
  intros Hd m. unfold apply_move_update. rewrite Hd.
  destruct (connect_all_facts (Move.u_connect d) m) as (Hi & _ & Hn).
  cbn. repeat split; auto.
Qed.

Lemma fresh_id_above ids x : In x ids -> x < fresh_id ids.
Proof.
  unfold fresh_id. induction ids as [|y ids IH]; cbn [fold_right In]; [contradiction|].
  intros [->|Hin]; [lia|]. specialize (IH Hin). lia.
Qed.

Lemma repertoire_ok_create c l : repertoire_ok l -> repertoire_ok (create_move c l).
Proof.
  intros [[Hnd Hst] Hod]. unfold create_move.
  match goal with |- context [fold_left ?f ?sids ?m0] =>
    destruct (connect_all_facts sids m0) as (Hi & Hd & Hn);
    set (new := fold_left f sids m0) in * end.
  cbn [Move.id Move.deleted Move.studies] in Hi, Hd, Hn. repeat split.
  - rewrite map_app. simpl. apply NoDup_snoc; [assumption|].
    rewrite Hi. intros Hin. apply fresh_id_above in Hin. lia.
  - apply Forall_app. split; [assumption|]. constructor; [|constructor].
    apply Hn. constructor.
  - unfold owned_not_deleted. apply Forall_app. split; [assumption|].
    constructor; [|constructor]. intros _. exact Hd.
Qed.

Lemma exec_benign q st st' :
  benign q -> exec q st = Return st' -> keeps_repertoire st st'.
Proof.
  unfold keeps_repertoire.
  destruct q as [i d|i|k c u|i d]; cbn [exec benign]; intros Hb H Hok.
  - destruct (find_study i _); [|discriminate].
    destruct Hb as [Hb|Hb]; rewrite Hb in H; inversion H; subst st'; [exact Hok|].
    cbn [move_table with_moves]. unfold set_study_moves. cbn [mem_id existsb].
    apply repertoire_ok_map; [apply safe_disconnect | exact Hok].
  - destruct (find_study i _); [|discriminate]. inversion H; subst st'.
    cbn [move_table]. apply repertoire_ok_map; [apply safe_disconnect | exact Hok].
  - destruct (find (Move.has_key k) (move_table st)) as [m|].
    + destruct (all_studies_exist _ _); [|discriminate]. inversion H; subst st'.
      cbn [move_table with_moves]. unfold update_move.
      apply repertoire_ok_map; [|exact Hok].
      apply (safe_change_if (fun m0 => Move.id m0 =? Move.id m));
        [now apply safe_reattach | apply safe_change_id].
    + destruct (all_studies_exist _ _); [|discriminate]. inversion H; subst st'.
      cbn [move_table with_moves]. now apply repertoire_ok_create.
  - contradiction.
Qed.

Lemma keeps_transaction E qs :
  Forall benign qs -> maintains keeps_repertoire (transaction E qs).
Proof.
  intros Hb. apply maintains_transaction; preorder.
  intros q st st' Hq. apply exec_benign. rewrite Forall_forall in Hb. now apply Hb.
Qed.

Lemma keeps_includeStudy E study_id user_id repForWhite onlyVariant :
  maintains keeps_repertoire (includeStudy E study_id user_id repForWhite onlyVariant).
Proof.
  unfold includeStudy. cbv zeta. maintain.
  - intros st. apply keeps_same_moves. unfold LichessStudy_findUniqueOrThrow.
    now destruct (find_study _ _).
  - intros st. now apply keeps_same_moves.
  - apply keeps_transaction. apply Forall_app. split.
    + apply Forall_forall. intros q Hq. apply in_map_iff in Hq.
      destruct Hq as (m & <- & _). reflexivity.
    + constructor; [left; reflexivity | constructor].
Qed.

Lemma unincludeStudy_return E study_id user_id st n st' :
  unincludeStudy E study_id user_id st = (Return n, st') ->
  exists study,
    find_study study_id (LichessStudy_table st) = Some study
    /\ exec_all (orphanMoveSoftDeletionsQueries (study_moves study_id (move_table st))
                 ++ [LichessStudy_update study_id data_uninclude]) st = Return st'.
Proof.
  unfold unincludeStudy, bind, LichessStudy_findUnique_moves, try_catch, throw.
  destruct (find_study study_id (LichessStudy_table st)) as [study|]; [|discriminate].
  destruct (negb _); [discriminate|].
  match goal with |- context [transaction E ?q st] =>
    destruct (transaction E q st) as [[[]|e1] st1] eqn:Ht end; [|discriminate].
  apply transaction_return in Ht. destruct Ht as [_ Ht].
  unfold ret. intros H. inversion H. subst. eauto.
Qed.

Lemma keeps_unincludeStudy E study_id user_id :
  maintains keeps_repertoire (unincludeStudy E study_id user_id).
Proof.
  intros st Hok.
  destruct (unincludeStudy E study_id user_id st) as [[n|e] st'] eqn:Hrun; cbn [snd].
  - apply unincludeStudy_return in Hrun. destruct Hrun as (study & Hf & Hx).
    rewrite (uninclude_batch _ _ _ Hf (proj1 Hok)) in Hx. inversion Hx. subst st'.
    cbn [unincluded move_table]. apply repertoire_ok_map; [apply safe_detach | exact Hok].
  - apply unincludeStudy_throw in Hrun. now subst.
Qed.

Lemma keeps_await_delete study_id :
  maintains keeps_repertoire (await (LichessStudy_delete study_id)).
Proof. apply maintains_await; preorder. intros st st'. now apply exec_benign. Qed.

Lemma keeps_deleteStudy E user_id study_id :
  maintains keeps_repertoire (deleteStudy E user_id study_id).
Proof.
  unfold deleteStudy. maintain.
  - intros st. now apply keeps_same_moves.
  - apply keeps_unincludeStudy.
  - apply keeps_await_delete.
Qed.

Lemma benign_collected E user_id username token :
  returns (fun l => Forall benign (queries l)) (collect_changes E user_id username token).
Proof.
  intros st l st1 Hc.
  apply collect_changes_return in Hc. destruct Hc as (ls & l1 & _ & Hloop & Hl).
  assert (Hl1 : first_loop_locals (existing_studies_of user_id st) (map Metadata.id ls) l1).
  { eapply (returns_for_of (first_loop_locals _ (map Metadata.id ls))); [| |exact Hloop].
    - intros x acc Hin Hacc. now apply returns_lichess_study_step.
    - split; [reflexivity | constructor]. }
  rewrite removed_study_loop in Hl. subst l. cbn [queries].
  apply Forall_app. split.
  - eapply Forall_impl; [|exact (proj2 Hl1)].
    intros q (es & d & -> & Hd & _). now left.
  - apply Forall_forall. intros q Hq. apply in_flat_map in Hq.
    destruct Hq as (es & _ & Hq). unfold removal_queries in Hq.
    destruct (gone_from_lichess _ es); [|contradiction].
    destruct (Existing.included es); [destruct (Existing.removedOnLichess es)|];
      simpl in Hq; try contradiction; destruct Hq as [<-|[]]; simpl; auto.
Qed.

Lemma keeps_fetchAllStudyChanges E user_id username token :
  maintains keeps_repertoire (fetchAllStudyChanges E user_id username token).
Proof.
  unfold fetchAllStudyChanges.
  apply maintains_bind_returns with (Q := fun l => Forall benign (queries l)); preorder.
  - apply (maintains_weaken sync_step); [apply sync_keeps_repertoire|].
    apply sync_collect_changes.
  - apply benign_collected.
  - intros l Hl. maintain.
    + now apply keeps_transaction.
    + intros st. apply keeps_same_moves. unfold User_update_lastRepertoireUpdateCheck.
      destruct (User_update_fault E user_id); [reflexivity|].
      now destruct (find_user _ _).
Qed.

Lemma keeps_fetchAllStudyChangesUnlessFetchedRecently E user_id min_interval_s :
  maintains keeps_repertoire
    (fetchAllStudyChangesUnlessFetchedRecently E user_id min_interval_s).
Proof.
  unfold fetchAllStudyChangesUnlessFetchedRecently. cbv zeta. maintain.
  - intros st. apply keeps_same_moves. unfold User_findUniqueOrThrow.
    now destruct (find_user _ _).
  - apply keeps_fetchAllStudyChanges.
Qed.

Lemma keeps_run E op st : keeps_repertoire st (run E op st).
Proof.
  destruct op; cbn [run].
  - apply keeps_fetchAllStudyChanges.
  - apply keeps_fetchAllStudyChangesUnlessFetchedRecently.
  - apply (maintains_weaken sync_step); [apply sync_keeps_repertoire|].
    apply sync_fetchStudyUpdate.
  - apply (maintains_weaken sync_step); [apply sync_keeps_repertoire|].
    apply sync_updateUnincludedStudy.
  - apply keeps_deleteStudy.
  - apply keeps_includeStudy.
  - apply keeps_unincludeStudy.
Qed.

Lemma connect_study_In sid m : In sid (Move.studies (connect_study sid m)).
Proof.
  unfold connect_study. destruct (mem_id sid (Move.studies m)) eqn:Hm.
  - now apply mem_id_true.
  - cbn. apply in_or_app. right. now left.
Qed.

Lemma owned_false m : owned m = false -> Move.studies m = [] /\ Move.pgns m = [].
Proof. unfold owned. destruct (Move.studies m), (Move.pgns m); now intros. Qed.

(** C5: every entry point of the file keeps the invariant that a move
    with an owning collection is not soft-deleted (on a move table with
    unique ids and duplicate-free edge sets, which they keep as well), so
    that afterwards a soft-deleted move has no owner; and when
    [includeStudy] upserts a move that exists under the key (user, colour,
    origin, destination), the one write attaches the study to the existing
    row and clears its soft-delete flag, creating no row. *)
Theorem operations_keep_owned_moves E :
  (forall op st,
      moves_wf (move_table st) ->
      owned_not_deleted (move_table st) ->
      moves_wf (move_table (run E op st))
      /\ owned_not_deleted (move_table (run E op st))
      /\ (forall m, In m (move_table (run E op st)) -> Move.deleted m = true ->
                    Move.studies m = [] /\ Move.pgns m = []))
  /\ (forall user_id study_id move st m study,
        find (Move.has_key (Move.mkkey user_id (MoveData.repForWhite move)
                                       (MoveData.fromFen move) (MoveData.toFen move)))
             (move_table st) = Some m ->
        find_study study_id (LichessStudy_table st) = Some study ->
        exists st',
          exec (upsert_of_move user_id study_id move) st = Return st'
          /\ List.length (move_table st') = List.length (move_table st)
          /\ forall m', In m' (move_table st') -> Move.id m' = Move.id m ->
                        In study_id (Move.studies m') /\ Move.deleted m' = false).
Proof.
  split.
  - intros op st Hwf Hod.
    destruct (keeps_run E op st (conj Hwf Hod)) as [Hwf' Hod'].
    repeat apply conj; [apply Hwf' | apply Hwf' | exact Hod' |].
    intros m Hin Hdel. apply owned_false.
    unfold owned_not_deleted in Hod'. rewrite Forall_forall in Hod'.
    specialize (Hod' m Hin). destruct (owned m); [|reflexivity].
    rewrite Hod' in Hdel; [discriminate | reflexivity].
  - intros user_id study_id move st m study Hk Hf.
    unfold upsert_of_move. cbn [exec]. rewrite Hk.
    cbn [Move.u_connect all_studies_exist forallb]. rewrite Hf. cbn [andb].
    eexists. split; [reflexivity|]. cbn [move_table with_moves]. split.
    + unfold update_move. apply length_map.
    + intros m' Hin Hid. unfold update_move in Hin. apply in_map_iff in Hin.
      destruct Hin as (r & Hr & _).
      destruct (Move.id r =? Move.id m) eqn:He.
      * subst m'. unfold apply_move_update. cbn. split; [|reflexivity].
        apply connect_study_In.
      * subst m'. apply Z.eqb_neq in He. contradiction.
Qed.

Lemma operations_keep_owned_moves_witness :
  let st' := run Demo.healthy (op_includeStudy 4 42 true None) Demo.store_N in
  owned_not_deleted (move_table st')
  /\ move_table st'
     = [Move.mk 1 42 true true "start" "1.e4" false [4] [];
        Move.mk 2 42 true false "1.e4" "1.e4 e5" false [4] []]
  /\ owned_not_deleted (move_table (run Demo.healthy (op_unincludeStudy 1 42) Demo.store)).
Proof.
  assert (HwfN : moves_wf (move_table Demo.store_N))
    by (unfold Demo.store_N; simpl; solve_moves_wf).
  assert (HodN : owned_not_deleted (move_table Demo.store_N))
    by (repeat constructor; discriminate).
  assert (Hwf : moves_wf (move_table Demo.store))
    by (unfold Demo.store; simpl; solve_moves_wf).
  assert (Hod : owned_not_deleted (move_table Demo.store))
    by (repeat constructor).
  destruct (operations_keep_owned_moves Demo.healthy) as [H _].
  repeat apply conj.
  - apply (H (op_includeStudy 4 42 true None) Demo.store_N HwfN HodN).
  - reflexivity.
  - apply (H (op_unincludeStudy 1 42) Demo.store Hwf Hod).
Defined.

(** ** fetchAllStudyChanges: a study whose PGN was modified, in a pass *)




(** The store at which the loop reaches one of its elements. *)
Lemma for_of_reaches {A L} (xs1 : list A) x xs2 (body : A -> L -> M L) acc st :
  for_of (xs1 ++ x :: xs2) body acc st
  = match for_of xs1 body acc st with
    | (Return acc1, st1) => bind (body x acc1) (for_of xs2 body) st1
    | (Throw e, st1) => (Throw e, st1)
    end.
Proof.
  revert acc st. induction xs1 as [|y xs1 IH]; intros acc st; [reflexivity|].
  cbn [app for_of]. unfold bind.
  destruct (body y acc st) as [[acc'|e] st']; [|reflexivity].
  rewrite IH. unfold bind. reflexivity.
Qed.

Lemma first_loop_reaches E user_id username token existing ids lichess_studies l st l1 st1 :
  for_of lichess_studies
    (lichess_study_step E user_id username token existing ids) l st = (Return l1, st1) ->
  sync_step st st1.
Proof.
  intros H.
  pose proof (maintains_for_of sync_step lichess_studies
                (lichess_study_step E user_id username token existing ids) l
                (fun x acc _ => sync_lichess_study_step E user_id username token
                                  existing ids x acc) st) as Hs.
  now rewrite H in Hs.
Qed.

(** When the first loop gets to the study [x] of Lichess, it runs the body
    on it at a store that [sync_step] relates to the store the loop
    started from. *)
Lemma first_loop_at E user_id username token existing ids xs1 x xs2 l st l1 st1 :
  for_of xs1 (lichess_study_step E user_id username token existing ids) l st
  = (Return l1, st1) ->
  for_of (xs1 ++ x :: xs2) (lichess_study_step E user_id username token existing ids) l st
  = bind (lichess_study_step E user_id username token existing ids x l1)
         (for_of xs2 (lichess_study_step E user_id username token existing ids)) st1
  /\ sync_step st st1.
Proof.
  intros H. split.
  - now rewrite for_of_reaches, H.
  - eapply first_loop_reaches. exact H.
Qed.



(** * Further properties of [lichessStudy.js] *)

(** ** fetchAllStudyChanges: the locals are a function of the snapshot *)

Lemma returns_exactly_then_ret {A B} (m : M A) (b : B) :
  returns (eq b) (bind m (fun _ => ret b)).
Proof. now apply returns_then_ret. Qed.

Lemma locals_pushed_counts l :
  l = mkLocals (num_new_studies l) (num_updates_fetched l) (num_renamed_studies l)
               (num_removed_studies l) (queries l).
Proof. now destruct l. Qed.

Lemma listed_as_find existing ls :
  Set_has (map Existing.lichessId existing) (Metadata.id ls) = true ->
  listed_as existing ls
  = find (fun study => String.eqb (Existing.lichessId study) (Metadata.id ls)) existing.
Proof. unfold listed_as. now intros ->. Qed.

Lemma returns_existing_locals E user_id username token existing es ls l :
  listed_as existing ls = Some es ->
  returns (eq (locals_after existing ls l))
          (existing_study_step E user_id username token es ls l).
Proof.
  intros Hes.
  assert (Hnew : counted_as_new existing ls = false).
  { unfold counted_as_new. unfold listed_as in Hes.
    destruct (Set_has _ _); [reflexivity | discriminate]. }
  unfold locals_after, counted_as_renamed, counted_as_fetched, listed_queries.
  rewrite Hes, Hnew. unfold existing_study_step. cbv zeta.
  destruct l as [n u r d q]. cbn [num_new_studies num_updates_fetched num_renamed_studies
                                  num_removed_studies queries].
  destruct (Existing.removedOnLichess es);
    destruct (negb (String.eqb (Existing.name es) (Metadata.name ls)));
    destruct (pgn_was_modified es ls); cbn [andb];
      destruct (Existing.included es); cbn [orb];
        try destruct (negb (Existing.hidden es));
        unfold push, incr_renamed, incr_updates;
        cbn [num_new_studies num_updates_fetched num_renamed_studies
             num_removed_studies queries];
        rewrite ?Nat.add_0_r, ?Nat.add_1_r, ?app_nil_r, <- ?app_assoc;
        first [ apply returns_ret; reflexivity
              | apply returns_exactly_then_ret ].
Qed.

Lemma returns_step_locals E user_id username token existing ls l :
  returns (eq (locals_after existing ls l))
          (lichess_study_step E user_id username token existing
                              (map Existing.lichessId existing) ls l).
Proof.
  unfold lichess_study_step.
  destruct (Set_has (map Existing.lichessId existing) (Metadata.id ls)) eqn:Hhas;
    cbn [negb].
  - destruct (find _ existing) as [es|] eqn:Hf; [|apply returns_throw].
    apply returns_existing_locals. now rewrite listed_as_find.
  - apply returns_bind with (P := fun _ => True); [intros st a st' _; exact I|].
    intros [pgn lm] _.
    replace (locals_after existing ls l) with (incr_new l).
    + apply returns_exactly_then_ret.
    + unfold locals_after, counted_as_new, counted_as_renamed, counted_as_fetched,
        listed_queries, listed_as. rewrite Hhas. cbn [negb].
      destruct l; unfold incr_new; cbn.
      now rewrite !Nat.add_0_r, Nat.add_1_r, app_nil_r.
Qed.

Lemma returns_for_of_fold {A L} (f : A -> L -> L) (xs : list A) (body : A -> L -> M L) acc :
  (forall x acc, returns (eq (f x acc)) (body x acc)) ->
  returns (eq (fold_left (fun a x => f x a) xs acc)) (for_of xs body acc).
Proof.
  intros Hb. revert acc. induction xs as [|x xs IH]; intros acc; simpl.
  - now apply returns_ret.
  - apply returns_bind with (P := eq (f x acc)); [apply Hb|].
    intros acc' <-. apply IH.
Qed.

Lemma first_loop_fold existing remote l :
  fold_left (fun a ls => locals_after existing ls a) remote l
  = mkLocals
      (num_new_studies l + List.length (filter (counted_as_new existing) remote))
      (num_updates_fetched l + List.length (filter (counted_as_fetched existing) remote))
      (num_renamed_studies l + List.length (filter (counted_as_renamed existing) remote))
      (num_removed_studies l)
      (queries l ++ flat_map (listed_queries existing) remote).
Proof.
  revert l. induction remote as [|ls remote IH]; intros l; simpl.
  - rewrite !Nat.add_0_r, app_nil_r. apply locals_pushed_counts.
  - rewrite IH. unfold locals_after at 1 2 3 4 5.
    cbn [num_new_studies num_updates_fetched num_renamed_studies num_removed_studies
         queries].
    destruct (counted_as_new existing ls), (counted_as_fetched existing ls),
      (counted_as_renamed existing ls); simpl; rewrite <- app_assoc; f_equal; lia.
Qed.

(** The locals at the end of [collect_changes], in closed form. *)
Lemma collect_changes_locals E user_id username token st l st1 remote :
  fetchStudiesMetadata E username token = Return remote ->
  collect_changes E user_id username token st = (Return l, st1) ->
  let existing := existing_studies_of user_id st in
  let ids := map Metadata.id remote in
  l = mkLocals
        (List.length (filter (counted_as_new existing) remote))
        (List.length (filter (counted_as_fetched existing) remote))
        (List.length (filter (counted_as_renamed existing) remote))
        (List.length (filter (counted_as_removed ids) existing))
        (flat_map (listed_queries existing) remote
         ++ flat_map (removal_queries ids) existing).
Proof.
  intros Hmeta Hc. cbv zeta.
  apply collect_changes_return in Hc. destruct Hc as (ls' & l1 & Hmeta' & Hloop & Hl).
  rewrite Hmeta in Hmeta'. inversion Hmeta'. subst ls'.
  apply (returns_for_of_fold (locals_after (existing_studies_of user_id st))) in Hloop;
    [|intros x acc; apply returns_step_locals].
  rewrite first_loop_fold in Hloop. subst l1.
  rewrite removed_study_loop in Hl. subst l. reflexivity.
Qed.

(** X1: the four numbers a returning pass reports are determined by the
    studies found at its start and by the list Lichess sent: the listed
    studies whose id is unknown (new), the known ones whose PGN test fires
    and that are included or not hidden (fetched), the known ones whose
    name differs (renamed), and the unlisted ones that are not included or
    not yet flagged (removed).  An entry that Lichess lists twice counts
    twice. *)
Theorem fetchAllStudyChanges_counts E user_id username token st remote counts st' :
  fetchStudiesMetadata E username token = Return remote ->
  fetchAllStudyChanges E user_id username token st = (Return counts, st') ->
  counts
  = mkCounts
      (List.length (filter (counted_as_new (existing_studies_of user_id st)) remote))
      (List.length (filter (counted_as_fetched (existing_studies_of user_id st)) remote))
      (List.length (filter (counted_as_renamed (existing_studies_of user_id st)) remote))
      (List.length (filter (counted_as_removed (map Metadata.id remote))
                           (existing_studies_of user_id st))).
Proof.
  intros Hmeta Hrun. apply fetchAllStudyChanges_return in Hrun.
  destruct Hrun as (l & st1 & st2 & Hc & _ & _ & _ & ->).
  pose proof (collect_changes_locals _ _ _ _ _ _ _ _ Hmeta Hc) as Hl. cbv zeta in Hl.
  rewrite Hl. reflexivity.
Qed.

Lemma fetchAllStudyChanges_counts_witness :
  fst (fetchAllStudyChanges Demo.healthy 42 "alice" "token" Demo.store)
  = Return (mkCounts 1 1 1 2).
Proof.
  assert (Hrun : fetchAllStudyChanges Demo.healthy 42 "alice" "token" Demo.store
                 = (fst (fetchAllStudyChanges Demo.healthy 42 "alice" "token" Demo.store),
                    snd (fetchAllStudyChanges Demo.healthy 42 "alice" "token" Demo.store)))
    by apply surjective_pairing.
  assert (Hret : exists c, fst (fetchAllStudyChanges Demo.healthy 42 "alice" "token"
                                  Demo.store) = Return c) by (vm_compute; eauto).
  destruct Hret as (c & Hret). rewrite Hret in Hrun |- *.
  rewrite (fetchAllStudyChanges_counts Demo.healthy 42 "alice" "token" Demo.store
             [Demo.studyA; Demo.studyC] c _ eq_refl Hrun).
  reflexivity.
Defined.

(** ** fetchAllStudyChangesUnlessFetchedRecently *)

(** X2: the throttled entry point.  Without a User row it throws
    [NotFoundError].  When the user's last check is not older than the
    interval (five minutes unless given; a check exactly one interval ago
    still counts as recent) it returns the empty object and leaves the
    store alone: no call to Lichess, no write.  Otherwise it is
    [fetchAllStudyChanges] with the name and token stored for the user. *)
Theorem fetchAllStudyChangesUnlessFetchedRecently_spec E user_id min_interval_s st :
  let interval := match min_interval_s with Some s => s | None => 300 end in
  (find_user user_id (User_table st) = None ->
   fetchAllStudyChangesUnlessFetchedRecently E user_id min_interval_s st
   = (Throw (NotFoundError "No User found"), st))
  /\ (forall u checked,
        find_user user_id (User_table st) = Some u ->
        User.lastRepertoireUpdateCheck u = Some checked ->
        now E - interval * 1000 <= checked ->
        fetchAllStudyChangesUnlessFetchedRecently E user_id min_interval_s st
        = (Return None, st))
  /\ (forall u,
        find_user user_id (User_table st) = Some u ->
        match User.lastRepertoireUpdateCheck u with
        | Some checked => checked < now E - interval * 1000
        | None => True
        end ->
        fetchAllStudyChangesUnlessFetchedRecently E user_id min_interval_s st
        = match fetchAllStudyChanges E user_id (User.lichessUsername u)
                                     (User.lichessAccessToken u) st with
          | (Return counts, st') => (Return (Some counts), st')
          | (Throw e, st') => (Throw e, st')
          end).
Proof.
  cbv zeta. unfold fetchAllStudyChangesUnlessFetchedRecently, bind, User_findUniqueOrThrow.
  repeat apply conj.
  - now intros ->.
  - intros u checked -> -> Hrecent.
    apply Z.ltb_ge in Hrecent.
    destruct min_interval_s; cbn in *; now rewrite Hrecent.
  - intros u -> Hstale.
    assert (Hif : match User.lastRepertoireUpdateCheck u with
                  | Some checked =>
                      checked <? now E - match min_interval_s with
                                         | Some s => s | None => 5 * 60 end * 1000
                  | None => true
                  end = true).
    { destruct (User.lastRepertoireUpdateCheck u); [|reflexivity].
      apply Z.ltb_lt. destruct min_interval_s; exact Hstale. }
    rewrite Hif.
    destruct (fetchAllStudyChanges E user_id _ _ st) as [[c|e] st']; reflexivity.
Qed.

Lemma fetchAllStudyChangesUnlessFetchedRecently_spec_witness :
  fetchAllStudyChangesUnlessFetchedRecently Demo.healthy 7 None Demo.store
  = (Throw (NotFoundError "No User found"), Demo.store)
  /\ (let st := with_users [User.mk 42 "alice" "token" (Some (-299900))] Demo.store in
      fetchAllStudyChangesUnlessFetchedRecently Demo.healthy 42 None st = (Return None, st))
  /\ fst (fetchAllStudyChangesUnlessFetchedRecently Demo.healthy 42 None Demo.store)
     = Return (Some (mkCounts 1 1 1 2)).
Proof.
  repeat apply conj.
  - apply (proj1 (fetchAllStudyChangesUnlessFetchedRecently_spec Demo.healthy 7 None
                    Demo.store)). reflexivity.
  - cbv zeta.
    apply (proj1 (proj2 (fetchAllStudyChangesUnlessFetchedRecently_spec Demo.healthy 42 None
                           (with_users [User.mk 42 "alice" "token" (Some (-299900))]
                                       Demo.store)))
             (User.mk 42 "alice" "token" (Some (-299900))) (-299900));
      [reflexivity | reflexivity | simpl; lia].
  - rewrite (proj2 (proj2 (fetchAllStudyChangesUnlessFetchedRecently_spec Demo.healthy 42
                             None Demo.store)) Demo.alice eq_refl I).
    vm_compute. reflexivity.
Defined.

Lemma fetchAllStudyChanges_stamps E user_id username token st counts st' :
  fetchAllStudyChanges E user_id username token st = (Return counts, st') ->
  exists u,
    find_user user_id (User_table st') = Some u
    /\ User.lastRepertoireUpdateCheck u = Some (now E).
Proof.
  unfold fetchAllStudyChanges, bind, try_catch.
  destruct (collect_changes E user_id username token st) as [[l|] st1]; [|discriminate].
  destruct (transaction E (queries l) st1) as [[[]|] st2]; [|discriminate].
  unfold User_update_lastRepertoireUpdateCheck, ret.
  destruct (User_update_fault E user_id); [discriminate|].
  destruct (find_user user_id (User_table st2)) as [u|] eqn:Hu; [|discriminate].
  intros H. inversion H. subst. cbn [User_table with_users].
  eexists. split; [apply find_user_stamp; exact Hu | reflexivity].
Qed.

(** X3: a pass that returned keeps the throttled entry point quiet: as
    long as the clock has not advanced by more than the interval since
    that pass, [fetchAllStudyChangesUnlessFetchedRecently] returns the
    empty object and leaves the store as the pass left it. *)
Theorem throttled_after_pass E E' user_id username token st counts st' min_interval_s :
  fetchAllStudyChanges E user_id username token st = (Return counts, st') ->
  now E' <= now E + match min_interval_s with Some s => s | None => 300 end * 1000 ->
  fetchAllStudyChangesUnlessFetchedRecently E' user_id min_interval_s st'
  = (Return None, st').
Proof.
  intros Hrun Hclock. apply fetchAllStudyChanges_stamps in Hrun.
  destruct Hrun as (u & Hu & Hstamp).
  unfold fetchAllStudyChangesUnlessFetchedRecently, bind, User_findUniqueOrThrow.
  rewrite Hu, Hstamp.
  assert (Hnot : (now E <? now E' - match min_interval_s with
                                    | Some s => s | None => 5 * 60 end * 1000) = false).
  { apply Z.ltb_ge. destruct min_interval_s; lia. }
  now rewrite Hnot.
Qed.

Lemma throttled_after_pass_witness :
  let st' := snd (fetchAllStudyChanges Demo.healthy 42 "alice" "token" Demo.store) in
  fetchAllStudyChangesUnlessFetchedRecently Demo.healthy 42 (Some 0) st' = (Return None, st').
Proof.
  cbv zeta.
  apply (throttled_after_pass Demo.healthy Demo.healthy 42 "alice" "token" Demo.store
           (mkCounts 1 1 1 2) _ (Some 0)); [vm_compute; reflexivity | simpl; lia].
Defined.

(** ** fetchStudyUpdate and updateUnincludedStudy: what they leave alone *)

(** X4: [fetchStudyUpdate] throws with the store untouched when the study
    is missing (the [TypeError] of reading [userId] of null), belongs to
    another user or is not included (each with its message).  Otherwise
    it calls Lichess exactly once, for this study, and passes on an error
    of the fetch or of the parser.  Whatever its outcome it leaves the
    study rows, the moves, the users and the pending updates of the other
    studies as they were, and when it throws it has written nothing. *)
Theorem fetchStudyUpdate_frame E user_id study_id username token st :
  let run := fetchStudyUpdate E user_id study_id username token st in
  (find_study study_id (LichessStudy_table st) = None ->
   run = (Throw null_userId, st))
  /\ (forall study,
        find_study study_id (LichessStudy_table st) = Some study ->
        (LichessStudy.userId study <> user_id ->
         run = (Throw (Error "Study does not belong to this user (are you logged in?)"),
                st))
        /\ (LichessStudy.userId study = user_id ->
            LichessStudy.included study = false ->
            run = (Throw (Error "Only studies that are part of your repertoire can be updated with fetchStudyUpdate, use updateUnincludedStudy."),
                   st))
        /\ (LichessStudy.userId study = user_id ->
            LichessStudy.included study = true ->
            remote_calls (snd run)
            = remote_calls st
              ++ [call_fetchStudy (LichessStudy.lichessId study) username token]
            /\ (forall e,
                  fetchStudy E (LichessStudy.lichessId study) username token = Throw e ->
                  fst run = Throw e)
            /\ (forall pgn lastModified e,
                  fetchStudy E (LichessStudy.lichessId study) username token
                  = Return (pgn, lastModified) ->
                  pgndbToMoves E pgn (LichessStudy.repForWhite study) None = Throw e ->
                  fst run = Throw e)))
  /\ LichessStudy_table (snd run) = LichessStudy_table st
  /\ move_table (snd run) = move_table st
  /\ User_table (snd run) = User_table st
  /\ (forall j, j <> study_id -> updates_of j (snd run) = updates_of j st)
  /\ (forall e, fst run = Throw e ->
                LichessStudyUpdate_table (snd run) = LichessStudyUpdate_table st).
Proof.
  cbv zeta. unfold fetchStudyUpdate, bind, LichessStudy_findUnique_moves.
  destruct (find_study study_id (LichessStudy_table st)) as [study|] eqn:Hf.
  2: { cbn. repeat apply conj; auto. intros study Hs. discriminate. }
  apply find_study_some in Hf as Hid. destruct Hid as [_ Hid].
  assert (Hleaf : forall (P : LichessStudy.t -> Prop),
             P study -> forall s0, Some study = Some s0 -> P s0).
  { intros P HP s0 Hs0. now inversion Hs0; subst. }
  destruct (LichessStudy.userId study =? user_id) eqn:Hu; cbn [negb].
  2: { apply Z.eqb_neq in Hu. cbn.
       repeat apply conj; auto; try discriminate.
       apply Hleaf. repeat (apply conj || intro); try reflexivity; congruence. }
  apply Z.eqb_eq in Hu.
  destruct (LichessStudy.included study) eqn:Hi; cbn [negb].
  2: { cbn. repeat apply conj; auto; try discriminate.
       apply Hleaf. repeat (apply conj || intro); try reflexivity; congruence. }
  unfold await_fetchStudy.
  destruct (fetchStudy E (LichessStudy.lichessId study) username token)
    as [[pgn lm]|e0] eqn:Hfetch.
  - unfold call_pgndbToMoves.
    destruct (pgndbToMoves E pgn (LichessStudy.repForWhite study) None)
      as [updated|e1] eqn:Hparse.
    + destruct (compareMovesLists E _ updated) as [new_moves removed_moves].
      cbn [snd fst LichessStudyUpdate_upsert ret].
      repeat apply conj; try reflexivity; try discriminate.
      * apply Hleaf. repeat (apply conj || intro); try reflexivity; congruence.
      * intros j Hj. rewrite updates_of_upsert_other; [reflexivity|].
        cbn [LichessStudyUpdate.studyId]. congruence.
    + cbn. repeat apply conj; try reflexivity; auto; try discriminate.
      apply Hleaf. repeat (apply conj || intro); try reflexivity; congruence.
  - cbn. repeat apply conj; try reflexivity; auto; try discriminate.
    apply Hleaf. repeat (apply conj || intro); try reflexivity; congruence.
Qed.

Lemma fetchStudyUpdate_frame_witness :
  fetchStudyUpdate Demo.healthy 42 7 "alice" "token" Demo.store
  = (Throw null_userId, Demo.store)
  /\ fetchStudyUpdate Demo.healthy 43 1 "alice" "token" Demo.store
     = (Throw (Error "Study does not belong to this user (are you logged in?)"),
        Demo.store)
  /\ fetchStudyUpdate Demo.healthy 42 2 "alice" "token" Demo.store
     = (Throw (Error "Only studies that are part of your repertoire can be updated with fetchStudyUpdate, use updateUnincludedStudy."),
        Demo.store)
  /\ remote_calls (snd (fetchStudyUpdate Demo.healthy 42 1 "alice" "token" Demo.store))
     = [call_fetchStudy "lichessA" "alice" "token"].
Proof.
  pose proof (fetchStudyUpdate_frame Demo.healthy 42 7 "alice" "token" Demo.store)
    as (H7 & _).
  pose proof (fetchStudyUpdate_frame Demo.healthy 43 1 "alice" "token" Demo.store)
    as (_ & H43 & _).
  pose proof (fetchStudyUpdate_frame Demo.healthy 42 2 "alice" "token" Demo.store)
    as (_ & H2 & _).
  pose proof (fetchStudyUpdate_frame Demo.healthy 42 1 "alice" "token" Demo.store)
    as (_ & H1 & _).
  repeat apply conj.
  - apply H7. reflexivity.
  - apply (H43 Demo.A eq_refl). simpl. lia.
  - apply (H2 Demo.B eq_refl); reflexivity.
  - apply (H1 Demo.A eq_refl); reflexivity.
Defined.

(** X5: [updateUnincludedStudy] throws with the store untouched when the
    study is missing (the [TypeError] of reading [userId] of null),
    belongs to another user or is included (each with its message).
    Otherwise it calls Lichess exactly once, for this study, and when the
    fetch fails passes the error on without a write.  Whatever its
    outcome, moves, users and pending updates are as before, the rows of
    the other studies are as before, and the row of the study itself
    keeps its id, owner, name and flags. *)
Theorem updateUnincludedStudy_frame E user_id study_id username token st :
  let run := updateUnincludedStudy E user_id study_id username token st in
  (find_study study_id (LichessStudy_table st) = None ->
   run = (Throw null_userId, st))
  /\ (forall study,
        find_study study_id (LichessStudy_table st) = Some study ->
        (LichessStudy.userId study <> user_id ->
         run = (Throw (Error "Study does not belong to this user (are you logged in?)"),
                st))
        /\ (LichessStudy.userId study = user_id ->
            LichessStudy.included study = true ->
            run = (Throw (Error "Studies that are part of your repertoire cannot be updated with updateUnincludedStudy, use fetchStudyUpdate."),
                   st))
        /\ (LichessStudy.userId study = user_id ->
            LichessStudy.included study = false ->
            remote_calls (snd run)
            = remote_calls st
              ++ [call_fetchStudy (LichessStudy.lichessId study) username token]
            /\ (forall e,
                  fetchStudy E (LichessStudy.lichessId study) username token = Throw e ->
                  fst run = Throw e
                  /\ LichessStudy_table (snd run) = LichessStudy_table st))
        /\ exists study',
             find_study study_id (LichessStudy_table (snd run)) = Some study'
             /\ same_study study study'
             /\ LichessStudy.name study' = LichessStudy.name study)
  /\ move_table (snd run) = move_table st
  /\ User_table (snd run) = User_table st
  /\ LichessStudyUpdate_table (snd run) = LichessStudyUpdate_table st
  /\ (forall j, j <> study_id ->
                find_study j (LichessStudy_table (snd run))
                = find_study j (LichessStudy_table st)).
Proof.
  cbv zeta.
  remember (updateUnincludedStudy E user_id study_id username token st) as r eqn:Hr.
  unfold updateUnincludedStudy, bind, LichessStudy_findUnique in Hr.
  destruct (find_study study_id (LichessStudy_table st)) as [study|] eqn:Hf.
  2: { subst r. cbn. repeat apply conj; auto. discriminate. }
  assert (Hleaf : forall (P : LichessStudy.t -> Prop),
             P study -> forall s0, Some study = Some s0 -> P s0).
  { intros P HP s0 Hs0. now inversion Hs0; subst. }
  assert (Hkeep : exists study',
             find_study study_id (LichessStudy_table st) = Some study'
             /\ same_study study study'
             /\ LichessStudy.name study' = LichessStudy.name study).
  { exists study. split; [assumption | split; [apply same_study_refl | reflexivity]]. }
  apply find_study_some in Hf as Hid. destruct Hid as [_ Hid].
  destruct (LichessStudy.userId study =? user_id) eqn:Hu; cbn [negb] in Hr.
  2: { apply Z.eqb_neq in Hu. subst r. cbn [fst snd throw].
       repeat apply conj; auto; try discriminate.
       apply Hleaf. repeat apply conj; [reflexivity | congruence | congruence | exact Hkeep]. }
  apply Z.eqb_eq in Hu.
  destruct (LichessStudy.included study) eqn:Hi.
  { subst r. cbn [fst snd throw]. repeat apply conj; auto; try discriminate.
    apply Hleaf. repeat apply conj; [congruence | reflexivity | congruence | exact Hkeep]. }
  unfold await_fetchStudy in Hr.
  destruct (fetchStudy E (LichessStudy.lichessId study) username token)
    as [[pgn lm]|e0] eqn:Hfetch.
  - unfold await in Hr. cbn [exec LichessStudy_table with_call] in Hr.
    rewrite Hid, Hf in Hr. cbn [content_data LichessStudy.moves_set] in Hr.
    subst r. cbn [fst snd move_table User_table LichessStudyUpdate_table LichessStudy_table
                  with_studies with_call remote_calls].
    repeat apply conj; try reflexivity; try discriminate.
    + apply Hleaf. repeat apply conj; try congruence.
      * intros _ _. split; [reflexivity | congruence].
      * rewrite find_study_update, Z.eqb_refl, Hf. cbn [option_map].
        eexists. split; [reflexivity|]. unfold same_study. cbn. tauto.
    + intros j Hj. rewrite find_study_update. apply Z.eqb_neq in Hj. now rewrite Hj.
  - subst r. cbn [fst snd move_table User_table LichessStudyUpdate_table LichessStudy_table
                  with_call remote_calls].
    repeat apply conj; try reflexivity; try discriminate.
    apply Hleaf. repeat apply conj; try congruence.
    intros _ _. split; [reflexivity|]. intros e He. split; [congruence | reflexivity].
Qed.

Lemma updateUnincludedStudy_frame_witness :
  updateUnincludedStudy Demo.healthy 42 7 "alice" "token" Demo.store
  = (Throw null_userId, Demo.store)
  /\ updateUnincludedStudy Demo.healthy 43 2 "alice" "token" Demo.store
     = (Throw (Error "Study does not belong to this user (are you logged in?)"),
        Demo.store)
  /\ updateUnincludedStudy Demo.healthy 42 1 "alice" "token" Demo.store
     = (Throw (Error "Studies that are part of your repertoire cannot be updated with updateUnincludedStudy, use fetchStudyUpdate."),
        Demo.store)
  /\ remote_calls (snd (updateUnincludedStudy Demo.healthy 42 2 "alice" "token" Demo.store))
     = [call_fetchStudy "lichessB" "alice" "token"].
Proof.
  pose proof (updateUnincludedStudy_frame Demo.healthy 42 7 "alice" "token" Demo.store)
    as (H7 & _).
  pose proof (updateUnincludedStudy_frame Demo.healthy 43 2 "alice" "token" Demo.store)
    as (_ & H43 & _).
  pose proof (updateUnincludedStudy_frame Demo.healthy 42 1 "alice" "token" Demo.store)
    as (_ & H1 & _).
  pose proof (updateUnincludedStudy_frame Demo.healthy 42 2 "alice" "token" Demo.store)
    as (_ & H2 & _).
  repeat apply conj.
  - apply H7. reflexivity.
  - apply (H43 Demo.B eq_refl). simpl. lia.
  - apply (H1 Demo.A eq_refl); reflexivity.
  - apply (H2 Demo.B eq_refl); reflexivity.
Defined.


(** ** A fetched study is current *)

Lemma updates_of_upsert_head u l st :
  exists rest,
    updates_of (LichessStudyUpdate.studyId u) (with_updates (upsert_update u l) st)
    = u :: rest.
Proof.
  unfold updates_of, upsert_update, find_update. cbn [LichessStudyUpdate_table with_updates].
  set (p := fun x => LichessStudyUpdate.studyId x =? LichessStudyUpdate.studyId u).
  assert (Hpu : p u = true) by apply Z.eqb_refl.
  destruct (find p l) as [x|] eqn:Hf.
  - assert (Hmap : filter p (map (fun x => if p x then u else x) l)
                   = map (fun _ => u) (filter p l)).
    { clear Hf. induction l as [|a l IH]; simpl; [reflexivity|].
      destruct (p a) eqn:Ha; simpl; rewrite ?Hpu, ?Ha; simpl; congruence. }
    unfold p in Hmap at 2. rewrite Hmap.
    apply filter_find_some in Hf.
    destruct (filter p l) as [|y r]; [congruence|]. simpl. eauto.
  - rewrite filter_app, (filter_find_none _ _ Hf). simpl. rewrite Hpu. eauto.
Qed.

Lemma fetchStudyUpdate_inv E user_id study_id username token st stats st' :
  fetchStudyUpdate E user_id study_id username token st = (Return stats, st') ->
  exists study u,
    find_study study_id (LichessStudy_table st) = Some study
    /\ LichessStudyUpdate.studyId u = study_id
    /\ LichessStudyUpdate.fetched u = now E
    /\ st' = with_updates
               (upsert_update u (LichessStudyUpdate_table st))
               (with_call (call_fetchStudy (LichessStudy.lichessId study) username token)
                          st).
Proof.
  unfold fetchStudyUpdate, bind, LichessStudy_findUnique_moves.
  destruct (find_study study_id (LichessStudy_table st)) as [study|] eqn:Hf;
    [|discriminate].
  destruct (negb _); [discriminate|]. destruct (negb _); [discriminate|].
  unfold await_fetchStudy.
  destruct (fetchStudy E _ username token) as [[pgn lm]|]; [|discriminate].
  unfold call_pgndbToMoves. destruct (pgndbToMoves E pgn _ None); [|discriminate].
  destruct (compareMovesLists E _ _) as [new_moves removed_moves].
  unfold LichessStudyUpdate_upsert, ret. intros H. inversion H.
  apply find_study_some in Hf as Hid. destruct Hid as [_ Hid].
  eexists. eexists. split; [reflexivity|]. split; [|split; [|reflexivity]]; auto.
Qed.

Lemma updateUnincludedStudy_inv E user_id study_id username token st v st' :
  updateUnincludedStudy E user_id study_id username token st = (Return v, st') ->
  exists study pgn lastModified,
    find_study study_id (LichessStudy_table st) = Some study
    /\ LichessStudy_table st'
       = update_study study_id (content_data lastModified (now E) pgn)
                      (LichessStudy_table st).
Proof.
  unfold updateUnincludedStudy, bind, LichessStudy_findUnique.
  destruct (find_study study_id (LichessStudy_table st)) as [study|] eqn:Hf;
    [|discriminate].
  destruct (negb _); [discriminate|].
  destruct (LichessStudy.included study); [discriminate|].
  unfold await_fetchStudy.
  destruct (fetchStudy E _ username token) as [[pgn lm]|]; [|discriminate].
  apply find_study_some in Hf as Hid. destruct Hid as [_ Hid].
  unfold await. cbn [exec LichessStudy_table with_call]. rewrite Hid, Hf.
  cbn [content_data LichessStudy.moves_set]. intros H. inversion H.
  exists study, pgn, lm. split; reflexivity.
Qed.

(** X6: what [fetchStudyUpdate] and [updateUnincludedStudy] store makes
    the study current.  After either has returned, the test of lines
    86-89 on the study as the next pass finds it is negative for every
    modification time that Lichess reports up to the clock of the fetch:
    the study is fetched again only when Lichess reports a later
    modification. *)
Theorem fetched_study_is_current E user_id study_id username token st :
  (forall stats st' study lichess_study,
      fetchStudyUpdate E user_id study_id username token st = (Return stats, st') ->
      find_study study_id (LichessStudy_table st') = Some study ->
      Metadata.updatedAt lichess_study <= now E ->
      pgn_was_modified (Existing.mk study (updates_of (LichessStudy.id study) st'))
                       lichess_study = false)
  /\ (forall v st' study updates lichess_study,
        updateUnincludedStudy E user_id study_id username token st = (Return v, st') ->
        find_study study_id (LichessStudy_table st') = Some study ->
        Metadata.updatedAt lichess_study <= now E ->
        pgn_was_modified (Existing.mk study updates) lichess_study = false).
Proof.
  split.
  - intros stats st' study ls Hrun Hf Hclock.
    apply fetchStudyUpdate_inv in Hrun.
    destruct Hrun as (study0 & u & _ & Hsid & Hfetched & ->).
    apply find_study_some in Hf. destruct Hf as [_ Hid].
    rewrite Hid, <- Hsid.
    destruct (updates_of_upsert_head u (LichessStudyUpdate_table st)
                (with_call (call_fetchStudy (LichessStudy.lichessId study0) username token)
                           st)) as (rest & ->).
    unfold pgn_was_modified, has_current_update_fetched. cbn [Existing.updates].
    rewrite Hfetched. apply Z.leb_le in Hclock. rewrite Hclock. apply andb_false_r.
  - intros v st' study updates ls Hrun Hf Hclock.
    apply updateUnincludedStudy_inv in Hrun.
    destruct Hrun as (study0 & pgn & lm & Hf0 & Hst).
    rewrite Hst, find_study_update, Z.eqb_refl, Hf0 in Hf. inversion Hf. subst study.
    unfold pgn_was_modified, has_newer_version_on_lichess, Existing.lastFetched.
    cbn. apply Z.ltb_ge in Hclock. now rewrite Hclock.
Qed.

Lemma fetched_study_is_current_witness :
  (let st' := snd (fetchStudyUpdate Demo.healthy 42 1 "alice" "token" Demo.store) in
   pgn_was_modified (Existing.mk Demo.A (updates_of 1 st')) Demo.studyA = false)
  /\ pgn_was_modified Demo.existing_A0 Demo.studyA = true.
Proof.
  split; [|reflexivity]. cbv zeta.
  apply (proj1 (fetched_study_is_current Demo.healthy 42 1 "alice" "token" Demo.store)
           (mkStats 1 1 0 0) _ Demo.A Demo.studyA);
    [vm_compute; reflexivity | reflexivity | simpl; lia].
Defined.

(** ** unincludeStudy and deleteStudy, continued *)

Lemma unincludeStudy_unincluded E study_id user_id st n st' :
  moves_wf (move_table st) ->
  unincludeStudy E study_id user_id st = (Return n, st') ->
  st' = unincluded study_id st
  /\ exists study,
       find_study study_id (LichessStudy_table st) = Some study
       /\ LichessStudy.userId study = user_id.
Proof.
  intros Hwf Hrun.
  assert (Hu : exists study,
             find_study study_id (LichessStudy_table st) = Some study
             /\ LichessStudy.userId study = user_id).
  { revert Hrun. unfold unincludeStudy, bind, LichessStudy_findUnique_moves.
    destruct (find_study study_id (LichessStudy_table st)) as [study|]; [|discriminate].
    destruct (LichessStudy.userId study =? user_id) eqn:Hu; [|discriminate].
    apply Z.eqb_eq in Hu. eauto. }
  split; [|exact Hu].
  apply unincludeStudy_return in Hrun. destruct Hrun as (study & Hf & Hx).
  rewrite (uninclude_batch _ _ _ Hf Hwf) in Hx. now inversion Hx.
Qed.

Lemma study_moves_detached sid l : study_moves sid (map (detach sid) l) = [].
Proof.
  unfold study_moves. induction l as [|m l IH]; [reflexivity|].
  cbn [map filter].
  destruct (mem_id sid (Move.studies (detach sid m))) eqn:Hm; [|exact IH].
  apply mem_id_true in Hm. now apply detach_not_attached in Hm.
Qed.

Lemma update_study_uninclude_twice sid l :
  update_study sid data_uninclude (update_study sid data_uninclude l)
  = update_study sid data_uninclude l.
Proof.
  unfold update_study. rewrite map_map. apply map_ext. intros s.
  destruct (LichessStudy.id s =? sid) eqn:Hs; cbn; now rewrite Hs.
Qed.

(** X7: [unincludeStudy] does not look at the [included] flag.  Called
    again on a study it has just un-included it goes through once more,
    soft-deletes nothing, returns 0 and leaves the store exactly as it
    was. *)
Theorem unincludeStudy_again E study_id user_id st n st' :
  moves_wf (move_table st) ->
  unincludeStudy E study_id user_id st = (Return n, st') ->
  transaction_fault E [LichessStudy_update study_id data_uninclude] = None ->
  (exists study, find_study study_id (LichessStudy_table st') = Some study
                 /\ LichessStudy.included study = false)
  /\ unincludeStudy E study_id user_id st' = (Return 0%nat, st').
Proof.
  intros Hwf Hrun Hok.
  apply unincludeStudy_unincluded in Hrun; [|assumption].
  destruct Hrun as (-> & study & Hf & Hu).
  assert (Hf' : find_study study_id (LichessStudy_table (unincluded study_id st))
                = Some (LichessStudy.apply data_uninclude study)).
  { cbn [unincluded LichessStudy_table]. now rewrite find_study_update, Z.eqb_refl, Hf. }
  split; [eexists; split; [exact Hf' | reflexivity]|].
  unfold unincludeStudy, bind, LichessStudy_findUnique_moves, try_catch.
  rewrite Hf'. cbn [LichessStudy.userId LichessStudy.apply]. rewrite Hu, Z.eqb_refl.
  cbn [negb]. cbn [unincluded move_table]. rewrite study_moves_detached.
  cbn [orphanMoveSoftDeletionsQueries filter map app List.length].
  unfold transaction. rewrite Hok. cbn [exec_all exec]. fold (unincluded study_id st).
  rewrite Hf'. cbn [data_uninclude LichessStudy.moves_set]. unfold ret. f_equal.
  unfold unincluded, with_moves, with_studies. cbn. f_equal.
  - apply update_study_uninclude_twice.
  - unfold set_study_moves. cbn [mem_id existsb]. rewrite map_map.
    apply map_ext. intros m. apply disconnect_detach.
Qed.

Lemma unincludeStudy_again_witness :
  let st' := snd (unincludeStudy Demo.healthy 1 42 Demo.store) in
  unincludeStudy Demo.healthy 1 42 Demo.store = (Return 1%nat, st')
  /\ unincludeStudy Demo.healthy 1 42 st' = (Return 0%nat, st').
Proof.
  cbv zeta. split; [vm_compute; reflexivity|].
  apply (unincludeStudy_again Demo.healthy 1 42 Demo.store 1%nat);
    [unfold Demo.store; simpl; solve_moves_wf | vm_compute; reflexivity | reflexivity].
Defined.



(** ** One study at a time *)

#[local] Instance only_study_preorder sid : PreOrder (only_study sid).
Proof.
  split.
  - intros st. unfold only_study. auto.
  - intros a b c (Hu1 & Hc1 & Hs1 & Hp1) (Hu2 & Hc2 & Hs2 & Hp2). unfold only_study.
    repeat split; try congruence.
    + intros j Hj. rewrite Hs2, Hs1; auto.
    + intros j Hj. rewrite Hp2, Hp1; auto.
Qed.

Lemma only_study_same_tables sid st st' :
  User_table st' = User_table st -> remote_calls st' = remote_calls st ->
  LichessStudy_table st' = LichessStudy_table st ->
  LichessStudyUpdate_table st' = LichessStudyUpdate_table st ->
  only_study sid st st'.
Proof.
  intros Hu Hc Hs Hp. unfold only_study, updates_of. rewrite Hs, Hp. auto.
Qed.

Lemma exec_within_study sid q st st' :
  within_study sid q -> exec q st = Return st' -> only_study sid st st'.
Proof.
  unfold within_study.
  destruct q as [i d|i|k c u|i d]; cbn [study_of_query]; intros Hq H.
  - subst i. cbn [exec] in H. destruct (find_study sid _); [|discriminate].
    assert (Hst : LichessStudy_table st' = update_study sid d (LichessStudy_table st)
                  /\ LichessStudyUpdate_table st' = LichessStudyUpdate_table st
                  /\ User_table st' = User_table st /\ remote_calls st' = remote_calls st).
    { destruct (LichessStudy.moves_set d); inversion H; subst st'; cbn; auto. }
    destruct Hst as (Hs & Hp & Hu & Hc). unfold only_study, updates_of.
    rewrite Hs, Hp. repeat split; auto.
    intros j Hj. rewrite find_study_update. apply Z.eqb_neq in Hj. now rewrite Hj.
  - subst i. cbn [exec] in H. destruct (find_study sid _); [|discriminate].
    inversion H. subst st'. unfold only_study, updates_of.
    cbn [LichessStudy_table LichessStudyUpdate_table User_table remote_calls].
    repeat split.
    + intros j Hj. rewrite find_study_delete. apply Z.eqb_neq in Hj. now rewrite Hj.
    + intros j Hj. clear H.
      induction (LichessStudyUpdate_table st) as [|x l IH]; simpl; [reflexivity|].
      destruct (LichessStudyUpdate.studyId x =? sid) eqn:Hs; simpl.
      * apply Z.eqb_eq in Hs. rewrite Hs. apply not_eq_sym, Z.eqb_neq in Hj.
        now rewrite Hj.
      * destruct (LichessStudyUpdate.studyId x =? j); simpl; congruence.
  - apply exec_move_query in H; [|exact I]. destruct H as (Hs & Hp & Hu & Hc).
    now apply only_study_same_tables.
  - apply exec_move_query in H; [|exact I]. destruct H as (Hs & Hp & Hu & Hc).
    now apply only_study_same_tables.
Qed.

Lemma only_transaction E sid qs :
  Forall (within_study sid) qs -> maintains (only_study sid) (transaction E qs).
Proof.
  intros Hq. apply maintains_transaction; preorder.
  intros q st st' Hin. apply exec_within_study. rewrite Forall_forall in Hq. now apply Hq.
Qed.

Lemma only_unincludeStudy E study_id user_id :
  maintains (only_study study_id) (unincludeStudy E study_id user_id).
Proof.
  unfold unincludeStudy.
  apply maintains_bind; preorder.
  - intros st. now apply only_study_same_tables.
  - intros [[study moves]|]; maintain.
    apply only_transaction. apply Forall_app. split.
    + apply Forall_forall. intros q Hq. unfold orphanMoveSoftDeletionsQueries in Hq.
      apply in_map_iff in Hq. destruct Hq as (m & <- & _). exact I.
    + constructor; [reflexivity | constructor].
Qed.

Lemma only_includeStudy E study_id user_id repForWhite onlyVariant :
  maintains (only_study study_id) (includeStudy E study_id user_id repForWhite onlyVariant).
Proof.
  unfold includeStudy. cbv zeta. maintain.
  - intros st. apply only_study_same_tables; unfold LichessStudy_findUniqueOrThrow;
      now destruct (find_study _ _).
  - intros st. now apply only_study_same_tables.
  - apply only_transaction. apply Forall_app. split.
    + apply Forall_forall. intros q Hq. apply in_map_iff in Hq.
      destruct Hq as (m & <- & _). exact I.
    + constructor; [reflexivity | constructor].
Qed.

Lemma only_deleteStudy E user_id study_id :
  maintains (only_study study_id) (deleteStudy E user_id study_id).
Proof.
  unfold deleteStudy. maintain.
  - intros st. now apply only_study_same_tables.
  - apply only_unincludeStudy.
  - apply maintains_await; preorder. intros st st'. now apply exec_within_study.
Qed.

(** X9: [includeStudy], [unincludeStudy] and [deleteStudy] work on one
    study: whatever their outcome, they never call Lichess, never write to
    the User table, and leave the row and the pending update of every
    other study as they were. *)
Theorem inclusion_touches_one_study E study_id user_id repForWhite onlyVariant st :
  only_study study_id st (snd (includeStudy E study_id user_id repForWhite onlyVariant st))
  /\ only_study study_id st (snd (unincludeStudy E study_id user_id st))
  /\ only_study study_id st (snd (deleteStudy E user_id study_id st)).
Proof.
  split; [|split].
  - apply only_includeStudy.
  - apply only_unincludeStudy.
  - apply only_deleteStudy.
Qed.

(** ** includeStudy: what a successful inclusion stores *)

Lemma has_key_key_of k m : Move.has_key k m = true <-> key_of_move m = k.
Proof.
  unfold Move.has_key, key_of_move. destruct k as [u r f t]. cbn.
  rewrite !andb_true_iff, Z.eqb_eq, Bool.eqb_true_iff, !String.eqb_eq.
  split.
  - intros [[[-> ->] ->] ->]. reflexivity.
  - intros H. inversion H. auto.
Qed.

Lemma key_of_connect sid m : key_of_move (connect_study sid m) = key_of_move m.
Proof. unfold connect_study. now destruct (mem_id sid (Move.studies m)). Qed.

Lemma key_of_connect_all sids m :
  key_of_move (fold_left (fun m sid => connect_study sid m) sids m) = key_of_move m.
Proof.
  revert m. induction sids as [|sid sids IH]; intros m; simpl; [reflexivity|].
  now rewrite IH, key_of_connect.
Qed.

Lemma key_of_apply_move_update d m : key_of_move (apply_move_update d m) = key_of_move m.
Proof.
  unfold apply_move_update.
  destruct (Move.u_deleted d); [|apply key_of_connect_all].
  rewrite <- (key_of_connect_all (Move.u_connect d) m). reflexivity.
Qed.

Lemma key_of_disconnect sid m : key_of_move (disconnect_study sid m) = key_of_move m.
Proof. reflexivity. Qed.

Lemma has_key_same_key k m m' :
  key_of_move m' = key_of_move m -> Move.has_key k m' = Move.has_key k m.
Proof.
  intros H. destruct (Move.has_key k m) eqn:Hm.
  - apply has_key_key_of. apply has_key_key_of in Hm. congruence.
  - destruct (Move.has_key k m') eqn:Hm'; [|reflexivity].
    apply has_key_key_of in Hm'. rewrite H in Hm'. apply has_key_key_of in Hm'. congruence.
Qed.

Lemma find_map_same {A} (p : A -> bool) (f : A -> A) l :
  (forall x, p (f x) = p x) -> find p (map f l) = option_map f (find p l).
Proof.
  intros Hp. induction l as [|x l IH]; simpl; [reflexivity|].
  rewrite Hp. destruct (p x); [reflexivity | exact IH].
Qed.

Lemma find_app_none {A} (p : A -> bool) l x :
  find p l = None -> find p (l ++ [x]) = if p x then Some x else None.
Proof.
  induction l as [|y l IH]; simpl; [reflexivity|].
  destruct (p y); [discriminate | exact IH].
Qed.

Lemma find_app_some {A} (p : A -> bool) l l' x :
  find p l = Some x -> find p (l ++ l') = Some x.
Proof.
  induction l as [|y l IH]; simpl; [discriminate|].
  destruct (p y); auto.
Qed.

Lemma connect_study_keeps sid x m :
  In x (Move.studies m) -> In x (Move.studies (connect_study sid m)).
Proof.
  unfold connect_study. destruct (mem_id sid (Move.studies m)); [auto|].
  cbn. intros H. apply in_or_app. now left.
Qed.

(** The row one upsert of [includeStudy] leaves under its key. *)
Lemma upsert_attaches user_id study_id move st st' :
  exec (upsert_of_move user_id study_id move) st = Return st' ->
  in_repertoire_of study_id (key_of_parsed user_id move) (move_table st').
Proof.
  unfold upsert_of_move. fold (key_of_parsed user_id move). cbn [exec].
  set (k := key_of_parsed user_id move).
  destruct (find (Move.has_key k) (move_table st)) as [m0|] eqn:Hf.
  - destruct (all_studies_exist _ _); [|discriminate]. intros H. inversion H. subst st'.
    cbn [move_table with_moves]. unfold update_move, in_repertoire_of.
    rewrite find_map_same, Hf.
    + cbn [option_map]. rewrite Z.eqb_refl. eexists. split; [reflexivity|].
      unfold apply_move_update. cbn. split; [apply connect_study_In | reflexivity].
    + intros x. apply has_key_same_key.
      destruct (Move.id x =? Move.id m0); [apply key_of_apply_move_update | reflexivity].
  - destruct (all_studies_exist _ _); [|discriminate]. intros H. inversion H. subst st'.
    cbn [move_table with_moves]. unfold create_move, in_repertoire_of.
    rewrite (find_app_none _ _ _ Hf).
    match goal with |- context [Move.has_key k ?new] =>
      assert (Hk : Move.has_key k new = true) end.
    { apply has_key_key_of. cbn [Move.c_connect fold_left]. rewrite key_of_connect.
      reflexivity. }
    rewrite Hk. eexists. split; [reflexivity|].
    cbn [Move.c_connect fold_left]. split; [apply connect_study_In|].
    unfold connect_study. cbn. reflexivity.
Qed.

(** A later upsert for the same study does not undo it. *)
Lemma upsert_keeps_attached user_id study_id move k st st' :
  exec (upsert_of_move user_id study_id move) st = Return st' ->
  in_repertoire_of study_id k (move_table st) ->
  in_repertoire_of study_id k (move_table st').
Proof.
  unfold upsert_of_move. cbn [exec]. intros H (m & Hm & Hin & Hdel).
  destruct (find (Move.has_key _) (move_table st)) as [m0|].
  - destruct (all_studies_exist _ _); [|discriminate]. inversion H. subst st'.
    cbn [move_table with_moves]. unfold update_move, in_repertoire_of.
    rewrite find_map_same, Hm.
    + cbn [option_map]. eexists. split; [reflexivity|].
      destruct (Move.id m =? Move.id m0); [|auto].
      unfold apply_move_update. cbn. split; [|reflexivity].
      now apply connect_study_keeps.
    + intros x. apply has_key_same_key.
      destruct (Move.id x =? Move.id m0); [apply key_of_apply_move_update | reflexivity].
  - destruct (all_studies_exist _ _); [|discriminate]. inversion H. subst st'.
    cbn [move_table with_moves]. unfold create_move, in_repertoire_of.
    rewrite (find_app_some _ _ _ _ Hm). eauto.
Qed.

Lemma upserts_attach user_id study_id moves st st' :
  exec_all (map (upsert_of_move user_id study_id) moves) st = Return st' ->
  forall move, In move moves ->
    in_repertoire_of study_id (key_of_parsed user_id move) (move_table st').
Proof.
  revert st. induction moves as [|mv moves IH]; intros st Hx move Hin; [contradiction|].
  cbn [map exec_all] in Hx.
  destruct (exec (upsert_of_move user_id study_id mv) st) as [st1|] eqn:H1; [|discriminate].
  destruct Hin as [->|Hin]; [|eapply IH; eauto].
  apply upsert_attaches in H1. clear IH.
  revert st1 H1 Hx. induction moves as [|mv' moves IH]; intros st1 H1 Hx.
  - cbn [map exec_all] in Hx. inversion Hx. subst st'. exact H1.
  - cbn [map exec_all] in Hx.
    destruct (exec (upsert_of_move user_id study_id mv') st1) as [st2|] eqn:H2;
      [|discriminate].
    eapply IH; [|exact Hx]. eapply upsert_keeps_attached; eauto.
Qed.

(** X10: when [includeStudy] returns, the study row is flagged included
    with the chosen colour, and every move the parser produced (asked for
    variants only) has a row under its key (user, colour, origin,
    destination) that is attached to the study and not soft-deleted,
    however often the move occurs in the PGN and whether or not a row
    existed before. *)
Theorem includeStudy_stores_moves E study_id user_id repForWhite onlyVariant st v st' :
  includeStudy E study_id user_id repForWhite onlyVariant st = (Return v, st') ->
  exists study moves,
    find_study study_id (LichessStudy_table st) = Some study
    /\ pgndbToMoves E (LichessStudy.pgn study) (Some repForWhite) (Some true) = Return moves
    /\ (exists study',
          find_study study_id (LichessStudy_table st') = Some study'
          /\ LichessStudy.included study' = true
          /\ LichessStudy.repForWhite study' = Some repForWhite
          /\ LichessStudy.pgn study' = LichessStudy.pgn study)
    /\ forall move, In move moves ->
         in_repertoire_of study_id (key_of_parsed user_id move) (move_table st').
Proof.
  intros Hrun.
  pose proof (includeStudy_sets_included _ _ _ _ _ _ _ _ Hrun) as (s0 & Hf0 & _ & _ & Hf').
  apply includeStudy_return in Hrun.
  destruct Hrun as (study & moves & Hf & _ & _ & _ & Hparse & Hx).
  rewrite Hf in Hf0. inversion Hf0. subst s0.
  exists study, moves. repeat apply conj; auto.
  - eexists. split; [exact Hf'|]. repeat split.
  - rewrite exec_all_app in Hx.
    destruct (exec_all (map _ moves) st) as [st1|] eqn:H1; [|discriminate].
    cbn [exec_all exec] in Hx.
    destruct (find_study study_id (LichessStudy_table st1)); [|discriminate].
    cbn [data_include LichessStudy.moves_set] in Hx. inversion Hx. subst st'.
    cbn [move_table with_studies]. eapply upserts_attach. exact H1.
Qed.

Lemma includeStudy_stores_moves_witness :
  let st' := snd (includeStudy Demo.healthy 4 42 true None Demo.store_N) in
  in_repertoire_of 4 (key_of_parsed 42 Demo.e4) (move_table st')
  /\ in_repertoire_of 4 (key_of_parsed 42 Demo.e5) (move_table st').
Proof.
  cbv zeta.
  assert (Hrun : includeStudy Demo.healthy 4 42 true None Demo.store_N
                 = (Return tt, snd (includeStudy Demo.healthy 4 42 true None Demo.store_N)))
    by (vm_compute; reflexivity).
  destruct (includeStudy_stores_moves Demo.healthy 4 42 true None Demo.store_N tt _ Hrun)
    as (study & moves & Hf & Hparse & _ & Hall).
  inversion Hf. subst study. vm_compute in Hparse. inversion Hparse. subst moves.
  split; apply Hall; simpl; auto.
Defined.

(** ** One row per key *)

#[local] Instance keys_unique_preorder : PreOrder keys_unique.
Proof.
  split.
  - intros a. unfold keys_unique. auto.
  - intros a b c. unfold keys_unique. auto.
Qed.

Lemma keys_same_moves st st' : move_table st' = move_table st -> keys_unique st st'.
Proof. unfold keys_unique. now intros ->. Qed.

Lemma keys_map (f : Move.t -> Move.t) l :
  (forall m, key_of_move (f m) = key_of_move m) ->
  map key_of_move (map f l) = map key_of_move l.
Proof. intros Hf. rewrite map_map. apply map_ext. exact Hf. Qed.

Lemma exec_keyed q st st' : keyed q -> exec q st = Return st' -> keys_unique st st'.
Proof.
  unfold keys_unique.
  destruct q as [i d|i|k c u|i d]; cbn [exec keyed]; intros Hq H Hnd.
  - destruct (find_study i _); [|discriminate].
    destruct (LichessStudy.moves_set d) as [ids|]; inversion H; subst st';
      cbn [move_table with_moves with_studies]; [|exact Hnd].
    unfold set_study_moves. rewrite keys_map; [exact Hnd|].
    intros m. destruct (mem_id (Move.id m) ids); [apply key_of_connect | reflexivity].
  - destruct (find_study i _); [|discriminate]. inversion H; subst st'.
    cbn [move_table]. rewrite keys_map; [exact Hnd | reflexivity].
  - destruct (find (Move.has_key k) (move_table st)) as [m0|] eqn:Hf.
    + destruct (all_studies_exist _ _); [|discriminate]. inversion H; subst st'.
      cbn [move_table with_moves]. unfold update_move. rewrite keys_map; [exact Hnd|].
      intros m. destruct (Move.id m =? Move.id m0);
        [apply key_of_apply_move_update | reflexivity].
    + destruct (all_studies_exist _ _); [|discriminate]. inversion H; subst st'.
      cbn [move_table with_moves]. unfold create_move. rewrite map_app. cbn [map].
      apply NoDup_snoc; [exact Hnd|].
      rewrite key_of_connect_all. fold (key_of_parsed (Move.c_userId c) (Move.c_move c)).
      change (key_of_move _) with (key_of_parsed (Move.c_userId c) (Move.c_move c)).
      rewrite <- Hq. intros Hin. apply in_map_iff in Hin. destruct Hin as (m & Hk & Hm).
      apply has_key_key_of in Hk. eapply find_none in Hf; [|exact Hm]. congruence.
  - destruct (find_move i _); [|discriminate].
    destruct (all_studies_exist _ _); [|discriminate]. inversion H; subst st'.
    cbn [move_table with_moves]. unfold update_move. rewrite keys_map; [exact Hnd|].
    intros m. destruct (Move.id m =? i); [apply key_of_apply_move_update | reflexivity].
Qed.

Lemma keys_transaction E qs :
  Forall keyed qs -> maintains keys_unique (transaction E qs).
Proof.
  intros Hq. apply maintains_transaction; preorder.
  intros q st st' Hin. apply exec_keyed. rewrite Forall_forall in Hq. now apply Hq.
Qed.

Lemma keys_includeStudy E study_id user_id repForWhite onlyVariant :
  maintains keys_unique (includeStudy E study_id user_id repForWhite onlyVariant).
Proof.
  unfold includeStudy. cbv zeta. maintain.
  - intros st. apply keys_same_moves. unfold LichessStudy_findUniqueOrThrow.
    now destruct (find_study _ _).
  - intros st. now apply keys_same_moves.
  - apply keys_transaction. apply Forall_app. split.
    + apply Forall_forall. intros q Hq. apply in_map_iff in Hq.
      destruct Hq as (m & <- & _). reflexivity.
    + constructor; [exact I | constructor].
Qed.

Lemma keys_unincludeStudy E study_id user_id :
  maintains keys_unique (unincludeStudy E study_id user_id).
Proof.
  unfold unincludeStudy.
  apply maintains_bind; preorder.
  - intros st. now apply keys_same_moves.
  - intros [[study moves]|]; maintain.
    apply keys_transaction. apply Forall_app. split.
    + apply Forall_forall. intros q Hq. unfold orphanMoveSoftDeletionsQueries in Hq.
      apply in_map_iff in Hq. destruct Hq as (m & <- & _). exact I.
    + constructor; [exact I | constructor].
Qed.

Lemma keys_deleteStudy E user_id study_id :
  maintains keys_unique (deleteStudy E user_id study_id).
Proof.
  unfold deleteStudy. maintain.
  - intros st. now apply keys_same_moves.
  - apply keys_unincludeStudy.
  - apply maintains_await; preorder. intros st st'. now apply exec_keyed.
Qed.

Lemma keyed_collected E user_id username token :
  returns (fun l => Forall keyed (queries l)) (collect_changes E user_id username token).
Proof.
  intros st l st1 Hc.
  apply collect_changes_return in Hc. destruct Hc as (ls & l1 & _ & Hloop & Hl).
  assert (Hl1 : first_loop_locals (existing_studies_of user_id st) (map Metadata.id ls) l1).
  { eapply (returns_for_of (first_loop_locals _ (map Metadata.id ls))); [| |exact Hloop].
    - intros x acc Hin Hacc. now apply returns_lichess_study_step.
    - split; [reflexivity | constructor]. }
  rewrite removed_study_loop in Hl. subst l. cbn [queries].
  apply Forall_app. split.
  - eapply Forall_impl; [|exact (proj2 Hl1)].
    intros q (es & d & -> & _). exact I.
  - apply Forall_forall. intros q Hq. apply in_flat_map in Hq.
    destruct Hq as (es & _ & Hq).
    pose proof (removal_queries_target _ _ _ Hq) as Ht.
    destruct q; try discriminate; exact I.
Qed.

Lemma keys_fetchAllStudyChanges E user_id username token :
  maintains keys_unique (fetchAllStudyChanges E user_id username token).
Proof.
  unfold fetchAllStudyChanges.
  apply maintains_bind_returns with (Q := fun l => Forall keyed (queries l)); preorder.
  - apply (maintains_weaken sync_step); [|apply sync_collect_changes].
    intros st st' (_ & Hm & _). now apply keys_same_moves.
  - apply keyed_collected.
  - intros l Hl. maintain.
    + now apply keys_transaction.
    + intros st. apply keys_same_moves. unfold User_update_lastRepertoireUpdateCheck.
      destruct (User_update_fault E user_id); [reflexivity|].
      now destruct (find_user _ _).
Qed.

Lemma keys_run E op st : keys_unique st (run E op st).
Proof.
  destruct op; cbn [run].
  - apply keys_fetchAllStudyChanges.
  - revert st.
    assert (H : maintains keys_unique
                  (fetchAllStudyChangesUnlessFetchedRecently E user_id min_interval_s)).
    { unfold fetchAllStudyChangesUnlessFetchedRecently. cbv zeta. maintain.
      - intros st. apply keys_same_moves. unfold User_findUniqueOrThrow.
        now destruct (find_user _ _).
      - apply keys_fetchAllStudyChanges. }
    exact H.
  - apply keys_same_moves.
    apply (sync_fetchStudyUpdate E user_id study_id lichess_username
             lichess_access_token st).
  - apply keys_same_moves.
    apply (sync_updateUnincludedStudy E user_id study_id lichess_username
             lichess_access_token st).
  - apply keys_deleteStudy.
  - apply keys_includeStudy.
  - apply keys_unincludeStudy.
Qed.

(** X11: no entry point of the file ever stores two moves under one key
    (user, colour, origin, destination): on a move table whose keys are
    pairwise different they stay pairwise different, also when the PGN
    that [includeStudy] parses contains a move several times. *)
Theorem operations_keep_keys_unique E op st :
  NoDup (map key_of_move (move_table st)) ->
  NoDup (map key_of_move (move_table (run E op st))).
Proof. apply keys_run. Qed.

Lemma operations_keep_keys_unique_witness :
  NoDup (map key_of_move
           (move_table (run Demo.healthy (op_includeStudy 4 42 true None) Demo.store_N)))
  /\ List.length
       (move_table (run Demo.healthy (op_includeStudy 4 42 true None) Demo.store_N))
     = 2%nat.
Proof.
  split; [|reflexivity].
  apply (operations_keep_keys_unique Demo.healthy (op_includeStudy 4 42 true None)
           Demo.store_N).
  simpl. repeat constructor. simpl. tauto.
Defined.

(** ** fetchAllStudyChanges and the move table *)

Lemma edges_dropped_refl m : edges_dropped m m.
Proof. unfold edges_dropped. split; [now destruct m | apply incl_refl]. Qed.

Lemma edges_dropped_trans m1 m2 m3 :
  edges_dropped m1 m2 -> edges_dropped m2 m3 -> edges_dropped m1 m3.
Proof.
  unfold edges_dropped. intros [H1 I1] [H2 I2]. split.
  - rewrite H2 at 1. rewrite H1. reflexivity.
  - eapply incl_tran; eauto.
Qed.

Lemma Forall2_same {A} (R : A -> A -> Prop) l : (forall x, R x x) -> Forall2 R l l.
Proof. intros H. induction l; constructor; auto. Qed.

#[local] Instance moves_only_lose_edges_preorder : PreOrder moves_only_lose_edges.
Proof.
  split.
  - intros st. apply Forall2_same, edges_dropped_refl.
  - intros a b c. unfold moves_only_lose_edges.
    generalize (move_table a) (move_table b) (move_table c). clear.
    intros la lb lc H. revert lc. induction H as [|x y la lb Hxy _ IH]; intros lc Hbc.
    + inversion Hbc. constructor.
    + inversion Hbc as [|? z ? lc' Hyz Hrest]; subst. constructor.
      * eapply edges_dropped_trans; eauto.
      * now apply IH.
Qed.

Lemma lose_edges_same_moves st st' :
  move_table st' = move_table st -> moves_only_lose_edges st st'.
Proof.
  intros H. unfold moves_only_lose_edges. rewrite H.
  apply Forall2_same, edges_dropped_refl.
Qed.

Lemma exec_structural q st st' :
  structural q -> exec q st = Return st' -> moves_only_lose_edges st st'.
Proof.
  destruct q as [i d|i|k c u|i d]; cbn [exec structural]; intros Hq H; try contradiction.
  - destruct (find_study i _); [|discriminate]. rewrite Hq in H. inversion H.
    now apply lose_edges_same_moves.
  - destruct (find_study i _); [|discriminate]. inversion H.
    unfold moves_only_lose_edges. cbn [move_table]. clear.
    induction (move_table st) as [|m l IH]; cbn [map]; constructor; [|exact IH].
    unfold edges_dropped, disconnect_study. cbn. split; [reflexivity|].
    intros x Hx. apply filter_In in Hx. tauto.
Qed.

Lemma structural_collected E user_id username token :
  returns (fun l => Forall structural (queries l)) (collect_changes E user_id username token).
Proof.
  intros st l st1 Hc.
  apply collect_changes_return in Hc. destruct Hc as (ls & l1 & _ & Hloop & Hl).
  assert (Hl1 : first_loop_locals (existing_studies_of user_id st) (map Metadata.id ls) l1).
  { eapply (returns_for_of (first_loop_locals _ (map Metadata.id ls))); [| |exact Hloop].
    - intros x acc Hin Hacc. now apply returns_lichess_study_step.
    - split; [reflexivity | constructor]. }
  rewrite removed_study_loop in Hl. subst l. cbn [queries].
  apply Forall_app. split.
  - eapply Forall_impl; [|exact (proj2 Hl1)].
    intros q (es & d & -> & Hd & _). exact Hd.
  - apply Forall_forall. intros q Hq. apply in_flat_map in Hq.
    destruct Hq as (es & _ & Hq). unfold removal_queries in Hq.
    destruct (gone_from_lichess _ es); [|contradiction].
    destruct (Existing.included es); [destruct (Existing.removedOnLichess es)|];
      simpl in Hq; try contradiction; destruct Hq as [<-|[]]; simpl; auto.
Qed.

Lemma lose_edges_fetchAllStudyChanges E user_id username token :
  maintains moves_only_lose_edges (fetchAllStudyChanges E user_id username token).
Proof.
  unfold fetchAllStudyChanges.
  apply maintains_bind_returns with (Q := fun l => Forall structural (queries l));
    preorder.
  - apply (maintains_weaken sync_step); [|apply sync_collect_changes].
    intros st st' (_ & Hm & _). now apply lose_edges_same_moves.
  - apply structural_collected.
  - intros l Hl. maintain.
    + apply maintains_transaction; preorder. intros q st st' Hin.
      apply exec_structural. rewrite Forall_forall in Hl. now apply Hl.
    + intros st. apply lose_edges_same_moves.
      unfold User_update_lastRepertoireUpdateCheck.
      destruct (User_update_fault E user_id); [reflexivity|].
      now destruct (find_user _ _).
Qed.

(** X12: a pass never creates, soft-deletes or restores a move and never
    attaches one to a study.  Whatever its outcome, the move table has the
    same rows in the same order, each as it was except that edges to
    studies may be gone (those of the studies the pass deleted). *)
Theorem fetchAllStudyChanges_moves E user_id username token st :
  Forall2 edges_dropped (move_table st)
          (move_table (snd (fetchAllStudyChanges E user_id username token st)))
  /\ map Move.deleted (move_table (snd (fetchAllStudyChanges E user_id username token st)))
     = map Move.deleted (move_table st).
Proof.
  pose proof (lose_edges_fetchAllStudyChanges E user_id username token st) as H.
  split; [exact H|].
  unfold moves_only_lose_edges in H.
  induction H as [|m m' l l' [Hm _] _ IH]; [reflexivity|].
  cbn [map]. rewrite IH, Hm. reflexivity.
Qed.

(** ** includeStudy: its errors *)

(** X13: the ways [includeStudy] fails.  A study id without a row gives
    the [NotFoundError] of [findUniqueOrThrow]; an error of the parser is
    passed on as it is; a batch the storage engine rejects is reported as
    "Exception inserting moves into database: " followed by the message
    of the cause.  The store is unchanged in all three cases. *)
Theorem includeStudy_errors E study_id user_id repForWhite onlyVariant st :
  (find_study study_id (LichessStudy_table st) = None ->
   includeStudy E study_id user_id repForWhite onlyVariant st
   = (Throw (NotFoundError "No LichessStudy found"), st))
  /\ (forall study,
        find_study study_id (LichessStudy_table st) = Some study ->
        LichessStudy.userId study = user_id ->
        LichessStudy.hidden study = false ->
        LichessStudy.included study = false ->
        (forall e,
            pgndbToMoves E (LichessStudy.pgn study) (Some repForWhite) (Some true) = Throw e ->
            includeStudy E study_id user_id repForWhite onlyVariant st = (Throw e, st))
        /\ (forall moves e,
              pgndbToMoves E (LichessStudy.pgn study) (Some repForWhite) (Some true)
              = Return moves ->
              transaction_fault E
                (map (upsert_of_move user_id study_id) moves
                 ++ [LichessStudy_update study_id (data_include repForWhite)]) = Some e ->
              includeStudy E study_id user_id repForWhite onlyVariant st
              = (Throw (Error ("Exception inserting moves into database: " ++ message e)),
                 st))).
Proof.
  unfold includeStudy, bind, LichessStudy_findUniqueOrThrow, call_pgndbToMoves, try_catch.
  split.
  - now intros ->.
  - intros study -> -> -> ->. rewrite Z.eqb_refl. cbn [negb]. split.
    + now intros e ->.
    + intros moves e -> Hfault. unfold transaction. now rewrite Hfault.
Qed.

Lemma includeStudy_errors_witness :
  includeStudy Demo.healthy 7 42 true None Demo.store
  = (Throw (NotFoundError "No LichessStudy found"), Demo.store)
  /\ includeStudy Demo.faulty 4 42 true None Demo.store_N
     = (Throw (Error "Exception inserting moves into database: deadlock detected"),
        Demo.store_N).
Proof.
  split.
  - apply (proj1 (includeStudy_errors Demo.healthy 7 42 true None Demo.store)). reflexivity.
  - apply (proj2 (proj2 (includeStudy_errors Demo.faulty 4 42 true None Demo.store_N)
                    Demo.N eq_refl eq_refl eq_refl eq_refl)
             [Demo.e4; Demo.e5] (Error "deadlock detected")); reflexivity.
Defined.

(** ** fetchAllStudyChanges: a pass that throws *)

(** X14: a pass that throws has committed nothing of its batch or all of
    it.  Either the store is the one the fetching phase left (no study
    deleted, none with another owner, flags or colour, moves and users
    untouched, what was fetched and stored until then still stored), or
    the whole batch is committed and what threw is the
    [prisma.User.update] of lines 138-141, rejected by the storage
    engine or for lack of a User row: then the changes of the pass are in
    the store and only the timestamp is missing. *)
Theorem fetchAllStudyChanges_throws E user_id username token st e st' :
  fetchAllStudyChanges E user_id username token st = (Throw e, st') ->
  (st' = snd (collect_changes E user_id username token st)
   /\ sync_step st st')
  \/ (exists l st1,
        collect_changes E user_id username token st = (Return l, st1)
        /\ transaction_fault E (queries l) = None
        /\ exec_all (queries l) st1 = Return st'
        /\ (User_update_fault E user_id = Some e
            \/ (User_update_fault E user_id = None
                /\ find_user user_id (User_table st) = None
                /\ e = record_not_found))).
Proof.
  intros Hrun.
  pose proof (sync_collect_changes E user_id username token st) as Hsync.
  revert Hrun. unfold fetchAllStudyChanges, bind, try_catch.
  destruct (collect_changes E user_id username token st) as [[l|e0] st1]; cbn [snd] in *.
  - pose proof (transaction_same_users E (queries l) st1) as Htu. unfold same_users in Htu.
    destruct (transaction E (queries l) st1) as [[[]|e1] st2] eqn:Ht; cbn [snd] in Htu.
    + apply transaction_return in Ht. destruct Ht as [Hok Hx].
      unfold User_update_lastRepertoireUpdateCheck.
      destruct (User_update_fault E user_id) as [e2|] eqn:Hfault.
      * intros H. inversion H. subst. right. exists l, st1.
        split; [reflexivity|]. split; [exact Hok|]. split; [exact Hx|]. now left.
      * destruct (find_user user_id (User_table st2)) eqn:Hu; [discriminate|].
        intros H. inversion H. subst. right. exists l, st1.
        destruct Hsync as (Hcu & _). rewrite Htu, Hcu in Hu.
        split; [reflexivity|]. split; [exact Hok|]. split; [exact Hx|]. right. auto.
    + apply transaction_throw in Ht. subst st2. unfold throw. intros H. inversion H.
      subst. auto.
  - intros H. inversion H. subst. auto.
Qed.

Lemma fetchAllStudyChanges_throws_witness :
  let rolled_back := snd (fetchAllStudyChanges Demo.faulty 42 "alice" "token" Demo.store) in
  let committed := snd (fetchAllStudyChanges Demo.unstamped 42 "alice" "token" Demo.store) in
  ((rolled_back = snd (collect_changes Demo.faulty 42 "alice" "token" Demo.store)
    /\ sync_step Demo.store rolled_back)
   \/ exists l st1,
        collect_changes Demo.faulty 42 "alice" "token" Demo.store = (Return l, st1)
        /\ transaction_fault Demo.faulty (queries l) = None
        /\ exec_all (queries l) st1 = Return rolled_back
        /\ (User_update_fault Demo.faulty 42
            = Some (Error "Exception renaming study: deadlock detected")
            \/ (User_update_fault Demo.faulty 42 = None
                /\ find_user 42 (User_table Demo.store) = None
                /\ Error "Exception renaming study: deadlock detected" = record_not_found)))
  /\ ((committed = snd (collect_changes Demo.unstamped 42 "alice" "token" Demo.store)
       /\ sync_step Demo.store committed)
      \/ exists l st1,
           collect_changes Demo.unstamped 42 "alice" "token" Demo.store = (Return l, st1)
           /\ transaction_fault Demo.unstamped (queries l) = None
           /\ exec_all (queries l) st1 = Return committed
           /\ (User_update_fault Demo.unstamped 42 = Some (Error "connection lost")
               \/ (User_update_fault Demo.unstamped 42 = None
                   /\ find_user 42 (User_table Demo.store) = None
                   /\ Error "connection lost" = record_not_found)))
  /\ find_study 2 (LichessStudy_table rolled_back) = Some Demo.B
  /\ find_study 2 (LichessStudy_table committed) = None
  /\ User_table committed = [Demo.alice].
Proof.
  cbv zeta. split; [|split; [|split; [|split]]]; try reflexivity.
  - apply (fetchAllStudyChanges_throws Demo.faulty 42 "alice" "token" Demo.store).
    vm_compute. reflexivity.
  - apply (fetchAllStudyChanges_throws Demo.unstamped 42 "alice" "token" Demo.store).
    vm_compute. reflexivity.
Defined.

(** ** fetchAllStudyChanges: studies that Lichess lists *)

#[local] Instance rows_kept_named_preorder : PreOrder (rows_kept same_named_study).
Proof.
  split.
  - intros st i s Hf. exists s. split; [assumption|].
    split; [apply same_study_refl | reflexivity].
  - intros a b c H1 H2 i s Hf.
    destruct (H1 i s Hf) as (s1 & Hf1 & Hs1 & Hn1).
    destruct (H2 i s1 Hf1) as (s2 & Hf2 & Hs2 & Hn2).
    exists s2. split; [assumption|].
    split; [eapply same_study_trans; eauto | congruence].
Qed.

Lemma named_same_table st st' :
  LichessStudy_table st' = LichessStudy_table st -> rows_kept same_named_study st st'.
Proof.
  intros H i s Hf. rewrite H. exists s. split; [assumption|].
  split; [apply same_study_refl | reflexivity].
Qed.

Lemma named_update_content i lastModified fetched pgn :
  maintains (rows_kept same_named_study)
            (await (LichessStudy_update i (content_data lastModified fetched pgn))).
Proof.
  apply maintains_await; preorder. intros st st'. cbn [exec].
  destruct (find_study i (LichessStudy_table st)); [|discriminate].
  cbn [content_data LichessStudy.moves_set]. intros H. inversion H. subst st'.
  intros j row Hf. cbn [LichessStudy_table with_studies].
  rewrite find_study_update, Hf.
  destruct (j =? i); simpl; eexists; (split; [reflexivity|]);
    unfold same_named_study, same_study; cbn; tauto.
Qed.

Lemma named_updateUnincludedStudy E user_id study_id username token :
  maintains (rows_kept same_named_study)
            (updateUnincludedStudy E user_id study_id username token).
Proof.
  unfold updateUnincludedStudy.
  apply maintains_bind; preorder; [intros st; now apply named_same_table|].
  intros [study|]; maintain.
  - intros st. now apply named_same_table.
  - apply named_update_content.
Qed.

Lemma named_fetchStudyUpdate E user_id study_id username token :
  maintains (rows_kept same_named_study)
            (fetchStudyUpdate E user_id study_id username token).
Proof.
  unfold fetchStudyUpdate.
  apply maintains_bind; preorder; [intros st; now apply named_same_table|].
  intros [[study moves]|]; maintain; intros st; now apply named_same_table.
Qed.

Lemma named_collect_changes E user_id username token :
  maintains (rows_kept same_named_study) (collect_changes E user_id username token).
Proof.
  unfold collect_changes. maintain.
  - intros st. now apply named_same_table.
  - intros st. now apply named_same_table.
  - apply maintains_for_of; preorder. intros x acc _.
    unfold lichess_study_step. maintain.
    + intros st. now apply named_same_table.
    + intros st i row Hf. exists row. split.
      * simpl. now apply find_study_app_old.
      * split; [apply same_study_refl | reflexivity].
    + unfold existing_study_step. cbv zeta. maintain.
      * apply named_fetchStudyUpdate.
      * apply named_updateUnincludedStudy.
Qed.

Lemma listed_as_some existing ls es :
  listed_as existing ls = Some es ->
  In es existing /\ Existing.lichessId es = Metadata.id ls.
Proof.
  unfold listed_as. destruct (Set_has _ _); [|discriminate].
  intros H. apply find_some in H. destruct H as [Hin He].
  apply String.eqb_eq in He. auto.
Qed.

Lemma listed_queries_target existing ls q :
  In q (listed_queries existing ls) ->
  exists es, listed_as existing ls = Some es /\ study_of_query q = Some (Existing.id es).
Proof.
  unfold listed_queries. destruct (listed_as existing ls) as [es|]; [|contradiction].
  intros Hq. exists es. split; [reflexivity|].
  apply in_app_or in Hq.
  destruct (Existing.removedOnLichess es), (negb _); simpl in Hq;
    destruct Hq as [Hq|Hq]; try contradiction; destruct Hq as [<-|[]]; reflexivity.
Qed.

(** The row of study [j] after a batch in which only the part [B] writes
    to it. *)
Lemma exec_all_at j A B C st1 st2 :
  Forall (fun q => study_of_query q <> Some j) A ->
  Forall (fun q => study_of_query q <> Some j) C ->
  exec_all (A ++ B ++ C) st1 = Return st2 ->
  exists sa sb,
    exec_all B sa = Return sb
    /\ find_study j (LichessStudy_table sa) = find_study j (LichessStudy_table st1)
    /\ find_study j (LichessStudy_table st2) = find_study j (LichessStudy_table sb).
Proof.
  intros HA HC Hx. rewrite exec_all_app in Hx.
  destruct (exec_all A st1) as [sa|] eqn:Ha; [|discriminate].
  rewrite exec_all_app in Hx.
  destruct (exec_all B sa) as [sb|] eqn:Hb; [|discriminate].
  exists sa, sb. split; [exact Hb|]. split.
  - exact (exec_all_other_study A j HA st1 sa Ha).
  - exact (exec_all_other_study C j HC sb st2 Hx).
Qed.

Lemma exec_update_at j d sa sb :
  LichessStudy.moves_set d = None ->
  exec (LichessStudy_update j d) sa = Return sb ->
  find_study j (LichessStudy_table sb)
  = option_map (LichessStudy.apply d) (find_study j (LichessStudy_table sa)).
Proof.
  intros Hd. cbn [exec]. destruct (find_study j (LichessStudy_table sa)) eqn:Hf;
    [|discriminate].
  rewrite Hd. intros H. inversion H. subst sb. cbn [LichessStudy_table with_studies].
  now rewrite find_study_update, Z.eqb_refl, Hf.
Qed.

Lemma existing_row user_id st es :
  NoDup (map LichessStudy.id (LichessStudy_table st)) ->
  In es (existing_studies_of user_id st) ->
  find_study (Existing.id es) (LichessStudy_table st) = Some (Existing.study es)
  /\ LichessStudy.userId (Existing.study es) = user_id.
Proof.
  intros Hnd Hes. unfold existing_studies_of in Hes.
  apply in_map_iff in Hes. destruct Hes as (s & <- & Hs).
  apply filter_In in Hs. destruct Hs as [Hs Hu]. apply Z.eqb_eq in Hu.
  split; [|exact Hu]. exact (find_study_In _ _ Hnd Hs).
Qed.

(** The row the pass picks for an entry of the list of Lichess. *)
Lemma first_listed_row E user_id username token st remote counts st' :
  NoDup (map LichessStudy.id (LichessStudy_table st)) ->
  NoDup (map Metadata.id remote) ->
  fetchStudiesMetadata E username token = Return remote ->
  fetchAllStudyChanges E user_id username token st = (Return counts, st') ->
  forall ls es,
    In ls remote ->
    listed_as (existing_studies_of user_id st) ls = Some es ->
    exists study',
      find_study (Existing.id es) (LichessStudy_table st') = Some study'
      /\ LichessStudy.name study' = Metadata.name ls
      /\ LichessStudy.removedOnLichess study' = false
      /\ LichessStudy.lichessId study' = Metadata.id ls
      /\ LichessStudy.userId study' = user_id
      /\ LichessStudy.included study' = Existing.included es
      /\ LichessStudy.hidden study' = Existing.hidden es.
Proof.
  intros Hnd Hndr Hmeta Hrun ls es Hls Hlisted.
  apply fetchAllStudyChanges_return in Hrun.
  destruct Hrun as (l & st1 & st2 & Hc & Hx & Hst & _ & _).
  pose proof (named_collect_changes E user_id username token st) as Hrows.
  rewrite Hc in Hrows. cbn [snd] in Hrows.
  pose proof (collect_changes_locals _ _ _ _ _ _ _ _ Hmeta Hc) as Hl. cbv zeta in Hl.
  assert (Hq : queries l
               = flat_map (listed_queries (existing_studies_of user_id st)) remote
                 ++ flat_map (removal_queries (map Metadata.id remote))
                             (existing_studies_of user_id st))
    by (rewrite Hl; reflexivity).
  rewrite Hq in Hx. clear Hq Hl.
  pose proof (existing_ids_NoDup user_id st Hnd) as Hnde.
  set (existing := existing_studies_of user_id st) in *.
  destruct (listed_as_some _ _ _ Hlisted) as [Hes Hlid].
  destruct (existing_row _ _ _ Hnd Hes) as [Hrow0 Hu].
  destruct (Hrows _ _ Hrow0) as (s1 & Hf1 & Hsame & Hname).
  destruct (in_split _ _ Hls) as (pre & post & Hsplit). subst remote.
  assert (Hoth : forall xs, incl xs (pre ++ post) ->
                 Forall (fun q => study_of_query q <> Some (Existing.id es))
                        (flat_map (listed_queries existing) xs)).
  { intros xs Hxs. apply Forall_forall. intros q Hq'.
    apply in_flat_map in Hq'. destruct Hq' as (ls' & Hls' & Hq').
    apply listed_queries_target in Hq'. destruct Hq' as (es' & Hl' & ->).
    intros Heq. inversion Heq as [Hid].
    destruct (listed_as_some _ _ _ Hl') as [Hes' Hlid'].
    assert (es' = es) by (eapply NoDup_map_inj; eauto). subst es'.
    rewrite map_app in Hndr. cbn [map] in Hndr.
    apply NoDup_remove_2 in Hndr. apply Hndr. rewrite <- map_app.
    rewrite <- Hlid, Hlid'. apply in_map. now apply Hxs. }
  rewrite flat_map_app in Hx. cbn [flat_map] in Hx.
  rewrite <- !app_assoc in Hx.
  apply (exec_all_at (Existing.id es)) in Hx.
  - destruct Hx as (sa & sb & Hb & Hfa & Hfb).
    rewrite Hf1 in Hfa. rewrite Hst, Hfb.
    destruct Hsame as (_ & Hli & Hui & Hin & Hhi & Hre & _).
    unfold listed_queries in Hb. rewrite Hlisted in Hb.
    unfold Existing.removedOnLichess, Existing.name, Existing.included,
      Existing.hidden, Existing.lichessId in *.
    destruct (LichessStudy.removedOnLichess (Existing.study es)) eqn:Hr;
      destruct (String.eqb (LichessStudy.name (Existing.study es)) (Metadata.name ls))
        eqn:Hn;
      cbn [negb app exec_all] in Hb;
      repeat match type of Hb with
        | context [exec ?q ?s] =>
            let H := fresh "Hq" in
            destruct (exec q s) eqn:H; [|discriminate];
            apply exec_update_at in H; [|reflexivity]
        end;
      inversion Hb; subst;
      repeat match goal with
        | H : find_study _ (LichessStudy_table _) = option_map _ _ |- _ =>
            rewrite H; clear H
        end;
      rewrite Hfa; cbn [option_map]; eexists; (split; [reflexivity|]);
      try apply String.eqb_eq in Hn; cbn; repeat split; congruence.
  - apply Hoth. intros x Hx'. apply in_or_app. now left.
  - apply Forall_app. split.
    + apply Hoth. intros x Hx'. apply in_or_app. now right.
    + apply Forall_forall. intros q Hq'.
      apply in_flat_map in Hq'. destruct Hq' as (es' & Hes' & Hq').
      rewrite (removal_queries_target _ _ _ Hq'). intros Heq. inversion Heq as [Hid].
      assert (es' = es) by (eapply NoDup_map_inj; eauto). subst es'.
      unfold removal_queries, gone_from_lichess in Hq'.
      assert (Hin : Set_has (map Metadata.id (pre ++ ls :: post)) (Existing.lichessId es)
                    = true).
      { apply Set_has_true. rewrite Hlid. now apply in_map. }
      rewrite Hin in Hq'. exact Hq'.
Qed.

(** A row of the user under a listed Lichess id that is not the first
    of the user's rows under that id: the batch has no query for it. *)
Lemma later_listed_row E user_id username token st remote counts st' es first :
  NoDup (map LichessStudy.id (LichessStudy_table st)) ->
  fetchStudiesMetadata E username token = Return remote ->
  fetchAllStudyChanges E user_id username token st = (Return counts, st') ->
  In es (existing_studies_of user_id st) ->
  In (Existing.lichessId es) (map Metadata.id remote) ->
  find (fun e => String.eqb (Existing.lichessId e) (Existing.lichessId es))
       (existing_studies_of user_id st) = Some first ->
  Existing.id first <> Existing.id es ->
  exists study',
    find_study (Existing.id es) (LichessStudy_table st') = Some study'
    /\ same_named_study (Existing.study es) study'.
Proof.
  intros Hnd Hmeta Hrun Hes Hlisted Hfirst Hne.
  apply fetchAllStudyChanges_return in Hrun.
  destruct Hrun as (l & st1 & st2 & Hc & Hx & Hst & _ & _).
  pose proof (named_collect_changes E user_id username token st) as Hrows.
  rewrite Hc in Hrows. cbn [snd] in Hrows.
  pose proof (collect_changes_locals _ _ _ _ _ _ _ _ Hmeta Hc) as Hl. cbv zeta in Hl.
  pose proof (existing_ids_NoDup user_id st Hnd) as Hnde.
  set (existing := existing_studies_of user_id st) in *.
  destruct (existing_row _ _ _ Hnd Hes) as [Hrow0 _].
  destruct (Hrows _ _ Hrow0) as (s1 & Hf1 & Hsame).
  exists s1. split; [|exact Hsame].
  rewrite Hst, <- Hf1.
  apply (exec_all_other_study (queries l)); [|exact Hx].
  rewrite Hl. cbn [queries]. apply Forall_app.
  split; apply Forall_forall; intros q Hq;
    apply in_flat_map in Hq; destruct Hq as (x & Hx' & Hq).
  - apply listed_queries_target in Hq. destruct Hq as (es' & Hl' & ->).
    intros Heq. inversion Heq as [Hid].
    destruct (listed_as_some _ _ _ Hl') as [Hes' Hlid'].
    assert (es' = es) by (eapply NoDup_map_inj; eauto). subst es'.
    unfold listed_as in Hl'. destruct (Set_has _ _); [|discriminate].
    rewrite <- Hlid', Hfirst in Hl'. inversion Hl'. congruence.
  - rewrite (removal_queries_target _ _ _ Hq). intros Heq. inversion Heq as [Hid].
    assert (x = es) by (eapply NoDup_map_inj; eauto). subst x.
    unfold removal_queries, gone_from_lichess in Hq.
    apply Set_has_true in Hlisted. rewrite Hlisted in Hq. exact Hq.
Qed.

(** X15: for an id that Lichess lists (once), the pass works on the first
    of the user's rows stored under it.  After a pass that returns, that
    row carries the name Lichess gave and is not flagged as removed; it is
    still the user's, under the same Lichess id, and its [included] and
    [hidden] flags are as they were.  Any further row of the user under
    the same Lichess id is left with the name and the flags it had, also
    a name that differs from the one on Lichess and a removal flag. *)
Theorem fetchAllStudyChanges_listed E user_id username token st remote counts st' :
  NoDup (map LichessStudy.id (LichessStudy_table st)) ->
  NoDup (map Metadata.id remote) ->
  fetchStudiesMetadata E username token = Return remote ->
  fetchAllStudyChanges E user_id username token st = (Return counts, st') ->
  (forall ls es,
      In ls remote ->
      listed_as (existing_studies_of user_id st) ls = Some es ->
      exists study',
        find_study (Existing.id es) (LichessStudy_table st') = Some study'
        /\ LichessStudy.name study' = Metadata.name ls
        /\ LichessStudy.removedOnLichess study' = false
        /\ LichessStudy.lichessId study' = Metadata.id ls
        /\ LichessStudy.userId study' = user_id
        /\ LichessStudy.included study' = Existing.included es
        /\ LichessStudy.hidden study' = Existing.hidden es)
  /\ (forall es first,
        In es (existing_studies_of user_id st) ->
        In (Existing.lichessId es) (map Metadata.id remote) ->
        find (fun e => String.eqb (Existing.lichessId e) (Existing.lichessId es))
             (existing_studies_of user_id st) = Some first ->
        Existing.id first <> Existing.id es ->
        exists study',
          find_study (Existing.id es) (LichessStudy_table st') = Some study'
          /\ LichessStudy.name study' = Existing.name es
          /\ LichessStudy.removedOnLichess study' = Existing.removedOnLichess es
          /\ LichessStudy.included study' = Existing.included es
          /\ LichessStudy.hidden study' = Existing.hidden es).
Proof.
  intros Hnd Hndr Hmeta Hrun. split.
  - now apply (first_listed_row E user_id username token st remote counts st').
  - intros es first Hes Hlisted Hfirst Hne.
    destruct (later_listed_row E user_id username token st remote counts st' es first
                Hnd Hmeta Hrun Hes Hlisted Hfirst Hne)
      as (study' & Hf & (_ & _ & _ & Hi & Hh & Hr & _) & Hn).
    exists study'. split; [exact Hf|]. repeat split; assumption.
Qed.

Lemma fetchAllStudyChanges_listed_witness :
  let st' := snd (fetchAllStudyChanges Demo.healthy 42 "alice" "token" Demo.store_twice) in
  (exists study',
     find_study 1 (LichessStudy_table st') = Some study'
     /\ LichessStudy.name study' = "Y"%string
     /\ LichessStudy.removedOnLichess study' = false
     /\ LichessStudy.lichessId study' = "lichessA"%string
     /\ LichessStudy.userId study' = 42
     /\ LichessStudy.included study' = true
     /\ LichessStudy.hidden study' = false)
  /\ (exists study',
        find_study 6 (LichessStudy_table st') = Some study'
        /\ LichessStudy.name study' = "X"%string
        /\ LichessStudy.removedOnLichess study' = true
        /\ LichessStudy.included study' = false
        /\ LichessStudy.hidden study' = true).
Proof.
  cbv zeta.
  assert (Hnd : NoDup (map LichessStudy.id (LichessStudy_table Demo.store_twice)))
    by (simpl; solve_NoDup).
  assert (Hndr : NoDup (map Metadata.id [Demo.studyA; Demo.studyC])).
  { repeat constructor; simpl; intuition discriminate. }
  assert (Hrun : fetchAllStudyChanges Demo.healthy 42 "alice" "token" Demo.store_twice
                 = (Return (mkCounts 1 1 1 0),
                    snd (fetchAllStudyChanges Demo.healthy 42 "alice" "token"
                           Demo.store_twice)))
    by (vm_compute; reflexivity).
  destruct (fetchAllStudyChanges_listed Demo.healthy 42 "alice" "token" Demo.store_twice
              [Demo.studyA; Demo.studyC] _ _ Hnd Hndr eq_refl Hrun) as [Hfirst Hlater].
  split.
  - apply (Hfirst Demo.studyA Demo.existing_A0); [simpl; tauto | reflexivity].
  - apply (Hlater Demo.existing_A_again Demo.existing_A0);
      [simpl; tauto | simpl; tauto | reflexivity | cbv; discriminate].
Defined.

(** ** fetchAllStudyChanges: studies that are new on Lichess *)

#[local] Instance new_rows_stay_preorder orig : PreOrder (new_rows_stay orig).
Proof.
  split.
  - intros st. split; auto.
  - intros a b c [Hi1 Hr1] [Hi2 Hr2]. split; auto.
Qed.

Lemma new_rows_same_table orig st st' :
  LichessStudy_table st' = LichessStudy_table st -> new_rows_stay orig st st'.
Proof. intros H. unfold new_rows_stay. rewrite H. split; auto. Qed.

Lemma map_id_update_study i d l :
  map LichessStudy.id (update_study i d l) = map LichessStudy.id l.
Proof.
  unfold update_study. rewrite map_map. apply map_ext.
  intros s. now destruct (LichessStudy.id s =? i).
Qed.

Lemma update_study_outside i d l row :
  In row l -> LichessStudy.id row <> i -> In row (update_study i d l).
Proof.
  intros Hin Hne. unfold update_study. apply in_map_iff. exists row.
  apply Z.eqb_neq in Hne. now rewrite Hne.
Qed.

Lemma exec_writes_within orig q st st' row :
  writes_within orig q -> exec q st = Return st' ->
  In row (LichessStudy_table st) -> ~ In (LichessStudy.id row) orig ->
  In row (LichessStudy_table st').
Proof.
  intros Hq Hx Hin Hout.
  destruct q as [i d|i|k c u|i d]; cbn [exec] in Hx.
  - destruct (find_study i _); [|discriminate].
    assert (Hne : LichessStudy.id row <> i).
    { intros Heq. apply Hout. rewrite Heq. apply Hq. reflexivity. }
    destruct (LichessStudy.moves_set d); inversion Hx; subst st';
      cbn [LichessStudy_table with_studies with_moves];
      now apply update_study_outside.
  - destruct (find_study i _); [|discriminate].
    assert (Hne : LichessStudy.id row <> i).
    { intros Heq. apply Hout. rewrite Heq. apply Hq. reflexivity. }
    inversion Hx; subst st'. cbn [LichessStudy_table]. unfold delete_study.
    apply filter_In. split; [assumption|]. apply Z.eqb_neq in Hne. now rewrite Hne.
  - destruct (find _ _); destruct (all_studies_exist _ _); try discriminate;
      inversion Hx; subst st'; exact Hin.
  - destruct (find_move i _); [|discriminate].
    destruct (all_studies_exist _ _); [|discriminate]. inversion Hx; subst st'; exact Hin.
Qed.

Lemma exec_all_writes_within orig qs row :
  Forall (writes_within orig) qs ->
  forall st st', exec_all qs st = Return st' ->
  In row (LichessStudy_table st) -> ~ In (LichessStudy.id row) orig ->
  In row (LichessStudy_table st').
Proof.
  induction 1 as [|q qs Hq _ IH]; intros st st'; simpl.
  - intros H. now inversion H.
  - destruct (exec q st) as [st1|] eqn:He; [|discriminate].
    intros Hx Hin Hout. apply (IH _ _ Hx); [|assumption].
    eapply exec_writes_within; eauto.
Qed.

Lemma new_rows_update_content orig i lastModified fetched pgn :
  In i orig ->
  maintains (new_rows_stay orig)
            (await (LichessStudy_update i (content_data lastModified fetched pgn))).
Proof.
  intros Hi. apply maintains_await; preorder. intros st st' Hx. split.
  - cbn [exec] in Hx. destruct (find_study i _); [|discriminate].
    cbn [content_data LichessStudy.moves_set] in Hx. inversion Hx. subst st'.
    cbn [LichessStudy_table with_studies]. now rewrite map_id_update_study.
  - intros row. eapply exec_writes_within; [|exact Hx].
    intros j Hj. cbn [study_of_query] in Hj. now inversion Hj; subst.
Qed.

Lemma new_rows_lichess_study_step E user_id username token existing ids orig ls l :
  (forall es, In es existing -> In (Existing.id es) orig) ->
  maintains (new_rows_stay orig)
            (lichess_study_step E user_id username token existing ids ls l).
Proof.
  intros Hex. unfold lichess_study_step.
  destruct (negb _).
  - maintain.
    + intros st. now apply new_rows_same_table.
    + intros st. cbn [snd LichessStudy_create]. split.
      * intros Hi x Hx. cbn [LichessStudy_table with_studies].
        rewrite map_app. apply in_or_app. left. now apply Hi.
      * intros row Hin _. cbn [LichessStudy_table with_studies].
        apply in_or_app. now left.
  - destruct (find _ existing) as [es|] eqn:Hfind; [|apply maintains_throw; preorder].
    apply find_some in Hfind. destruct Hfind as [Hes _]. specialize (Hex es Hes).
    unfold existing_study_step. cbv zeta. maintain.
    + unfold fetchStudyUpdate.
      apply maintains_bind; preorder; [intros st; now apply new_rows_same_table|].
      intros [[study moves]|]; maintain; intros st; now apply new_rows_same_table.
    + unfold updateUnincludedStudy.
      apply maintains_bind_returns
        with (Q := fun found => forall s, found = Some s ->
                                          LichessStudy.id s = Existing.id es); preorder.
      * intros st. now apply new_rows_same_table.
      * intros st found st' H s ->. unfold LichessStudy_findUnique in H.
        inversion H as [[Hf Hst]]. now apply find_study_some in Hf.
      * intros [study|] Hid; maintain.
        -- intros st. now apply new_rows_same_table.
        -- rewrite (Hid study eq_refl). now apply new_rows_update_content.
Qed.

Lemma existing_ids_known user_id st es :
  In es (existing_studies_of user_id st) ->
  In (Existing.id es) (map LichessStudy.id (LichessStudy_table st)).
Proof.
  unfold existing_studies_of. intros Hes.
  apply in_map_iff in Hes. destruct Hes as (s & <- & Hs).
  apply filter_In in Hs. destruct Hs as [Hs _].
  exact (in_map LichessStudy.id _ _ Hs).
Qed.

(** X16: after a pass that returns, every study that Lichess lists under
    an id the user did not have is in the table, under an id that was not
    in use, as a row of the user with the Lichess id, the name and the
    modification time of the list entry, and with the PGN that
    [fetchStudy] returned for it, its guessed colour and its preview
    position.  The modification time that [fetchStudy] returned is not
    used. *)
Theorem fetchAllStudyChanges_new E user_id username token st remote counts st' :
  fetchStudiesMetadata E username token = Return remote ->
  fetchAllStudyChanges E user_id username token st = (Return counts, st') ->
  forall ls,
    In ls remote ->
    counted_as_new (existing_studies_of user_id st) ls = true ->
    exists pgn lm row,
      fetchStudy E (Metadata.id ls) username token = Return (pgn, lm)
      /\ In row (LichessStudy_table st')
      /\ ~ In (LichessStudy.id row) (map LichessStudy.id (LichessStudy_table st))
      /\ LichessStudy.lichessId row = Metadata.id ls
      /\ LichessStudy.userId row = user_id
      /\ LichessStudy.name row = Metadata.name ls
      /\ LichessStudy.lastModifiedOnLichess row = Metadata.updatedAt ls
      /\ LichessStudy.pgn row = pgn
      /\ LichessStudy.guessedColor row = guessColor E pgn
      /\ LichessStudy.previewFen row = makePreviewFen E pgn.
Proof.
  intros Hmeta Hrun ls Hls Hnew.
  apply fetchAllStudyChanges_return in Hrun.
  destruct Hrun as (l & st1 & st2 & Hc & Hx & Hst & _ & _).
  pose proof (collect_changes_locals _ _ _ _ _ _ _ _ Hmeta Hc) as Hl. cbv zeta in Hl.
  pose proof (collect_changes_return _ _ _ _ _ _ _ Hc) as (ls' & l1 & Hmeta' & Hloop & _).
  rewrite Hmeta in Hmeta'. inversion Hmeta'. subst ls'. clear Hmeta'.
  set (existing := existing_studies_of user_id st) in *.
  set (orig := map LichessStudy.id (LichessStudy_table st)).
  assert (Hex : forall es, In es existing -> In (Existing.id es) orig)
    by (intros es; apply existing_ids_known).
  assert (Hqs : Forall (writes_within orig) (queries l)).
  { rewrite Hl. cbn [queries]. apply Forall_app. split; apply Forall_forall; intros q Hq;
      apply in_flat_map in Hq; destruct Hq as (x & Hx' & Hq); intros i Hi.
    - apply listed_queries_target in Hq. destruct Hq as (es & Hes & Hq).
      rewrite Hq in Hi. inversion Hi. subst i.
      apply Hex. now apply listed_as_some in Hes.
    - rewrite (removal_queries_target _ _ _ Hq) in Hi. inversion Hi. subst i.
      now apply Hex. }
  destruct (in_split _ _ Hls) as (pre & post & Hsplit). rewrite Hsplit in Hloop.
  rewrite for_of_reaches in Hloop.
  set (body := lichess_study_step E user_id username token existing
                 (map Existing.lichessId existing)) in *.
  set (st0 := with_call (call_fetchStudiesMetadata username token) st) in *.
  pose proof (maintains_for_of (new_rows_stay orig) pre body (mkLocals 0 0 0 0 [])
                (fun x acc _ => new_rows_lichess_study_step E user_id username token
                                  existing _ orig x acc Hex) st0) as Hpre.
  destruct (for_of pre body (mkLocals 0 0 0 0 []) st0) as [[la|] sa]; [|discriminate].
  cbn [snd] in Hpre. destruct Hpre as [Hids _].
  specialize (Hids (incl_refl _)).
  unfold bind in Hloop.
  destruct (body ls la sa) as [[lb|] sb] eqn:Hstep; [|discriminate].
  pose proof (maintains_for_of (new_rows_stay orig) post body lb
                (fun x acc _ => new_rows_lichess_study_step E user_id username token
                                  existing _ orig x acc Hex) sb) as Hpost.
  rewrite Hloop in Hpost. cbn [snd] in Hpost. destruct Hpost as [_ Hrows].
  unfold body, lichess_study_step in Hstep.
  unfold counted_as_new in Hnew. rewrite Hnew in Hstep.
  unfold bind, await_fetchStudy in Hstep.
  destruct (fetchStudy E (Metadata.id ls) username token) as [[pgn lm]|]; [|discriminate].
  unfold LichessStudy_create, ret in Hstep. inversion Hstep. subst lb sb.
  cbn [LichessStudy_table with_studies with_call] in *.
  match type of Hrows with
  | context [LichessStudy_table sa ++ [?r]] => set (row := r) in *
  end.
  assert (Hfresh : ~ In (LichessStudy.id row) orig).
  { intros Hin. apply Hids in Hin. apply fresh_id_above in Hin.
    unfold row in Hin. cbn [LichessStudy.id] in Hin. lia. }
  exists pgn, lm, row. split; [reflexivity|]. split.
  - rewrite Hst. apply (exec_all_writes_within orig (queries l) row Hqs st1 st2 Hx);
      [|exact Hfresh].
    apply Hrows; [|exact Hfresh]. apply in_or_app. right. now left.
  - split; [exact Hfresh|]. unfold row. cbn. repeat split.
Qed.

Lemma fetchAllStudyChanges_new_witness :
  exists pgn lm row,
    fetchStudy Demo.healthy "lichessC" "alice" "token" = Return (pgn, lm)
    /\ In row (LichessStudy_table
                 (snd (fetchAllStudyChanges Demo.healthy 42 "alice" "token" Demo.store)))
    /\ ~ In (LichessStudy.id row) [1; 2; 3]
    /\ LichessStudy.lichessId row = "lichessC"%string
    /\ LichessStudy.userId row = 42
    /\ LichessStudy.name row = "C"%string
    /\ LichessStudy.lastModifiedOnLichess row = 7
    /\ LichessStudy.pgn row = pgn
    /\ LichessStudy.guessedColor row = guessColor Demo.healthy pgn
    /\ LichessStudy.previewFen row = makePreviewFen Demo.healthy pgn.
Proof.
  assert (Hrun : fetchAllStudyChanges Demo.healthy 42 "alice" "token" Demo.store
                 = (Return (mkCounts 1 1 1 2),
                    snd (fetchAllStudyChanges Demo.healthy 42 "alice" "token" Demo.store)))
    by (vm_compute; reflexivity).
  apply (fetchAllStudyChanges_new Demo.healthy 42 "alice" "token" Demo.store
           [Demo.studyA; Demo.studyC] _ _ eq_refl Hrun Demo.studyC);
    [simpl; tauto | reflexivity].
Defined.
